(** * virttest.libvirt_xml.vm_xml: a shallow embedding and its properties

    The module under study, [virttest/libvirt_xml/vm_xml.py], manipulates a
    libvirt domain description held as an ElementTree and pushes it back to
    libvirt through the [virsh] binding.  Python objects and exceptions are
    modelled by an exception-and-state monad; element objects, which the
    Python code holds by reference and mutates in place, are modelled by
    their position in the tree that owns them. *)

From Stdlib Require Import String Ascii List ZArith Bool Lia DecimalString.
Set Warnings "-register-all".
Import ListNotations.
Open Scope string_scope.
Open Scope list_scope.

(** ** Exceptions and the computation monad *)

(** The exceptions that can travel through [vm_xml.py].  [CmdError] is
    [autotest.client.shared.error.CmdError] and carries the tool's
    diagnostic; [LibvirtXMLError] is [xcepts.LibvirtXMLError] and carries its
    message.  [NotFoundError] and [OperationForbiddenError] are the accessor
    layer's failures, the others are Python built-ins. *)
Inductive exn : Type :=
| CmdError (detail : string)
| LibvirtXMLError (msg : string)
| NotFoundError
| OperationForbiddenError
| AttributeError
| AssertionError
| IndexError
| ValueError
| ReferenceError.

Inductive result (A : Type) : Type :=
| Ok (a : A)
| Raise (e : exn).
Arguments Ok {A} a.
Arguments Raise {A} e.

(** A computation reads and writes a state of type [S]; a raised exception
    keeps the state reached so far, as a Python exception keeps the
    mutations already made. *)
Definition M (S A : Type) : Type := S -> result A * S.

Definition ret {S A} (a : A) : M S A := fun s => (Ok a, s).

Definition raise {S A} (e : exn) : M S A := fun s => (Raise e, s).

Definition bind {S A B} (m : M S A) (k : A -> M S B) : M S B :=
  fun s => match m s with
           | (Ok a, s') => k a s'
           | (Raise e, s') => (Raise e, s')
           end.

(** [try: m except h]: the handler [h] decides, per exception, whether it
    catches (and what it runs) or lets the exception through. *)
Definition try_except {S A} (m : M S A) (h : exn -> M S A) : M S A :=
  fun s => match m s with
           | (Ok a, s') => (Ok a, s')
           | (Raise e, s') => h e s'
           end.

Definition get_state {S} : M S S := fun s => (Ok s, s).

(** A value or an exception computed without the state. *)
Definition lift_result {S A} (r : result A) : M S A := fun s => (r, s).

Declare Scope py_scope.
Delimit Scope py_scope with py.
Notation "x <- m ;; k" := (bind m (fun x => k))
  (at level 61, m at next level, right associativity) : py_scope.
Notation "m ;; k" := (bind m (fun _ => k))
  (at level 61, right associativity) : py_scope.
Open Scope py_scope.

(** Run a computation on the first (resp. second) component of a pair. *)
Definition on_fst {S T A} (m : M S A) : M (S * T) A :=
  fun st => let '(r, s') := m (fst st) in (r, (s', snd st)).

Definition on_snd {S T A} (m : M T A) : M (S * T) A :=
  fun st => let '(r, t') := m (snd st) in (r, (fst st, t')).

(** ** Python strings *)

(** [str.strip()] with no argument removes the bytes for which C's
    [isspace] holds: space, tab, newline, vertical tab, form feed and
    carriage return. *)
Definition is_space (c : ascii) : bool :=
  let n := nat_of_ascii c in
  (Nat.eqb n 32) || ((Nat.leb 9 n) && (Nat.leb n 13)).

Fixpoint lstrip (s : string) : string :=
  match s with
  | EmptyString => EmptyString
  | String c s' => if is_space c then lstrip s' else s
  end.

Fixpoint rstrip (s : string) : string :=
  match s with
  | EmptyString => EmptyString
  | String c s' =>
      match rstrip s' with
      | EmptyString => if is_space c then EmptyString else String c EmptyString
      | t => String c t
      end
  end.

Definition strip (s : string) : string := rstrip (lstrip s).

(** A string made of whitespace only. *)
Fixpoint all_space (s : string) : bool :=
  match s with
  | EmptyString => true
  | String c s' => is_space c && all_space s'
  end.

(** ["%d" % n] *)
Definition fmt_d (n : Z) : string := NilZero.string_of_int (Z.to_int n).

(** [x in l] for a list of strings. *)
Definition str_in (x : string) (l : list string) : bool :=
  existsb (String.eqb x) l.

(** [s.split(sep)] for a one-character separator. *)
Fixpoint split_on (sep : ascii) (s : string) : list string :=
  match s with
  | EmptyString => [EmptyString]
  | String c s' =>
      if Ascii.eqb c sep then EmptyString :: split_on sep s'
      else match split_on sep s' with
           | [] => [String c EmptyString]
           | w :: ws => String c w :: ws
           end
  end.

(** [needle in haystack] for strings. *)
Fixpoint is_prefix (p s : string) : bool :=
  match p, s with
  | EmptyString, _ => true
  | String a p', String b s' => Ascii.eqb a b && is_prefix p' s'
  | String _ _, EmptyString => false
  end.

Fixpoint is_substring (p s : string) : bool :=
  is_prefix p s ||
  match s with
  | EmptyString => false
  | String _ s' => is_substring p s'
  end.

(** Python sequence indexing [l[i]]: a negative index counts from the end,
    anything outside [-len, len) raises [IndexError]. *)
Definition py_index {A} (l : list A) (i : Z) : result A :=
  let len := Z.of_nat (length l) in
  let j := if (i <? 0)%Z then (len + i)%Z else i in
  if ((0 <=? j)%Z && (j <? len)%Z)%bool
  then match nth_error l (Z.to_nat j) with
       | Some x => Ok x
       | None => Raise IndexError
       end
  else Raise IndexError.

(** ** ElementTree *)

(** Modelled from the spec: the element tree library that [xml_utils]
    re-exports is not part of the sources at hand.  Its data follow section
    3 of the specification (a node has a tag, an ordered mapping of
    attributes, an optional text and its children in order) and its
    operations are the ones [vm_xml.py] calls, with the behaviour the
    calling code relies on: [find] returns [None] when nothing matches,
    a method called on [None] is an [AttributeError], and [remove(None)]
    is an [AssertionError].  The attribute dictionary is kept as an
    association list with unique keys, in insertion order. *)
Module ElementTree.

Inductive Element : Type :=
  mkElement (tag : string) (attrib : list (string * string))
            (text : option string) (children : list Element).

Definition tag (e : Element) : string :=
  match e with mkElement t _ _ _ => t end.
Definition attrib (e : Element) : list (string * string) :=
  match e with mkElement _ a _ _ => a end.
Definition text (e : Element) : option string :=
  match e with mkElement _ _ x _ => x end.
Definition children (e : Element) : list Element :=
  match e with mkElement _ _ _ c => c end.

Definition set_attrib (a : list (string * string)) (e : Element) : Element :=
  mkElement (tag e) a (text e) (children e).
Definition set_text (x : option string) (e : Element) : Element :=
  mkElement (tag e) (attrib e) x (children e).
Definition set_children (c : list Element) (e : Element) : Element :=
  mkElement (tag e) (attrib e) (text e) c.

(** [d.get(k)] and [d[k] = v] on an attribute dictionary. *)
Fixpoint dict_get (k : string) (d : list (string * string)) : option string :=
  match d with
  | [] => None
  | (k', v) :: d' => if String.eqb k k' then Some v else dict_get k d'
  end.

Fixpoint dict_del (k : string) (d : list (string * string))
  : list (string * string) :=
  match d with
  | [] => []
  | (k', v) :: d' => if String.eqb k k' then d' else (k', v) :: dict_del k d'
  end.

Fixpoint dict_set (k v : string) (d : list (string * string))
  : list (string * string) :=
  match d with
  | [] => [(k, v)]
  | (k', v') :: d' =>
      if String.eqb k k' then (k, v) :: d' else (k', v') :: dict_set k v d'
  end.

(** An element object held by the Python code is a reference into the tree
    of the document; it is modelled by the child positions leading to it
    from the root.  A Python variable that may hold [None] is an
    [option ref]. *)
Definition ref : Type := list nat.

Fixpoint node_at (r : ref) (e : Element) : option Element :=
  match r with
  | [] => Some e
  | i :: r' =>
      match nth_error (children e) i with
      | Some c => node_at r' c
      | None => None
      end
  end.

Fixpoint update_nth {A} (i : nat) (f : A -> A) (l : list A) : list A :=
  match l, i with
  | [], _ => []
  | x :: l', O => f x :: l'
  | x :: l', S i' => x :: update_nth i' f l'
  end.

Fixpoint remove_nth {A} (i : nat) (l : list A) : list A :=
  match l, i with
  | [], _ => []
  | _ :: l', O => l'
  | x :: l', S i' => x :: remove_nth i' l'
  end.

Fixpoint modify_at (r : ref) (f : Element -> Element) (e : Element) : Element :=
  match r with
  | [] => f e
  | i :: r' => set_children (update_nth i (modify_at r' f) (children e)) e
  end.

(** The children of [e] that carry tag [t], with their positions, in
    document order, counting positions from [i]. *)
Fixpoint tagged_from (i : nat) (t : string) (l : list Element) : list nat :=
  match l with
  | [] => []
  | c :: l' =>
      if String.eqb (tag c) t then i :: tagged_from (S i) t l'
      else tagged_from (S i) t l'
  end.

Definition tagged (t : string) (e : Element) : list nat :=
  tagged_from 0 t (children e).

(** A path is a sequence of tags separated by [/]; the empty steps of a
    leading or doubled separator and the step [.] select the element itself.
    (The wildcard and descendant steps of ElementPath are not used by
    [vm_xml.py].) *)
Definition path_steps (path : string) : list string :=
  filter (fun w => negb (String.eqb w "" || String.eqb w "."))
         (split_on "/"%char path).

(** [findall]: every element reached from [e] (itself at [r]) along the
    steps, in document order. *)
Fixpoint findall_from (steps : list string) (r : ref) (e : Element) : list ref :=
  match steps with
  | [] => [r]
  | t :: steps' =>
      flat_map (fun i => match nth_error (children e) i with
                         | Some c => findall_from steps' (r ++ [i]) c
                         | None => []
                         end)
               (tagged t e)
  end.

(** The references a method receives may be stale only if the Python code
    used an element after removing one of its ancestors' earlier siblings
    or the element itself, which [vm_xml.py] never does; the model raises
    [ReferenceError] there. *)
Definition deref (r : ref) : M Element Element :=
  fun doc => match node_at r doc with
             | Some e => (Ok e, doc)
             | None => (Raise ReferenceError, doc)
             end.

(** [elem.findall(path)]; calling it on [None] is an [AttributeError]. *)
Definition findall (elem : option ref) (path : string) : M Element (list ref) :=
  match elem with
  | None => raise AttributeError
  | Some r => e <- deref r ;; ret (findall_from (path_steps path) r e)
  end.

(** [elem.find(path)]: the first match, or [None]. *)
Definition find (elem : option ref) (path : string) : M Element (option ref) :=
  l <- findall elem path ;; ret (hd_error l).

(** [elem.get(key)]: the attribute's value, or [None]. *)
Definition get (elem : option ref) (key : string) : M Element (option string) :=
  match elem with
  | None => raise AttributeError
  | Some r => e <- deref r ;; ret (dict_get key (attrib e))
  end.

(** [elem.set(key, value)] *)
Definition set (elem : option ref) (key value : string) : M Element unit :=
  match elem with
  | None => raise AttributeError
  | Some r =>
      _ <- deref r ;;
      fun doc => (Ok tt, modify_at r (fun e => set_attrib (dict_set key value (attrib e)) e) doc)
  end.

(** [del elem.attrib[key]] for a key that is present. *)
Definition del_attrib (elem : option ref) (key : string) : M Element unit :=
  match elem with
  | None => raise AttributeError
  | Some r =>
      _ <- deref r ;;
      fun doc => (Ok tt, modify_at r (fun e => set_attrib (dict_del key (attrib e)) e) doc)
  end.

(** [elem.text] and [elem.text = value] *)
Definition get_text (elem : option ref) : M Element (option string) :=
  match elem with
  | None => raise AttributeError
  | Some r => e <- deref r ;; ret (text e)
  end.

Definition put_text (elem : option ref) (value : option string) : M Element unit :=
  match elem with
  | None => raise AttributeError
  | Some r =>
      _ <- deref r ;;
      fun doc => (Ok tt, modify_at r (set_text value) doc)
  end.

(** [SubElement(parent, tag, attrib)]: a new element with no text and no
    children, appended to [parent]; the new element is returned. *)
Definition SubElement (parent : option ref) (t : string)
           (a : list (string * string)) : M Element ref :=
  match parent with
  | None => raise AttributeError
  | Some r =>
      p <- deref r ;;
      fun doc =>
        (Ok (r ++ [length (children p)]),
         modify_at r (fun e => set_children (children e ++ [mkElement t a None []]) e) doc)
  end.

Fixpoint ref_eqb (r1 r2 : ref) : bool :=
  match r1, r2 with
  | [], [] => true
  | i :: r1', j :: r2' => Nat.eqb i j && ref_eqb r1' r2'
  | _, _ => false
  end.

(** [split_last r]: the parent and the position of a non-root reference. *)
Fixpoint split_last (r : ref) : option (ref * nat) :=
  match r with
  | [] => None
  | [i] => Some ([], i)
  | j :: r' =>
      match split_last r' with
      | Some (p, i) => Some (j :: p, i)
      | None => None
      end
  end.

(** [parent.remove(child)].  [vm_xml.py] relies on [remove(None)] raising
    [AssertionError] (the library asserts that its argument is an element);
    a child that is not among [parent]'s children is the [ValueError] of
    [list.remove]. *)
Definition remove (parent child : option ref) : M Element unit :=
  match parent with
  | None => raise AttributeError
  | Some p =>
      match child with
      | None => raise AssertionError
      | Some c =>
          _ <- deref p ;;
          _ <- deref c ;;
          match split_last c with
          | Some (p', i) =>
              if ref_eqb p' p
              then fun doc =>
                     (Ok tt, modify_at p (fun e => set_children (remove_nth i (children e)) e) doc)
              else raise ValueError
          | None => raise ValueError
          end
      end
  end.

(** The tree object itself ([ElementTree], of which [XMLTreeFile] is a
    subclass): [getroot], and [find]/[findall] from the root, where a
    leading [/] is read as [./]. *)
Definition getroot : M Element (option ref) := ret (Some []).

Definition tree_find (path : string) : M Element (option ref) :=
  find (Some []) path.

Definition tree_findall (path : string) : M Element (list ref) :=
  findall (Some []) path.

End ElementTree.

(** ** The accessor layer *)

(** Modelled from the spec: [virttest/libvirt_xml/accessors.py] is not part
    of the sources at hand, so the property accessors that
    [VMXMLBase.__init__] and [VMCPUXML.__init__] install follow section 4.2
    of the specification.  A descriptor names a location (parent path and
    tag), what it selects there (the text or one attribute) and the
    operations it forbids.  [get] fails with [NotFoundError] when the node
    (or the attribute) is absent; [set] locates or creates the nodes along
    the path and stores the value; [delete] removes the located node (for an
    attribute property, the attribute) and, the specification giving
    [NotFoundError] to [get] only, leaves the document as it is when there
    is nothing to remove; a forbidden operation fails with
    [OperationForbiddenError] before the document is looked at. *)
Module accessors.
Import ElementTree.

Inductive operation : Type := OpGet | OpSet | OpDel.

Definition operation_eqb (a b : operation) : bool :=
  match a, b with
  | OpGet, OpGet | OpSet, OpSet | OpDel, OpDel => true
  | _, _ => false
  end.

Inductive selector : Type :=
| ElementText
| Attribute (attribute : string).

Record PropertyDescriptor : Type := mkDescriptor {
  property_name : string;
  forbidden : list operation;
  parent_xpath : string;
  tag_name : string;
  select : selector
}.

Definition forbids (d : PropertyDescriptor) (op : operation) : bool :=
  existsb (operation_eqb op) (forbidden d).

(** The steps from the root to the property's node. *)
Definition location (d : PropertyDescriptor) : list string :=
  path_steps (parent_xpath d) ++ [tag_name d].

Definition locate (d : PropertyDescriptor) : M Element (option ref) :=
  fun doc => (Ok (hd_error (findall_from (location d) [] doc)), doc).

Fixpoint locate_or_create (steps : list string) (r : ref) : M Element ref :=
  match steps with
  | [] => ret r
  | t :: steps' =>
      c <- find (Some r) t ;;
      match c with
      | Some r' => locate_or_create steps' r'
      | None => r' <- SubElement (Some r) t [] ;; locate_or_create steps' r'
      end
  end.

Definition getter (d : PropertyDescriptor) : M Element (option string) :=
  if forbids d OpGet then raise OperationForbiddenError
  else
    node <- locate d ;;
    match node with
    | None => raise NotFoundError
    | Some r =>
        match select d with
        | ElementText => get_text (Some r)
        | Attribute a =>
            v <- get (Some r) a ;;
            match v with
            | None => raise NotFoundError
            | Some _ => ret v
            end
        end
    end.

Definition setter (d : PropertyDescriptor) (value : string) : M Element unit :=
  if forbids d OpSet then raise OperationForbiddenError
  else
    r <- locate_or_create (location d) [] ;;
    match select d with
    | ElementText => put_text (Some r) (Some value)
    | Attribute a => set (Some r) a value
    end.

Definition delter (d : PropertyDescriptor) : M Element unit :=
  if forbids d OpDel then raise OperationForbiddenError
  else
    node <- locate d ;;
    match node with
    | None => ret tt
    | Some r =>
        match select d with
        | ElementText =>
            match split_last r with
            | Some (p, _) => remove (Some p) (Some r)
            | None => raise ValueError
            end
        | Attribute a =>
            v <- get (Some r) a ;;
            match v with
            | None => ret tt
            | Some _ => del_attrib (Some r) a
            end
        end
    end.

(** [XMLElementText(property_name, libvirtxml, forbidden, parent_xpath,
    tag_name)]; [forbidden=None] forbids nothing and [forbidden=['del']]
    forbids deletion. *)
Definition XMLElementText (name : string) (forbidden : list operation)
           (parent_xpath tag_name : string) : PropertyDescriptor :=
  mkDescriptor name forbidden parent_xpath tag_name ElementText.

End accessors.

(** ** The virsh binding, the VM object and the host state *)

Import ElementTree.

Definition nl : string := String "010"%char EmptyString.

(** A call of the external tool succeeds or fails with the tool's
    diagnostic, which [virsh] raises as [error.CmdError]. *)
Inductive cmd_result (A : Type) : Type :=
| CmdOk (a : A)
| CmdFail (detail : string).
Arguments CmdOk {A} a.
Arguments CmdFail {A} detail.

(** Modelled from the spec: [virttest/virsh.py] is not part of the sources
    at hand; section 4.4 of the specification gives its contract, dump,
    define and undefine, each of which may fail with the tool's diagnostic.
    These are the three operations of [virsh] that [vm_xml.py] calls, over
    an arbitrary state [W] of the virtualization host.  [dumpxml] hands back
    the domain description, which the [xml] property turns into a tree; the
    model takes it as the tree.  [remove_domain] receives whatever the
    [vm_name] property returned, [None] included. *)
Record virsh_binding (W : Type) : Type := mkVirsh {
  virsh_dumpxml : string -> W -> cmd_result Element * W;
  virsh_remove_domain : option string -> W -> cmd_result unit * W;
  virsh_define : Element -> W -> cmd_result unit * W
}.
Arguments virsh_dumpxml {W} _ _ _.
Arguments virsh_remove_domain {W} _ _ _.
Arguments virsh_define {W} _ _ _.

Inductive virsh_call : Type :=
| CallDumpxml (name : string)
| CallRemoveDomain (name : option string)
| CallDefine (xml : Element).

Definition is_define (c : virsh_call) : bool :=
  match c with CallDefine _ => true | _ => false end.

(** Modelled from the spec: the class of the [vm] object that [vm_rename]
    receives is not part of the sources at hand.  The object is kept as the
    fields [vm_rename] reads and writes and whether the domain is running;
    [destroy] leaves it not running (section 4.3: an active resource is
    deactivated before the renaming). *)
Record VM : Type := mkVM {
  name : string;
  uuid : option string;
  alive : bool
}.

(** What a static method of [VMXML] can touch: the host behind [virsh], the
    calls made to it so far, and the [vm] object (mutated in place by
    [vm_rename]). *)
Record host (W : Type) : Type := mkHost {
  world : W;
  calls : list virsh_call;
  vm : VM
}.
Arguments mkHost {W} _ _ _.
Arguments world {W} _.
Arguments calls {W} _.
Arguments vm {W} _.

Section VMXML.

Context {W : Type} (virsh : virsh_binding W).

(** One call of the binding: it is recorded, the host moves on, and a
    failure is raised as [CmdError]. *)
Definition call {A} (c : virsh_call) (f : W -> cmd_result A * W) : M (host W) A :=
  fun h =>
    let '(r, w') := f (world h) in
    let h' := mkHost w' (calls h ++ [c]) (vm h) in
    match r with
    | CmdOk a => (Ok a, h')
    | CmdFail detail => (Raise (CmdError detail), h')
    end.

Definition dumpxml (vm_name : string) : M (host W) Element :=
  call (CallDumpxml vm_name) (virsh_dumpxml virsh vm_name).

Definition remove_domain (vm_name : option string) : M (host W) unit :=
  call (CallRemoveDomain vm_name) (virsh_remove_domain virsh vm_name).

Definition virsh_define_call (xml : Element) : M (host W) unit :=
  call (CallDefine xml) (virsh_define virsh xml).

(** [vm.is_alive()], [vm.destroy(gracefully=True)] and the assignments to
    [vm.uuid] and [vm.name]. *)
Definition get_vm : M (host W) VM := fun h => (Ok (vm h), h).

Definition put_vm (v : VM) : M (host W) unit :=
  fun h => (Ok tt, mkHost (world h) (calls h) v).

Definition vm_destroy : M (host W) unit :=
  v <- get_vm ;; put_vm (mkVM (name v) (uuid v) false).

Definition vm_set_uuid (u : option string) : M (host W) unit :=
  v <- get_vm ;; put_vm (mkVM (name v) u (alive v)).

Definition vm_set_name (n : string) : M (host W) unit :=
  v <- get_vm ;; put_vm (mkVM n (uuid v) (alive v)).

(** A method of a [VMXML] instance runs on the instance's document and the
    host.  [invoke self m] is the call [self.m()] made from a static
    method: it yields the method's value and the instance as the method
    left it. *)
Definition instance : Type := Element * host W.

Definition invoke {A} (self : Element) (m : M instance A) : M (host W) (A * Element) :=
  fun h => match m (self, h) with
           | (Ok a, (self', h')) => (Ok (a, self'), h')
           | (Raise e, (_, h')) => (Raise e, h')
           end.

(** The frame of a static method that works on one instance: its local
    variable [vmxml], unbound at first, and the host.  [bind_vmxml m] is the
    assignment [vmxml = m(...)] and [vmxml_do m] the call [vmxml.m()], which
    leaves the instance as the method left it, also when the method raises.
    ([vm_xml.py] never uses the name before binding it; the model raises
    [ReferenceError] there.)  [static m] is the call of the static method:
    it starts on a new frame, which is gone when the call ends. *)
Definition frame : Type := option Element * host W.

Definition bind_vmxml (m : M (host W) Element) : M frame unit :=
  fun f => match m (snd f) with
           | (Ok d, h') => (Ok tt, (Some d, h'))
           | (Raise e, h') => (Raise e, (fst f, h'))
           end.

Definition vmxml_do {A} (m : M instance A) : M frame A :=
  fun f => match fst f with
           | Some self =>
               let '(r, (self', h')) := m (self, snd f) in (r, (Some self', h'))
           | None => (Raise ReferenceError, f)
           end.

Definition static {A} (m : M frame A) : M (host W) A :=
  fun h => let '(r, (_, h')) := m (None, h) in (r, h').

(** *** class VMXMLBase *)

(** The properties of [VMXMLBase.__init__] that the methods below use. *)
Definition vm_name_property : accessors.PropertyDescriptor :=
  accessors.XMLElementText "vm_name" [] "/" "name".

Definition uuid_property : accessors.PropertyDescriptor :=
  accessors.XMLElementText "uuid" [] "/" "uuid".

(** *** class VMXML *)

(** [VMXML.new_from_dumpxml(vm_name)] *)
Definition new_from_dumpxml (vm_name : string) : M (host W) Element :=
  dumpxml vm_name.

(** [self.undefine()] *)
Definition undefine : M instance unit :=
  vm_name <- on_fst (accessors.getter vm_name_property) ;;
  on_snd (remove_domain vm_name).

(** [self.define()]: [self.xml] names the backing file of the instance's
    tree, which mirrors the tree. *)
Definition define : M instance unit :=
  xml <- on_fst get_state ;;
  on_snd (virsh_define_call xml).

(** [VMXML.vm_rename(vm, new_name, uuid)], on its frame.  [backup] is the
    copy made of the instance before anything is done to it.  The
    [del vmxml] of the two handlers only unbinds the name: the frame keeps
    the instance as it is when the exception leaves. *)
Definition vm_rename_frame (new_name : string) (new_uuid : option string)
  : M frame VM :=
  v <- on_snd get_vm ;;
  on_snd (if alive v then vm_destroy else ret tt) ;;
  v <- on_snd get_vm ;;
  bind_vmxml (new_from_dumpxml (name v)) ;;
  backup <- vmxml_do (on_fst get_state) ;;
  _ <- try_except (vmxml_do undefine)
         (fun e => match e with
                   | CmdError detail =>
                       raise (LibvirtXMLError
                                ("Error reported while undefining VM:" ++ nl ++ detail))
                   | _ => raise e
                   end) ;;
  vmxml_do (on_fst (accessors.setter vm_name_property new_name)) ;;
  match new_uuid with
  | None =>
      vmxml_do (on_fst (accessors.delter uuid_property)) ;;
      on_snd (vm_set_uuid None)
  | Some u =>
      vmxml_do (on_fst (accessors.setter uuid_property u)) ;;
      on_snd (vm_set_uuid (Some u))
  end ;;
  _ <- try_except (vmxml_do define)
         (fun e => match e with
                   | CmdError detail =>
                       _ <- on_snd (invoke backup define) ;;
                       raise (LibvirtXMLError
                                ("Error reported while defining VM:" ++ nl ++ detail))
                   | _ => raise e
                   end) ;;
  on_snd (vm_set_name new_name) ;;
  on_snd get_vm.

Definition vm_rename (new_name : string) (new_uuid : option string) : M (host W) VM :=
  static (vm_rename_frame new_name new_uuid).

(** [self.get_primary_serial()] *)
Record serial_features : Type := mkSerialFeatures {
  feat_serial : option ref;
  feat_type : option string;
  feat_port : option string
}.

Definition get_primary_serial : M Element serial_features :=
  devices <- tree_find "devices" ;;
  primary_serial <- find devices "serial" ;;
  serial_type <- get primary_serial "type" ;;
  target <- find primary_serial "target" ;;
  serial_port <- get target "port" ;;
  ret (mkSerialFeatures primary_serial serial_type serial_port).

(** The part of [set_primary_serial] that edits the tree (from the [try]
    to the removal of the source). *)
Definition edit_primary_serial (type port : string) (path : option string)
  : M Element unit :=
  serial <- try_except (f <- get_primary_serial ;; ret (feat_serial f))
              (fun e => match e with
                        | AttributeError =>
                            devices <- tree_find "devices" ;;
                            serial <- SubElement devices "serial" [("type", "pty")] ;;
                            _ <- SubElement (Some serial) "target" [("port", "0")] ;;
                            ret (Some serial)
                        | _ => raise e
                        end) ;;
  set serial "type" type ;;
  target <- find serial "target" ;;
  set target "port" port ;;
  match path with
  | Some p =>
      source <- find serial "source" ;;
      set source "path" p
  | None =>
      try_except (source <- find serial "source" ;; remove serial source)
        (fun e => match e with
                  | AssertionError => ret tt
                  | _ => raise e
                  end)
  end.

(** [VMXML.set_primary_serial(vm_name, type, port, path=None)].  After the
    edit the tree is written to its backing file and the instance reloads
    that file, which leaves the instance with the edited tree. *)
Definition set_primary_serial (vm_name type port : string) (path : option string)
  : M (host W) unit :=
  vmxml <- new_from_dumpxml vm_name ;;
  r <- invoke vmxml (on_fst (edit_primary_serial type port path)) ;;
  let vmxml := snd r in
  r <- invoke vmxml undefine ;;
  _ <- invoke (snd r) define ;;
  ret tt.

(** [self.check_cpu_mode(mode)] *)
Definition cpu_mode : list string := ["custom"; "host-model"; "host-passthrough"].

Definition check_cpu_mode (mode : string) : result unit :=
  if negb (str_in (strip mode) cpu_mode)
  then Raise (LibvirtXMLError ("The cpu mode '" ++ mode ++ "' is invalid!"))
  else Ok tt.

(** The part of [set_cpu_mode] that edits the tree. *)
Definition edit_cpu_mode (mode : string) : M Element unit :=
  try_except (cpu <- tree_find "/cpu" ;;
              _ <- get cpu "mode" ;;
              set cpu "mode" mode)
    (fun e => match e with
              | AttributeError =>
                  root <- getroot ;;
                  _ <- SubElement root "cpu" [("mode", mode)] ;;
                  ret tt
              | _ => raise e
              end).

(** [VMXML.set_cpu_mode(vm_name, mode)], on its frame. *)
Definition set_cpu_mode_frame (vm_name mode : string) : M frame unit :=
  bind_vmxml (new_from_dumpxml vm_name) ;;
  vmxml_do (lift_result (check_cpu_mode mode)) ;;
  vmxml_do (on_fst (edit_cpu_mode mode)) ;;
  vmxml_do undefine ;;
  vmxml_do define.

Definition set_cpu_mode (vm_name mode : string) : M (host W) unit :=
  static (set_cpu_mode_frame vm_name mode).

(** [VMXML.set_vm_vcpus(vm_name, value)]: the [vcpu] property is an
    [XMLElementInt] at [/vcpu]; a value is stored in base 10, [None]
    deletes the property. *)
Definition vcpu_property : accessors.PropertyDescriptor :=
  accessors.mkDescriptor "vcpu" [] "/" "vcpu" accessors.ElementText.

Definition set_vm_vcpus (vm_name : string) (value : option Z) : M (host W) unit :=
  vmxml <- new_from_dumpxml vm_name ;;
  r <- match value with
       | Some n => invoke vmxml (on_fst (accessors.setter vcpu_property (fmt_d n)))
       | None => invoke vmxml (on_fst (accessors.delter vcpu_property))
       end ;;
  r <- invoke (snd r) undefine ;;
  _ <- invoke (snd r) define ;;
  ret tt.

(** A Python dictionary with keys of type [K], as an association list with
    unique keys; [d[k] = v] replaces the value of a key that is present. *)
Fixpoint pydict_set {K V} (eqb : K -> K -> bool) (k : K) (v : V) (d : list (K * V))
  : list (K * V) :=
  match d with
  | [] => [(k, v)]
  | (k', v') :: d' =>
      if eqb k k' then (k, v) :: d' else (k', v') :: pydict_set eqb k v d'
  end.

Definition dev_eqb (a b : option string) : bool :=
  match a, b with
  | Some x, Some y => String.eqb x y
  | None, None => true
  | _, _ => false
  end.

(** [self.get_disk_all()]: the loop over the disk nodes, then the method.
    The key of a disk is whatever [node.find('target').get('dev')] gives,
    [None] included. *)
Fixpoint get_disk_all_loop (disk_nodes : list ref) (disks : list (option string * ref))
  : M Element (list (option string * ref)) :=
  match disk_nodes with
  | [] => ret disks
  | node :: rest =>
      target <- find (Some node) "target" ;;
      dev <- get target "dev" ;;
      get_disk_all_loop rest (pydict_set dev_eqb dev node disks)
  end.

Definition get_disk_all : M Element (list (option string * ref)) :=
  devices <- tree_find "devices" ;;
  disk_nodes <- findall devices "disk" ;;
  get_disk_all_loop disk_nodes [].

(** [VMXML.get_disk_blk(vm_name)]: the keys of the dictionary (Python fixes
    no order for them; they are listed here as they were first inserted).
    The dictionary is never [None], so the final [return None] is dead. *)
Definition get_disk_blk (vm_name : string) : M (host W) (list (option string)) :=
  vmxml <- new_from_dumpxml vm_name ;;
  r <- invoke vmxml (on_fst get_disk_all) ;;
  ret (map fst (fst r)).

(** [VMXML.get_disk_count(vm_name)]; the final [return 0] is dead for the
    same reason. *)
Definition get_disk_count (vm_name : string) : M (host W) Z :=
  vmxml <- new_from_dumpxml vm_name ;;
  r <- invoke vmxml (on_fst get_disk_all) ;;
  ret (Z.of_nat (length (fst r))).

(** [self.get_numa_params(vm_name)].  The dictionary [numa_params] is
    filled in place, so it is part of the state next to the tree, and what
    was stored before an exception stays stored; both [except:] clauses
    catch every exception and only log. *)
Definition numa_params_body : M (Element * list (string * option string)) unit :=
  try_except
    (numa <- on_fst (tree_find "numatune") ;;
     try_except
       (memory <- on_fst (find numa "memory") ;;
        mode <- on_fst (get memory "mode") ;;
        d <- on_snd get_state ;;
        on_snd (fun _ => (Ok tt, pydict_set String.eqb "mode" mode d)) ;;
        memory <- on_fst (find numa "memory") ;;
        nodeset <- on_fst (get memory "nodeset") ;;
        d <- on_snd get_state ;;
        on_snd (fun _ => (Ok tt, pydict_set String.eqb "nodeset" nodeset d)))
       (fun _ => ret tt))
    (fun _ => ret tt).

Definition get_numa_params (vm_name : string)
  : M (host W) (list (string * option string)) :=
  vmxml <- new_from_dumpxml vm_name ;;
  fun h => match numa_params_body (vmxml, []) with
           | (Ok _, (_, numa_params)) => (Ok numa_params, h)
           | (Raise e, _) => (Raise e, h)
           end.

End VMXML.

(** *** class VMCPUXML *)

(** The properties installed by [VMCPUXML.__init__]: deletion of [model]
    and [vendor] is forbidden. *)
Definition model_property : accessors.PropertyDescriptor :=
  accessors.XMLElementText "model" [accessors.OpDel] "/cpu" "model".

Definition vendor_property : accessors.PropertyDescriptor :=
  accessors.XMLElementText "vendor" [accessors.OpDel] "/cpu" "vendor".

(** [self.get_feature_list()], which is what [self.feature_list] reads. *)
Definition get_feature_list : M Element (list ref) :=
  tree_findall "/cpu/feature".

(** [self.get_feature_name(num)] *)
Definition get_feature_name (num : Z) : M Element (option string) :=
  feature_list <- get_feature_list ;;
  let count := Z.of_nat (length feature_list) in
  if (num >=? count)%Z
  then raise (LibvirtXMLError
                ("Get " ++ fmt_d num ++ " from " ++ fmt_d count ++ " features"))
  else
    feature_list <- get_feature_list ;;
    node <- lift_result (py_index feature_list num) ;;
    get (Some node) "name".

(** [self.remove_feature(num)] *)
Definition remove_feature (num : Z) : M Element unit :=
  feature_list <- get_feature_list ;;
  let count := Z.of_nat (length feature_list) in
  if (num >=? count)%Z
  then raise (LibvirtXMLError
                ("Remove " ++ fmt_d num ++ " from " ++ fmt_d count ++ " features"))
  else
    feature_list <- get_feature_list ;;
    feature_remove_node <- lift_result (py_index feature_list num) ;;
    cpu_node <- tree_find "/cpu" ;;
    remove cpu_node (Some feature_remove_node).

(** [self.set_feature(num, value)] *)
Definition set_feature (num : Z) (value : string) : M Element unit :=
  feature_list <- get_feature_list ;;
  let count := Z.of_nat (length feature_list) in
  if (num >=? count)%Z
  then raise (LibvirtXMLError
                ("Set " ++ fmt_d num ++ " from " ++ fmt_d count ++ " features"))
  else
    feature_list <- get_feature_list ;;
    feature_set_node <- lift_result (py_index feature_list num) ;;
    set (Some feature_set_node) "name" value.

(** [self.add_feature(value)] *)
Definition add_feature (value : string) : M Element unit :=
  cpu_node <- tree_find "/cpu" ;;
  _ <- SubElement cpu_node "feature" [("name", value)] ;;
  ret tt.

(** [str.find(sub)]: the position of the first occurrence, or -1. *)
Fixpoint str_find_from (i : Z) (sub s : string) : Z :=
  if is_prefix sub s then i
  else match s with
       | EmptyString => (-1)%Z
       | String _ s' => str_find_from (i + 1) sub s'
       end.

Definition str_find (s sub : string) : Z := str_find_from 0 sub s.

(** [f.readline()] on a file read from its start: the first line with its
    newline, or the whole content when it has none. *)
Fixpoint readline (content : string) : string :=
  match content with
  | EmptyString => EmptyString
  | String c rest =>
      if Ascii.eqb c "010"%char then String c EmptyString
      else String c (readline rest)
  end.

(** [list(set(a + b))]: the elements of both lists, each once (Python fixes
    no order for the result). *)
Fixpoint dedup (l : list string) : list string :=
  match l with
  | [] => []
  | x :: l' => if str_in x l' then dedup l' else x :: dedup l'
  end.

(** [self.check_feature_name(value)], given the content of
    [/proc/cpuinfo].  The [for] statement iterates over the string that
    [readline()] returns, so [line] is each character of the first line in
    turn. *)
Fixpoint check_feature_name_loop (chars : string) (sys_feature : list string)
  : result (list string) :=
  match chars with
  | EmptyString => Ok sys_feature
  | String ch rest =>
      let line := String ch EmptyString in
      if negb (str_find line "flags" =? -1)%Z
      then match py_index (split_on ":"%char line) 1 with
           | Ok field =>
               let feature_names := strip field in
               let sys_sub_feature := split_on " "%char feature_names in
               check_feature_name_loop rest (dedup (sys_feature ++ sys_sub_feature))
           | Raise e => Raise e
           end
      else check_feature_name_loop rest sys_feature
  end.

Definition check_feature_name (cpuinfo value : string) : result bool :=
  match check_feature_name_loop (readline cpuinfo) [] with
  | Ok sys_feature => Ok (str_in value sys_feature)
  | Raise e => Raise e
  end.

(** ** tests/mac_change.py *)

(** The pure string steps of [run_mac_change]. *)
Module mac_change.

(** [sep.join(words)] *)
Fixpoint join (sep : string) (words : list string) : string :=
  match words with
  | [] => EmptyString
  | [w] => w
  | w :: ws => w ++ sep ++ join sep ws
  end.

(** ["".join(new_mac.split(":"))], the address handed to the Windows
    change command. *)
Definition mac_without_colons (new_mac : string) : string :=
  join "" (split_on ":"%char new_mac).

(** ["-".join(new_mac.split(":"))], the address looked for in the output
    of [ipconfig /all]. *)
Definition mac_with_dashes (new_mac : string) : string :=
  join "-" (split_on ":"%char new_mac).

(** [\w] for a byte string: a letter, a digit or the underscore. *)
Definition is_word (c : ascii) : bool :=
  let n := nat_of_ascii c in
  (Nat.leb 48 n && Nat.leb n 57) || (Nat.leb 65 n && Nat.leb n 90)
  || (Nat.leb 97 n && Nat.leb n 122) || Nat.eqb n 95.

(** [re.search(r'(\w):', info, re.M)] and [.group()]: the leftmost word
    character that is followed by a colon, with that colon. *)
Fixpoint search_drive (info : string) : option string :=
  match info with
  | EmptyString => None
  | String c rest =>
      match rest with
      | String d _ =>
          if is_word c && Ascii.eqb d ":"%char
          then Some (String c (String ":"%char EmptyString))
          else search_drive rest
      | EmptyString => None
      end
  end.

(** [get_drive_num(session, path)], given what the guest printed for the
    [wmic] command; [error.TestError] is the right-hand side. *)
Definition get_drive_num (output path : string) : string + string :=
  let info := strip output in
  match search_drive info with
  | Some drive_num => inl drive_num
  | None => inr ("No path " ++ path ++ " in your guest")%string
  end.

End mac_change.

(** ** A scripted libvirt *)

(** A small host to run the methods on: the defined domains by name, and a
    script of faults, one entry per call still to come ([Some detail] makes
    that call fail with [detail]; [None], or an exhausted script, lets it
    through). *)
Module Libvirt.

Record t : Type := mk {
  domains : list (string * Element);
  faults : list (option string)
}.

Fixpoint lookup (n : string) (l : list (string * Element)) : option Element :=
  match l with
  | [] => None
  | (n', d) :: l' => if String.eqb n n' then Some d else lookup n l'
  end.

Fixpoint delete (n : string) (l : list (string * Element)) : list (string * Element) :=
  match l with
  | [] => []
  | (n', d) :: l' => if String.eqb n n' then delete n l' else (n', d) :: delete n l'
  end.

Definition domain_name (d : Element) : option string :=
  match tagged "name" d with
  | [] => None
  | i :: _ => match nth_error (children d) i with
              | Some c => text c
              | None => None
              end
  end.

(** Consume one entry of the script, then run [op] unless it was a fault. *)
Definition step {A} (op : t -> cmd_result A * t) (w : t) : cmd_result A * t :=
  match faults w with
  | Some detail :: fs => (CmdFail detail, mk (domains w) fs)
  | None :: fs => op (mk (domains w) fs)
  | [] => op w
  end.

Definition dumpxml (n : string) : t -> cmd_result Element * t :=
  step (fun w => match lookup n (domains w) with
                 | Some d => (CmdOk d, w)
                 | None => (CmdFail ("Domain not found: " ++ n), w)
                 end).

Definition remove_domain (n : option string) : t -> cmd_result unit * t :=
  step (fun w => match n with
                 | Some n => (CmdOk tt, mk (delete n (domains w)) (faults w))
                 | None => (CmdFail "Domain not found: None", w)
                 end).

Definition define (d : Element) : t -> cmd_result unit * t :=
  step (fun w => match domain_name d with
                 | Some n => (CmdOk tt, mk ((n, d) :: delete n (domains w)) (faults w))
                 | None => (CmdFail "XML error: domain has no name", w)
                 end).

Definition virsh : virsh_binding t := mkVirsh t dumpxml remove_domain define.

End Libvirt.

(** Sample documents. *)
Definition elem (t : string) (a : list (string * string)) (c : list Element) : Element :=
  mkElement t a None c.

Definition leaf (t : string) (x : string) : Element :=
  mkElement t [] (Some x) [].

(** A domain [vm1] with a device list that has no serial device. *)
Definition domain_no_serial : Element :=
  elem "domain" [("type", "kvm")]
       [leaf "name" "vm1"; leaf "uuid" "0e5b-01"; elem "devices" [] []].

(** A CPU description with three features. *)
Definition domain_cpu : Element :=
  elem "domain" [("type", "kvm")]
       [leaf "name" "vm1";
        elem "cpu" [("mode", "custom")]
             [leaf "model" "Westmere"; leaf "vendor" "Intel";
              elem "feature" [("name", "vmx")] [];
              elem "feature" [("name", "aes")] [];
              elem "feature" [("name", "avx")] []]].

Definition host0 (d : Element) (fs : list (option string)) : host Libvirt.t :=
  mkHost (Libvirt.mk [("vm1", d)] fs) [] (mkVM "vm1" (Some "0e5b-01") false).

(** ** Observations on documents and results *)

(** The feature nodes of a document: the [feature] children of the [cpu]
    children of the root, in document order. *)
Definition has_tag (t : string) (e : Element) : bool := String.eqb (tag e) t.

Definition feature_nodes (doc : Element) : list Element :=
  flat_map (fun cpu => filter (has_tag "feature") (children cpu))
           (filter (has_tag "cpu") (children doc)).

Definition feature_count (doc : Element) : Z :=
  Z.of_nat (length (feature_nodes doc)).

(** What a path selects, as elements rather than references. *)
Fixpoint select_from (steps : list string) (e : Element) : list Element :=
  match steps with
  | [] => [e]
  | t :: steps' => flat_map (select_from steps') (filter (has_tag t) (children e))
  end.

(** The references that [get_feature_list] returns. *)
Definition feature_refs (doc : Element) : list ref :=
  findall_from ["cpu"; "feature"] [] doc.

(** The host once [vm_rename] has made sure that the domain is not
    running. *)
Definition quiesced {W} (h : host W) : host W :=
  mkHost (world h) (calls h) (mkVM (name (vm h)) (uuid (vm h)) false).

(** The serial devices of a document: the [serial] children of its
    [devices] children. *)
Definition serial_devices (doc : Element) : list Element :=
  flat_map (fun devices => filter (has_tag "serial") (children devices))
           (filter (has_tag "devices") (children doc)).

(** The source path of a serial device: the [path] attribute of its first
    [source] child. *)
Definition source_path (serial : Element) : option string :=
  match filter (has_tag "source") (children serial) with
  | [] => None
  | source :: _ => dict_get "path" (attrib source)
  end.

Definition target_port (serial : Element) : option string :=
  match filter (has_tag "target") (children serial) with
  | [] => None
  | target :: _ => dict_get "port" (attrib target)
  end.

(** What an exception tells its receiver, and whether a given diagnostic
    is part of it. *)
Definition exn_text (e : exn) : string :=
  match e with
  | CmdError detail => detail
  | LibvirtXMLError msg => msg
  | NotFoundError => "NotFoundError"
  | OperationForbiddenError => "OperationForbiddenError"
  | AttributeError => "AttributeError"
  | AssertionError => "AssertionError"
  | IndexError => "IndexError"
  | ValueError => "ValueError"
  | ReferenceError => "ReferenceError"
  end.

Definition surfaces {A} (r : result A) (detail : string) : bool :=
  match r with
  | Ok _ => false
  | Raise e => is_substring detail (exn_text e)
  end.

(** A domain whose serial device has a source path. *)
Definition domain_serial_source : Element :=
  elem "domain" [("type", "kvm")]
       [leaf "name" "vm1"; leaf "uuid" "0e5b-01";
        elem "devices" []
             [elem "serial" [("type", "file")]
                   [elem "source" [("path", "/tmp/serial.log")] [];
                    elem "target" [("port", "0")] []]]].

(** The first child with a given tag, and the [mode] attribute of the
    first [cpu] child of the root. *)
Definition first_child (t : string) (e : Element) : option Element :=
  hd_error (filter (has_tag t) (children e)).

Definition cpu_mode_attr (doc : Element) : option string :=
  match first_child "cpu" doc with
  | Some cpu => dict_get "mode" (attrib cpu)
  | None => None
  end.

(** What [cpu.set('mode', mode)] does to the element. *)
Definition set_mode_attr (mode : string) (e : Element) : Element :=
  set_attrib (dict_set "mode" mode (attrib e)) e.

(** The tags of a tree, without attributes and texts: what [find] and
    [findall] look at. *)
Fixpoint skeleton (e : Element) : Element :=
  match e with
  | mkElement t _ _ c => mkElement t [] None (map skeleton c)
  end.

(** What [elem.set('name', value)] does to the element. *)
Definition set_name_attr (value : string) (e : Element) : Element :=
  set_attrib (dict_set "name" value (attrib e)) e.

(** The element that [add_feature] appends. *)
Definition new_feature (value : string) : Element :=
  mkElement "feature" [("name", value)] None [].

(** The [mode] and [nodeset] that [get_numa_params] reports: those of the
    first [memory] child of the first [numatune] child of the root, when
    there is one. *)
Definition numa_memory (doc : Element) : option Element :=
  match first_child "numatune" doc with
  | Some numa => first_child "memory" numa
  | None => None
  end.

Definition numa_params_of (doc : Element) : list (string * option string) :=
  match numa_memory doc with
  | Some memory => [("mode", dict_get "mode" (attrib memory));
                    ("nodeset", dict_get "nodeset" (attrib memory))]
  | None => []
  end.

(** A domain with a memory policy that has a mode and no nodeset. *)
Definition domain_numa : Element :=
  elem "domain" [("type", "kvm")]
       [leaf "name" "vm1";
        elem "numatune" [] [elem "memory" [("mode", "strict")] []]].

(** The disks that [get_disk_all] goes through: the [disk] children of the
    first [devices] child of the root.  The key of a disk is the [dev]
    attribute of its first [target] child ([None] when the attribute is
    absent); a disk with no [target] child has no key. *)
Definition domain_disks (doc : Element) : list Element :=
  match first_child "devices" doc with
  | Some devices => filter (has_tag "disk") (children devices)
  | None => []
  end.

Definition disk_dev (disk : Element) : option (option string) :=
  match first_child "target" disk with
  | Some target => Some (dict_get "dev" (attrib target))
  | None => None
  end.

(** A domain with three disks, two of which share the target [vda]. *)
Definition domain_disks_shared : Element :=
  elem "domain" [("type", "kvm")]
       [leaf "name" "vm1";
        elem "devices" []
             [elem "disk" [("device", "disk")] [elem "target" [("dev", "vda")] []];
              elem "disk" [("device", "cdrom")] [elem "target" [("dev", "hdc")] []];
              elem "disk" [("device", "disk")] [elem "target" [("dev", "vda")] []]]].

(** The serial device that [set_primary_serial] creates when it finds
    none it can use, once its type and port have been set. *)
Definition new_serial (type port : string) : Element :=
  mkElement "serial" [("type", type)] None
            [mkElement "target" [("port", port)] None []].

(** A domain whose serial device has no target. *)
Definition domain_serial_no_target : Element :=
  elem "domain" [("type", "kvm")]
       [leaf "name" "vm1";
        elem "devices" [] [elem "serial" [("type", "file")] []]].

(** The address with its colons taken out, and with each colon turned
    into a dash. *)
Fixpoint drop_colons (s : string) : string :=
  match s with
  | EmptyString => EmptyString
  | String c s' => if Ascii.eqb c ":"%char then drop_colons s' else String c (drop_colons s')
  end.

Fixpoint colons_to_dashes (s : string) : string :=
  match s with
  | EmptyString => EmptyString
  | String c s' =>
      String (if Ascii.eqb c ":"%char then "-"%char else c) (colons_to_dashes s')
  end.

(** The children of the root as [set_vm_vcpus] leaves them: with the text
    of the first child that carries the tag set, or with a new last child
    of that tag and text when there is none; and without the first child
    that carries the tag. *)
Fixpoint set_first_text (t v : string) (l : list Element) : list Element :=
  match l with
  | [] => [mkElement t [] (Some v) []]
  | c :: l' =>
      if has_tag t c then set_text (Some v) c :: l' else c :: set_first_text t v l'
  end.

Fixpoint remove_first (t : string) (l : list Element) : list Element :=
  match l with
  | [] => []
  | c :: l' => if has_tag t c then l' else c :: remove_first t l'
  end.

(** A domain with a [vcpu] element. *)
Definition domain_vcpu : Element :=
  elem "domain" [("type", "kvm")]
       [leaf "name" "vm1"; leaf "vcpu" "2"; leaf "uuid" "0e5b-01"].

(** ** The document store *)

(** Modelled from the spec: [virttest/xml_utils.py] (with the parser and
    writer behind it) is not part of the sources at hand, so [parse] and
    [serialize] follow sections 3 and 4.1 of the specification: a document
    is a tree of nodes, each with a tag, attributes, an optional text and
    ordered children, and its serialized form is hierarchical markup.  The
    markup is taken after lexing, as the sequence of its opening tags (with
    their attributes), texts and closing tags; [parse] fails on a sequence
    that is not well nested. *)
Module DocumentStore.

Inductive token : Type :=
| TOpen (tag : string) (attrib : list (string * string))
| TText (s : string)
| TClose (tag : string).

Definition markup : Type := list token.

Inductive ParseError : Type := NotWellFormed.

Fixpoint serialize (d : Element) : markup :=
  match d with
  | mkElement t a x c =>
      TOpen t a ::
      (match x with Some s => [TText s] | None => [] end) ++
      flat_map serialize c ++ [TClose t]
  end.

(** Recursive descent.  [parse_element] reads one element, [parse_children]
    the elements up to (and not including) the next closing tag.  [fuel]
    bounds the depth of the descent; the length of the input is enough. *)
Fixpoint parse_element (fuel : nat) (ts : markup) : option (Element * markup) :=
  match fuel with
  | O => None
  | S fuel' =>
      match ts with
      | TOpen t a :: ts1 =>
          let '(x, ts2) := match ts1 with
                           | TText s :: ts2 => (Some s, ts2)
                           | _ => (None, ts1)
                           end in
          match parse_children fuel' ts2 with
          | Some (c, TClose t' :: rest) =>
              if String.eqb t' t then Some (mkElement t a x c, rest) else None
          | _ => None
          end
      | _ => None
      end
  end
with parse_children (fuel : nat) (ts : markup) : option (list Element * markup) :=
  match fuel with
  | O => None
  | S fuel' =>
      match ts with
      | TClose _ :: _ => Some ([], ts)
      | _ =>
          match parse_element fuel' ts with
          | Some (c, rest) =>
              match parse_children fuel' rest with
              | Some (cs, rest') => Some (c :: cs, rest')
              | None => None
              end
          | None => None
          end
      end
  end.

Definition parse (ts : markup) : Element + ParseError :=
  match parse_element (length ts) ts with
  | Some (d, []) => inl d
  | _ => inr NotWellFormed
  end.


End DocumentStore.

(** * Properties *)

(** ** Monad and tree lemmas *)

Lemma bind_ok {S A B} (m : M S A) (k : A -> M S B) s a s' :
  m s = (Ok a, s') -> bind m k s = k a s'.
Proof. intros H; unfold bind; rewrite H; reflexivity. Qed.

Lemma bind_raise {S A B} (m : M S A) (k : A -> M S B) s e s' :
  m s = (Raise e, s') -> bind m k s = (Raise e, s').
Proof. intros H; unfold bind; rewrite H; reflexivity. Qed.

Lemma try_ok {S A} (m : M S A) (h : exn -> M S A) s a s' :
  m s = (Ok a, s') -> try_except m h s = (Ok a, s').
Proof. intros H; unfold try_except; rewrite H; reflexivity. Qed.

Lemma try_raise {S A} (m : M S A) (h : exn -> M S A) s e s' :
  m s = (Raise e, s') -> try_except m h s = h e s'.
Proof. intros H; unfold try_except; rewrite H; reflexivity. Qed.


(** ** check_cpu_mode *)

Lemma str_in_In x l : str_in x l = true <-> In x l.
Proof.
  unfold str_in. rewrite existsb_exists. split.
  - intros [y [Hy E]]. apply String.eqb_eq in E. subst. exact Hy.
  - intros H. exists x. split; [exact H | apply String.eqb_refl].
Qed.

Lemma check_cpu_mode_ok mode :
  check_cpu_mode mode = Ok tt <-> In (strip mode) cpu_mode.
Proof.
  unfold check_cpu_mode. split.
  - intros H. destruct (str_in (strip mode) cpu_mode) eqn:E; [|discriminate].
    apply str_in_In in E. exact E.
  - intros H. apply (proj2 (str_in_In _ _)) in H. rewrite H. reflexivity.
Qed.

Lemma check_cpu_mode_cases mode :
  check_cpu_mode mode = Ok tt \/
  check_cpu_mode mode =
    Raise (LibvirtXMLError ("The cpu mode '" ++ mode ++ "' is invalid!")).
Proof.
  unfold check_cpu_mode.
  destruct (str_in (strip mode) cpu_mode); [left | right]; reflexivity.
Qed.

(** What [strip] removes is whitespace on both sides, and whitespace around
    an accepted mode is all of what it removes. *)
Section Strip.

Local Open Scope string_scope.

Lemma lstrip_app_space l x : all_space l = true -> lstrip (l ++ x) = lstrip x.
Proof.
  induction l as [|c l IH]; simpl; [reflexivity|].
  intros H. apply andb_prop in H as [Hc Hl]. rewrite Hc. apply IH, Hl.
Qed.

Lemma rstrip_space r : all_space r = true -> rstrip r = "".
Proof.
  induction r as [|c r IH]; simpl; [reflexivity|].
  intros H. apply andb_prop in H as [Hc Hr]. rewrite (IH Hr), Hc. reflexivity.
Qed.

Lemma rstrip_app_space s r : all_space r = true -> rstrip (s ++ r) = rstrip s.
Proof.
  intros Hr. induction s as [|c s IH]; simpl.
  - apply rstrip_space, Hr.
  - rewrite IH. reflexivity.
Qed.

Lemma lstrip_decompose s : exists l, all_space l = true /\ s = l ++ lstrip s.
Proof.
  induction s as [|c s [l [Hl E]]]; simpl.
  - exists "". split; reflexivity.
  - destruct (is_space c) eqn:Hc.
    + exists (String c l). simpl. rewrite Hc, Hl. split; [reflexivity | congruence].
    + exists "". split; reflexivity.
Qed.

Lemma rstrip_decompose s : exists r, all_space r = true /\ s = rstrip s ++ r.
Proof.
  induction s as [|c s [r [Hr E]]]; simpl.
  - exists "". split; reflexivity.
  - destruct (rstrip s) as [|c' t] eqn:Es.
    + simpl in E. subst s. destruct (is_space c) eqn:Hc.
      * exists (String c r). simpl. rewrite Hc, Hr. split; reflexivity.
      * exists r. split; [exact Hr | reflexivity].
    + exists r. split; [exact Hr|]. simpl. simpl in E. congruence.
Qed.

Lemma strip_decompose s :
  exists l r, all_space l = true /\ all_space r = true /\ s = l ++ strip s ++ r.
Proof.
  destruct (lstrip_decompose s) as [l [Hl El]].
  destruct (rstrip_decompose (lstrip s)) as [r [Hr Er]].
  exists l, r. repeat split; try assumption.
  unfold strip. rewrite <- Er. exact El.
Qed.

Lemma strip_padded_mode l m r :
  all_space l = true -> all_space r = true -> In m cpu_mode ->
  strip (l ++ m ++ r) = m.
Proof.
  intros Hl Hr Hm. unfold strip. rewrite (lstrip_app_space l _ Hl).
  assert (E : lstrip (m ++ r) = m ++ r).
  { simpl in Hm. destruct Hm as [<-|[<-|[<-|[]]]]; reflexivity. }
  rewrite E, (rstrip_app_space m r Hr).
  simpl in Hm. destruct Hm as [<-|[<-|[<-|[]]]]; reflexivity.
Qed.

Lemma check_cpu_mode_padded mode :
  check_cpu_mode mode = Ok tt <->
  exists l r m, all_space l = true /\ all_space r = true /\ In m cpu_mode
                /\ mode = l ++ m ++ r.
Proof.
  rewrite check_cpu_mode_ok. split.
  - intros H. destruct (strip_decompose mode) as [l [r [Hl [Hr E]]]].
    exists l, r, (strip mode). repeat split; assumption.
  - intros [l [r [m [Hl [Hr [Hm E]]]]]]. subst mode.
    rewrite (strip_padded_mode l m r Hl Hr Hm). exact Hm.
Qed.

End Strip.

(** C3: [check_cpu_mode mode] returns normally exactly when [mode], with
    its surrounding whitespace stripped, is one of "custom", "host-model"
    and "host-passthrough", that is, exactly when [mode] is one of the
    three with whitespace around it; for every other string it raises
    [LibvirtXMLError] (with the message naming the mode as given), and so
    it does for the case variants "Custom" and "HOST-MODEL". *)
Theorem check_cpu_mode_accepts_exactly (mode : string) :
  (check_cpu_mode mode = Ok tt <->
   In (strip mode) ["custom"; "host-model"; "host-passthrough"])
  /\ (check_cpu_mode mode = Ok tt <->
      exists l r m, all_space l = true /\ all_space r = true
                    /\ In m ["custom"; "host-model"; "host-passthrough"]
                    /\ mode = (l ++ m ++ r)%string)
  /\ (check_cpu_mode mode = Ok tt \/
      check_cpu_mode mode =
        Raise (LibvirtXMLError ("The cpu mode '" ++ mode ++ "' is invalid!")))
  /\ check_cpu_mode "Custom" =
       Raise (LibvirtXMLError "The cpu mode 'Custom' is invalid!")
  /\ check_cpu_mode "HOST-MODEL" =
       Raise (LibvirtXMLError "The cpu mode 'HOST-MODEL' is invalid!")
  /\ check_cpu_mode " host-passthrough " = Ok tt.
Proof.
  split; [apply check_cpu_mode_ok|].
  split; [apply check_cpu_mode_padded|].
  split; [apply check_cpu_mode_cases|].
  repeat split.
Qed.

(** ** The feature list *)

Lemma tagged_from_filter t l : forall i,
  Forall2 (fun j c => i <= j /\ nth_error l (j - i) = Some c)
          (tagged_from i t l) (filter (has_tag t) l).
Proof.
  induction l as [|c l IH]; intros i; simpl; [constructor|].
  unfold has_tag at 1.
  assert (Htl : Forall2 (fun j c' => i <= j /\ nth_error (c :: l) (j - i) = Some c')
                        (tagged_from (S i) t l) (filter (has_tag t) l)).
  { eapply Forall2_impl; [|apply (IH (S i))].
    intros j c' [Hle Hn]. split; [lia|].
    replace (j - i) with (S (j - S i)) by lia. exact Hn. }
  destruct (String.eqb (tag c) t); [|exact Htl].
  constructor; [|exact Htl].
  split; [lia|]. rewrite Nat.sub_diag. reflexivity.
Qed.

Lemma tagged_filter t e :
  Forall2 (fun j c => nth_error (children e) j = Some c)
          (tagged t e) (filter (has_tag t) (children e)).
Proof.
  eapply Forall2_impl; [|apply (tagged_from_filter t (children e) 0)].
  intros j c [_ H]. rewrite Nat.sub_0_r in H. exact H.
Qed.

Lemma Forall2_flat_map {A B C D} (R : C -> D -> Prop) (f : A -> list C) (g : B -> list D) :
  forall l1 l2,
    Forall2 (fun a b => Forall2 R (f a) (g b)) l1 l2 ->
    Forall2 R (flat_map f l1) (flat_map g l2).
Proof.
  induction 1; simpl; [constructor|]. apply Forall2_app; assumption.
Qed.

Lemma node_at_snoc r i root e c :
  node_at r root = Some e -> nth_error (children e) i = Some c ->
  node_at (r ++ [i]) root = Some c.
Proof.
  revert root. induction r as [|j r IH]; intros root He Hc; simpl in *.
  - injection He as ->. rewrite Hc. reflexivity.
  - destruct (nth_error (children root) j); [|discriminate]. apply IH; assumption.
Qed.

Lemma findall_from_select root : forall steps r e,
  node_at r root = Some e ->
  Forall2 (fun r' x => node_at r' root = Some x)
          (findall_from steps r e) (select_from steps e).
Proof.
  induction steps as [|t steps IH]; intros r e He; simpl.
  - constructor; [exact He | constructor].
  - apply Forall2_flat_map.
    eapply Forall2_impl; [|apply tagged_filter].
    intros j c Hj. cbv beta. rewrite Hj. apply IH.
    eapply node_at_snoc; eassumption.
Qed.

Lemma flat_map_singleton {A} (l : list A) : flat_map (fun x => [x]) l = l.
Proof. induction l; simpl; congruence. Qed.

Lemma select_features doc : select_from ["cpu"; "feature"] doc = feature_nodes doc.
Proof.
  unfold feature_nodes. simpl. apply flat_map_ext. intros cpu.
  apply flat_map_singleton.
Qed.

Lemma get_feature_list_eq doc : get_feature_list doc = (Ok (feature_refs doc), doc).
Proof. reflexivity. Qed.

Lemma feature_refs_nodes doc :
  Forall2 (fun r x => node_at r doc = Some x) (feature_refs doc) (feature_nodes doc).
Proof.
  rewrite <- select_features. apply findall_from_select. reflexivity.
Qed.

Lemma feature_refs_count doc :
  Z.of_nat (length (feature_refs doc)) = feature_count doc.
Proof.
  unfold feature_count. f_equal. eapply Forall2_length, feature_refs_nodes.
Qed.

(** C4: when the index is at least the number of feature nodes, each of
    [get_feature_name], [set_feature] and [remove_feature] raises
    [LibvirtXMLError] with a message that carries the index and the count,
    and the document is the one it was called on. *)
Theorem feature_index_out_of_range (doc : Element) (i : Z) (v : string)
        (Hi : (feature_count doc <= i)%Z) :
  get_feature_name i doc =
    (Raise (LibvirtXMLError ("Get " ++ fmt_d i ++ " from "
                               ++ fmt_d (feature_count doc) ++ " features")), doc)
  /\ set_feature i v doc =
    (Raise (LibvirtXMLError ("Set " ++ fmt_d i ++ " from "
                               ++ fmt_d (feature_count doc) ++ " features")), doc)
  /\ remove_feature i doc =
    (Raise (LibvirtXMLError ("Remove " ++ fmt_d i ++ " from "
                               ++ fmt_d (feature_count doc) ++ " features")), doc).
Proof.
  assert (Hge : (i >=? Z.of_nat (length (feature_refs doc)))%Z = true).
  { rewrite feature_refs_count. apply Z.geb_le. lia. }
  unfold get_feature_name, set_feature, remove_feature.
  rewrite !(bind_ok _ _ _ _ _ (get_feature_list_eq doc)).
  rewrite Hge, feature_refs_count. repeat split.
Qed.

Lemma feature_index_out_of_range_witness :
  (feature_count domain_cpu <= 3)%Z
  /\ get_feature_name 3 domain_cpu =
       (Raise (LibvirtXMLError "Get 3 from 3 features"), domain_cpu)
  /\ set_feature 3 "sse" domain_cpu =
       (Raise (LibvirtXMLError "Set 3 from 3 features"), domain_cpu)
  /\ remove_feature 3 domain_cpu =
       (Raise (LibvirtXMLError "Remove 3 from 3 features"), domain_cpu).
Proof.
  split; [vm_compute; discriminate|].
  apply (feature_index_out_of_range domain_cpu 3 "sse"). vm_compute. discriminate.
Defined.


Lemma py_index_in_range {A} (l : list A) (j : Z) :
  (0 <= j < Z.of_nat (length l))%Z ->
  exists x, nth_error l (Z.to_nat j) = Some x /\ py_index l j = Ok x.
Proof.
  intros H. unfold py_index. cbv zeta.
  destruct (Z.ltb_spec j 0); [lia|].
  destruct (Z.leb_spec 0 j); [|lia].
  destruct (Z.ltb_spec j (Z.of_nat (length l))); [|lia]. simpl.
  destruct (nth_error l (Z.to_nat j)) as [x|] eqn:E.
  - exists x. split; reflexivity.
  - apply nth_error_None in E. lia.
Qed.

Lemma Forall2_nth_error {A B} (R : A -> B -> Prop) l1 l2 n a :
  Forall2 R l1 l2 -> nth_error l1 n = Some a ->
  exists b, nth_error l2 n = Some b /\ R a b.
Proof.
  intros H. revert n. induction H; intros [|n] E; simpl in *; try discriminate.
  - injection E as ->. eauto.
  - apply IHForall2. exact E.
Qed.




(** ** Forbidden operations *)

(** C5: deleting a property whose descriptor lists deletion among its
    forbidden operations raises [OperationForbiddenError] and leaves the
    document as it was. *)
Theorem forbidden_delete_fails (d : accessors.PropertyDescriptor) (doc : Element)
        (Hd : In accessors.OpDel (accessors.forbidden d)) :
  accessors.delter d doc = (Raise OperationForbiddenError, doc).
Proof.
  unfold accessors.delter.
  assert (E : accessors.forbids d accessors.OpDel = true).
  { unfold accessors.forbids. apply existsb_exists.
    exists accessors.OpDel. split; [exact Hd | reflexivity]. }
  rewrite E. reflexivity.
Qed.

Lemma forbidden_delete_fails_witness :
  In accessors.OpDel (accessors.forbidden model_property)
  /\ In accessors.OpDel (accessors.forbidden vendor_property)
  /\ accessors.delter model_property domain_cpu = (Raise OperationForbiddenError, domain_cpu)
  /\ accessors.delter vendor_property domain_cpu = (Raise OperationForbiddenError, domain_cpu).
Proof.
  split; [simpl; left; reflexivity|]. split; [simpl; left; reflexivity|]. split.
  - apply (forbidden_delete_fails model_property domain_cpu). simpl. left. reflexivity.
  - apply (forbidden_delete_fails vendor_property domain_cpu). simpl. left. reflexivity.
Defined.

(** ** undefine and define *)

Section Calls.

Context {W : Type} (virsh : virsh_binding W).

Lemma getter_keeps_document d doc : snd (accessors.getter d doc) = doc.
Proof.
  unfold accessors.getter.
  destruct (accessors.forbids d accessors.OpGet); [reflexivity|].
  unfold accessors.locate, bind, ret, raise.
  destruct (hd_error _) as [r|]; [|reflexivity].
  destruct (accessors.select d); unfold get_text, get, bind, deref, ret, raise.
  - destruct (node_at r doc); reflexivity.
  - destruct (node_at r doc) as [e|]; [|reflexivity].
    destruct (dict_get attribute (attrib e)); reflexivity.
Qed.

Lemma call_run {A} (c : virsh_call) (f : W -> cmd_result A * W) (h : host W) r w' :
  f (world h) = (r, w') ->
  call c f h =
    (match r with CmdOk a => Ok a | CmdFail detail => Raise (CmdError detail) end,
     mkHost w' (calls h ++ [c]) (vm h)).
Proof. intros E. unfold call. rewrite E. destruct r; reflexivity. Qed.

Lemma invoke_undefine self (h : host W) nm r w' :
  fst (accessors.getter vm_name_property self) = Ok nm ->
  virsh_remove_domain virsh nm (world h) = (r, w') ->
  invoke self (undefine virsh) h =
    (match r with CmdOk _ => Ok (tt, self) | CmdFail detail => Raise (CmdError detail) end,
     mkHost w' (calls h ++ [CallRemoveDomain nm]) (vm h)).
Proof.
  intros Hn Hr. unfold invoke, undefine, bind, on_fst, on_snd, remove_domain. simpl fst. simpl snd.
  pose proof (getter_keeps_document vm_name_property self) as Hk.
  destruct (accessors.getter vm_name_property self) as [g s']. simpl in Hn, Hk. subst.
  rewrite (call_run _ _ _ _ _ Hr). destruct r as [[]|]; reflexivity.
Qed.

Lemma invoke_define self (h : host W) r w' :
  virsh_define virsh self (world h) = (r, w') ->
  invoke self (define virsh) h =
    (match r with CmdOk _ => Ok (tt, self) | CmdFail detail => Raise (CmdError detail) end,
     mkHost w' (calls h ++ [CallDefine self]) (vm h)).
Proof.
  intros Hr. unfold invoke, define, bind, on_fst, on_snd, get_state, virsh_define_call.
  simpl fst. simpl snd. rewrite (call_run _ _ _ _ _ Hr). destruct r as [[]|]; reflexivity.
Qed.

Lemma invoke_on_fst {A} self (m : M Element A) (h : host W) :
  invoke self (on_fst m) h =
    match m self with
    | (Ok a, self') => (Ok (a, self'), h)
    | (Raise e, _) => (Raise e, h)
    end.
Proof.
  unfold invoke, on_fst. simpl. destruct (m self) as [[a|e] s]; reflexivity.
Qed.

Lemma undefine_run self (h : host W) :
  undefine virsh (self, h) =
    match fst (accessors.getter vm_name_property self) with
    | Ok nm => (fst (remove_domain virsh nm h), (self, snd (remove_domain virsh nm h)))
    | Raise e => (Raise e, (self, h))
    end.
Proof.
  unfold undefine, bind, on_fst, on_snd. cbn [fst snd].
  pose proof (getter_keeps_document vm_name_property self) as Hk.
  destruct (accessors.getter vm_name_property self) as [[nm|e] s']; cbn [fst snd] in *; subst.
  - destruct (remove_domain virsh nm h) as [r h']. reflexivity.
  - reflexivity.
Qed.

Lemma define_run self (h : host W) :
  define virsh (self, h) =
    (fst (virsh_define_call virsh self h), (self, snd (virsh_define_call virsh self h))).
Proof.
  unfold define, bind, on_fst, on_snd, get_state. cbn [fst snd].
  destruct (virsh_define_call virsh self h) as [r h']. reflexivity.
Qed.

Lemma call_calls {A} (c : virsh_call) (f : W -> cmd_result A * W) (h : host W) :
  calls (snd (call c f h)) = calls h ++ [c] /\ vm (snd (call c f h)) = vm h.
Proof.
  unfold call. destruct (f (world h)) as [[a|detail] w']; split; reflexivity.
Qed.

Lemma on_snd_run {S T A} (m : M T A) (s : S) (t : T) r t' :
  m t = (r, t') -> on_snd m (s, t) = (r, (s, t')).
Proof. intros E. unfold on_snd. cbn [fst snd]. rewrite E. reflexivity. Qed.

Lemma bind_vmxml_ok (m : M (host W) Element) (o : option Element) (h : host W) d h' :
  m h = (Ok d, h') -> bind_vmxml m (o, h) = (Ok tt, (Some d, h')).
Proof. intros E. unfold bind_vmxml. cbn [fst snd]. rewrite E. reflexivity. Qed.

Lemma vmxml_do_run {A} (m : M (instance (W:=W)) A) self (h : host W) r self' h' :
  m (self, h) = (r, (self', h')) -> vmxml_do m (Some self, h) = (r, (Some self', h')).
Proof. intros E. unfold vmxml_do. cbn [fst snd]. rewrite E. reflexivity. Qed.

(** The static methods seen from the host: each call of a method of the
    instance takes the instance as the call before left it. *)
Lemma set_cpu_mode_steps (vm_name mode : string) (h : host W) :
  set_cpu_mode virsh vm_name mode h =
    (vmxml <- new_from_dumpxml virsh vm_name ;;
      r <- invoke vmxml (lift_result (check_cpu_mode mode)) ;;
      r <- invoke (snd r) (on_fst (edit_cpu_mode mode)) ;;
      r <- invoke (snd r) (undefine virsh) ;;
      _ <- invoke (snd r) (define virsh) ;;
      ret tt) h.
Proof.
  unfold set_cpu_mode, set_cpu_mode_frame, static, bind_vmxml, vmxml_do, bind, invoke,
    frame, instance.
  cbn [fst snd].
  destruct (new_from_dumpxml virsh vm_name h) as [[d|e] h1]; [|reflexivity].
  cbn [fst snd].
  destruct (lift_result (check_cpu_mode mode) (d, h1)) as [[[]|e] [d1 h2]]; [|reflexivity].
  cbn [fst snd].
  destruct (on_fst (edit_cpu_mode mode) (d1, h2)) as [[[]|e] [d2 h3]]; [|reflexivity].
  cbn [fst snd].
  destruct (undefine virsh (d2, h3)) as [[[]|e] [d3 h4]]; [|reflexivity].
  cbn [fst snd].
  destruct (define virsh (d3, h4)) as [[[]|e] [d4 h5]]; reflexivity.
Qed.

Lemma vm_rename_steps (new_name : string) (new_uuid : option string) (h : host W) :
  vm_rename virsh new_name new_uuid h =
    (v <- get_vm ;;
      (if alive v then vm_destroy else ret tt) ;;
      v <- get_vm ;;
      vmxml <- new_from_dumpxml virsh (name v) ;;
      let backup := vmxml in
      _ <- try_except (invoke vmxml (undefine virsh))
             (fun e => match e with
                       | CmdError detail =>
                           raise (LibvirtXMLError
                                    ("Error reported while undefining VM:" ++ nl ++ detail))
                       | _ => raise e
                       end) ;;
      r <- invoke vmxml (on_fst (accessors.setter vm_name_property new_name)) ;;
      let vmxml := snd r in
      vmxml <- match new_uuid with
               | None =>
                   r <- invoke vmxml (on_fst (accessors.delter uuid_property)) ;;
                   vm_set_uuid None ;;
                   ret (snd r)
               | Some u =>
                   r <- invoke vmxml (on_fst (accessors.setter uuid_property u)) ;;
                   vm_set_uuid (Some u) ;;
                   ret (snd r)
               end ;;
      _ <- try_except (invoke vmxml (define virsh))
             (fun e => match e with
                       | CmdError detail =>
                           _ <- invoke backup (define virsh) ;;
                           raise (LibvirtXMLError
                                    ("Error reported while defining VM:" ++ nl ++ detail))
                       | _ => raise e
                       end) ;;
      vm_set_name new_name ;;
      get_vm) h.
Proof.
  unfold vm_rename, vm_rename_frame, static, bind_vmxml, vmxml_do, bind, try_except, invoke,
    frame, instance, on_fst, on_snd, get_state.
  cbn [fst snd].
  destruct (get_vm h) as [[v|e] h1]; [|reflexivity].
  cbn [fst snd].
  destruct ((if alive v then vm_destroy else ret tt) h1) as [[[]|e] h2]; [|reflexivity].
  cbn [fst snd].
  destruct (get_vm h2) as [[v2|e] h3]; [|reflexivity].
  cbn [fst snd].
  destruct (new_from_dumpxml virsh (name v2) h3) as [[d|e] h4]; [|reflexivity].
  cbn [fst snd].
  pose proof (undefine_run d h4) as U.
  destruct (undefine virsh (d, h4)) as [[[]|e] [d1 h5]]; [|destruct e; reflexivity].
  assert (d1 = d) as ->
    by (destruct (fst (accessors.getter vm_name_property d)); congruence).
  clear U. cbn [fst snd].
  destruct (accessors.setter vm_name_property new_name d) as [[[]|e] d2]; [|reflexivity].
  cbn [fst snd].
  destruct new_uuid as [u|]; cbv beta; cbn [fst snd];
    [destruct (accessors.setter uuid_property u d2) as [[[]|e] d3]
    |destruct (accessors.delter uuid_property d2) as [[[]|e] d3]];
    try reflexivity;
    cbn [fst snd]; unfold vm_set_uuid, bind, get_vm, put_vm, ret; cbn [fst snd];
    rewrite define_run; cbn [fst snd];
    match goal with
    | |- context [virsh_define_call virsh ?d3 ?h6] =>
        destruct (virsh_define_call virsh d3 h6) as [[[]|e] h7]
    end;
    cbn [fst snd]; try reflexivity;
    destruct e; try reflexivity;
    cbv beta; cbn [fst snd]; rewrite define_run;
    match goal with
    | |- context [virsh_define_call virsh ?d0 ?h6] =>
        destruct (virsh_define_call virsh d0 h6) as [[[]|e0] h8]
    end; reflexivity.
Qed.

(** C7: [undefine] leaves the instance's document as it was and makes at
    most one call of the tool, [remove_domain] with the name read from the
    document (none when the document has no name to read); a [define]
    made afterwards on the same instance passes that same document. *)
Theorem undefine_keeps_document (self : Element) (h : host W) :
  let after := snd (undefine virsh (self, h)) in
  fst after = self
  /\ calls (snd after) =
       calls h ++ match fst (accessors.getter vm_name_property self) with
                  | Ok nm => [CallRemoveDomain nm]
                  | Raise _ => []
                  end
  /\ vm (snd after) = vm h
  /\ let redefined := snd (define virsh after) in
     fst redefined = self
     /\ calls (snd redefined) = calls (snd after) ++ [CallDefine self].
Proof.
  cbv zeta. rewrite undefine_run.
  destruct (fst (accessors.getter vm_name_property self)) as [nm|e]; cbn [fst snd].
  - destruct (call_calls (CallRemoveDomain nm) (virsh_remove_domain virsh nm) h) as [Hc Hv].
    fold (remove_domain virsh nm) in Hc, Hv.
    repeat split; try assumption.
    + rewrite define_run. reflexivity.
    + rewrite define_run. cbn [fst snd]. apply call_calls.
  - rewrite app_nil_r. repeat split.
    + rewrite define_run. reflexivity.
    + rewrite define_run. cbn [fst snd]. apply call_calls.
Qed.

End Calls.

(** ** vm_rename and set_cpu_mode *)

Section Rename.

Context {W : Type} (virsh : virsh_binding W).

Lemma quiesce_run (h : host W) :
  (if alive (vm h) then vm_destroy else ret tt) h = (Ok tt, quiesced h).
Proof. destruct h as [w cs [n u []]]; reflexivity. Qed.

Lemma new_from_dumpxml_run vm_name (h : host W) r w' :
  virsh_dumpxml virsh vm_name (world h) = (r, w') ->
  new_from_dumpxml virsh vm_name h =
    (match r with CmdOk d => Ok d | CmdFail detail => Raise (CmdError detail) end,
     mkHost w' (calls h ++ [CallDumpxml vm_name]) (vm h)).
Proof. intros E. unfold new_from_dumpxml, dumpxml. apply call_run. exact E. Qed.

Lemma invoke_undefine_fail self (h : host W) nm detail w' :
  fst (accessors.getter vm_name_property self) = Ok nm ->
  virsh_remove_domain virsh nm (world h) = (CmdFail detail, w') ->
  invoke self (undefine virsh) h =
    (Raise (CmdError detail), mkHost w' (calls h ++ [CallRemoveDomain nm]) (vm h)).
Proof. intros Hn Hr. apply (invoke_undefine virsh self h nm _ _ Hn Hr). Qed.

Lemma invoke_undefine_ok self (h : host W) nm w' :
  fst (accessors.getter vm_name_property self) = Ok nm ->
  virsh_remove_domain virsh nm (world h) = (CmdOk tt, w') ->
  invoke self (undefine virsh) h =
    (Ok (tt, self), mkHost w' (calls h ++ [CallRemoveDomain nm]) (vm h)).
Proof. intros Hn Hr. apply (invoke_undefine virsh self h nm _ _ Hn Hr). Qed.

Lemma invoke_define_fail self (h : host W) detail w' :
  virsh_define virsh self (world h) = (CmdFail detail, w') ->
  invoke self (define virsh) h =
    (Raise (CmdError detail), mkHost w' (calls h ++ [CallDefine self]) (vm h)).
Proof. intros Hr. apply (invoke_define virsh self h _ _ Hr). Qed.

Lemma invoke_define_ok self (h : host W) w' :
  virsh_define virsh self (world h) = (CmdOk tt, w') ->
  invoke self (define virsh) h =
    (Ok (tt, self), mkHost w' (calls h ++ [CallDefine self]) (vm h)).
Proof. intros Hr. apply (invoke_define virsh self h _ _ Hr). Qed.

Lemma invoke_on_fst_ok {A} self (m : M Element A) (h : host W) a self' :
  m self = (Ok a, self') -> invoke self (on_fst m) h = (Ok (a, self'), h).
Proof. intros E. rewrite invoke_on_fst, E. reflexivity. Qed.

(** The first four steps of [vm_rename], up to a successful dump. *)
Ltac rename_prologue h0 Hdump :=
  rewrite vm_rename_steps;
  rewrite (bind_ok get_vm _ h0 (vm h0) h0 eq_refl);
  rewrite (bind_ok _ _ _ _ _ (quiesce_run h0));
  rewrite (bind_ok get_vm _ (quiesced h0) _ _ eq_refl);
  rewrite (bind_ok _ _ _ _ _ (new_from_dumpxml_run _ (quiesced h0) _ _ Hdump)).

Ltac same_host :=
  cbn [quiesced calls vm world name uuid]; repeat rewrite <- app_assoc; reflexivity.

(** C6: when the tool refuses the undefine, [vm_rename] raises
    [LibvirtXMLError] with the tool's diagnostic and stops there: the host
    is as the failed call left it, the calls made are the dump and that
    undefine, with no define, and the [name] and [uuid] of the [vm] object
    are untouched.  When the exception leaves, the instance in the frame
    holds the dumped document [d]: neither the name nor the uuid of the
    document has been assigned. *)
Theorem vm_rename_undefine_failure (new_name : string) (new_uuid : option string)
        (h0 : host W) d w1 nm detail w2
        (Hdump : virsh_dumpxml virsh (name (vm h0)) (world h0) = (CmdOk d, w1))
        (Hname : fst (accessors.getter vm_name_property d) = Ok nm)
        (Hundef : virsh_remove_domain virsh nm w1 = (CmdFail detail, w2)) :
  vm_rename virsh new_name new_uuid h0 =
    (Raise (LibvirtXMLError ("Error reported while undefining VM:" ++ nl ++ detail)),
     mkHost w2 (calls h0 ++ [CallDumpxml (name (vm h0)); CallRemoveDomain nm])
            (mkVM (name (vm h0)) (uuid (vm h0)) false))
  /\ filter is_define (calls (snd (vm_rename virsh new_name new_uuid h0)))
     = filter is_define (calls h0)
  /\ vm_rename_frame virsh new_name new_uuid (None, h0) =
       (Raise (LibvirtXMLError ("Error reported while undefining VM:" ++ nl ++ detail)),
        (Some d,
         mkHost w2 (calls h0 ++ [CallDumpxml (name (vm h0)); CallRemoveDomain nm])
                (mkVM (name (vm h0)) (uuid (vm h0)) false))).
Proof.
  assert (F : vm_rename_frame virsh new_name new_uuid (None, h0) =
       (Raise (LibvirtXMLError ("Error reported while undefining VM:" ++ nl ++ detail)),
        (Some d,
         mkHost w2 (calls h0 ++ [CallDumpxml (name (vm h0)); CallRemoveDomain nm])
                (mkVM (name (vm h0)) (uuid (vm h0)) false)))).
  { unfold vm_rename_frame.
    erewrite bind_ok; [|reflexivity].
    erewrite bind_ok; [|apply on_snd_run, quiesce_run].
    erewrite bind_ok; [|reflexivity].
    erewrite bind_ok;
      [|apply bind_vmxml_ok, (new_from_dumpxml_run _ (quiesced h0) _ _ Hdump)].
    erewrite bind_ok; [|reflexivity].
    erewrite bind_raise; [reflexivity|].
    erewrite try_raise.
    2:{ apply vmxml_do_run. cbn [fst snd]. rewrite undefine_run, Hname.
        unfold remove_domain.
        rewrite (call_run (CallRemoveDomain nm) (virsh_remove_domain virsh nm)
                          (mkHost w1 _ _) _ _ Hundef).
        reflexivity. }
    cbn [quiesced calls vm world name uuid fst snd]. rewrite <- app_assoc. reflexivity. }
  assert (E : vm_rename virsh new_name new_uuid h0 =
    (Raise (LibvirtXMLError ("Error reported while undefining VM:" ++ nl ++ detail)),
     mkHost w2 (calls h0 ++ [CallDumpxml (name (vm h0)); CallRemoveDomain nm])
            (mkVM (name (vm h0)) (uuid (vm h0)) false))).
  { unfold vm_rename, static. rewrite F. reflexivity. }
  split; [exact E|]. split; [|exact F].
  rewrite E. cbn [snd calls]. rewrite filter_app. simpl. apply app_nil_r.
Qed.

(** C1 (as the code has it): when the define of the renamed document
    fails after a successful undefine, [vm_rename] calls define again with
    the copy saved before the renaming.  If that second define succeeds,
    [LibvirtXMLError] with the first diagnostic is raised; if it fails too,
    its own [CmdError] is what reaches the caller. *)
Theorem vm_rename_define_failure (new_name : string) (new_uuid : option string)
        (h0 : host W) d w1 nm w2 d1 d2 e1 w3 out w4
        (Hdump : virsh_dumpxml virsh (name (vm h0)) (world h0) = (CmdOk d, w1))
        (Hname : fst (accessors.getter vm_name_property d) = Ok nm)
        (Hundef : virsh_remove_domain virsh nm w1 = (CmdOk tt, w2))
        (Hset : accessors.setter vm_name_property new_name d = (Ok tt, d1))
        (Huuid : match new_uuid with
                 | None => accessors.delter uuid_property
                 | Some u => accessors.setter uuid_property u
                 end d1 = (Ok tt, d2))
        (Hdef : virsh_define virsh d2 w2 = (CmdFail e1, w3))
        (Hback : virsh_define virsh d w3 = (out, w4)) :
  vm_rename virsh new_name new_uuid h0 =
    (match out with
     | CmdFail e2 => Raise (CmdError e2)
     | CmdOk _ =>
         Raise (LibvirtXMLError ("Error reported while defining VM:" ++ nl ++ e1))
     end,
     mkHost w4
            (calls h0 ++ [CallDumpxml (name (vm h0)); CallRemoveDomain nm;
                          CallDefine d2; CallDefine d])
            (mkVM (name (vm h0)) new_uuid false)).
Proof.
  rename_prologue h0 Hdump.
  erewrite bind_ok.
  2:{ erewrite try_ok; [reflexivity|].
      eapply invoke_undefine_ok; [exact Hname | exact Hundef]. }
  erewrite bind_ok; [|apply invoke_on_fst_ok; exact Hset].
  cbn [snd].
  destruct new_uuid as [u|];
    (erewrite bind_ok;
     [|erewrite bind_ok; [|apply invoke_on_fst_ok; exact Huuid];
       erewrite bind_ok; [|reflexivity]; reflexivity]);
    destruct out as [[]|e2];
    (erewrite bind_raise;
     [|erewrite try_raise; [|eapply invoke_define_fail; exact Hdef];
       cbv beta iota;
       first [ erewrite bind_ok; [|eapply invoke_define_ok; exact Hback]; reflexivity
             | erewrite bind_raise; [|eapply invoke_define_fail; exact Hback]; reflexivity ]]);
    same_host.
Qed.

(** C9 (as the code has it): [set_cpu_mode] first loads the domain with
    [dumpxml]; when that succeeds and the mode is not an accepted one, it
    raises the validation error at once: the dump is the only call made to
    the tool, nothing is undefined or defined, and when the exception
    leaves, the instance in the frame holds the dumped document [d], so the
    tree has not been edited. *)
Theorem set_cpu_mode_validates_after_dump (vm_name mode : string) (h0 : host W) d w1
        (Hdump : virsh_dumpxml virsh vm_name (world h0) = (CmdOk d, w1))
        (Hmode : ~ In (strip mode) cpu_mode) :
  set_cpu_mode virsh vm_name mode h0 =
    (Raise (LibvirtXMLError ("The cpu mode '" ++ mode ++ "' is invalid!")),
     mkHost w1 (calls h0 ++ [CallDumpxml vm_name]) (vm h0))
  /\ set_cpu_mode_frame virsh vm_name mode (None, h0) =
       (Raise (LibvirtXMLError ("The cpu mode '" ++ mode ++ "' is invalid!")),
        (Some d, mkHost w1 (calls h0 ++ [CallDumpxml vm_name]) (vm h0))).
Proof.
  assert (F : set_cpu_mode_frame virsh vm_name mode (None, h0) =
       (Raise (LibvirtXMLError ("The cpu mode '" ++ mode ++ "' is invalid!")),
        (Some d, mkHost w1 (calls h0 ++ [CallDumpxml vm_name]) (vm h0)))).
  { destruct (check_cpu_mode_cases mode) as [Hok|Herr];
      [exfalso; apply Hmode, check_cpu_mode_ok, Hok|].
    unfold set_cpu_mode_frame.
    erewrite bind_ok; [|apply bind_vmxml_ok, (new_from_dumpxml_run _ h0 _ _ Hdump)].
    erewrite bind_raise; [reflexivity|].
    apply vmxml_do_run. unfold lift_result. rewrite Herr. reflexivity. }
  split; [|exact F].
  unfold set_cpu_mode, static. rewrite F. reflexivity.
Qed.

End Rename.

(** ** set_primary_serial with a path *)

Lemma node_at_modify_at f : forall r doc e,
  node_at r doc = Some e -> node_at r (modify_at r f doc) = Some (f e).
Proof.
  induction r as [|i r IH]; intros doc e H; simpl in *.
  - injection H as ->. reflexivity.
  - destruct doc as [t a x c]. simpl in *.
    revert i H. induction c as [|c0 c IHc]; intros [|i] H; simpl in *; try discriminate.
    + apply IH. exact H.
    + apply IHc. exact H.
Qed.

Lemma node_at_modify_below f : forall r r' doc e,
  node_at r doc = Some e ->
  node_at r (modify_at (r ++ r') f doc) = Some (modify_at r' f e).
Proof.
  induction r as [|i r IH]; intros r' doc e H; simpl in *.
  - injection H as ->. reflexivity.
  - destruct doc as [t a x c]. simpl in *.
    revert i H. induction c as [|c0 c IHc]; intros [|i] H; simpl in *; try discriminate.
    + apply IH. exact H.
    + apply IHc. exact H.
Qed.

Lemma tagged_from_update_nth t (g : Element -> Element) :
  (forall c, tag (g c) = tag c) ->
  forall l k i, tagged_from i t (update_nth k g l) = tagged_from i t l.
Proof.
  intros Hg. induction l as [|c l IH]; intros [|k] i; simpl; try reflexivity.
  - rewrite Hg. reflexivity.
  - rewrite IH. reflexivity.
Qed.

Lemma hd_findall_child t r e :
  hd_error (findall_from [t] r e) = option_map (fun k => r ++ [k]) (hd_error (tagged t e)).
Proof.
  simpl. pose proof (tagged_filter t e) as H.
  destruct H as [|k c ks cs Hk _]; [reflexivity|].
  simpl. rewrite Hk. reflexivity.
Qed.

Lemma find_child r t doc e :
  path_steps t = [t] -> node_at r doc = Some e ->
  find (Some r) t doc = (Ok (option_map (fun k => r ++ [k]) (hd_error (tagged t e))), doc).
Proof.
  intros Ht He. unfold find, findall, bind, deref, ret. rewrite He, Ht.
  rewrite hd_findall_child. reflexivity.
Qed.

Lemma set_run r key value doc e :
  node_at r doc = Some e ->
  set (Some r) key value doc =
    (Ok tt, modify_at r (fun e => set_attrib (dict_set key value (attrib e)) e) doc).
Proof. intros He. unfold set, bind, deref. rewrite He. reflexivity. Qed.

Lemma get_run r key doc e :
  node_at r doc = Some e ->
  get (Some r) key doc = (Ok (dict_get key (attrib e)), doc).
Proof. intros He. unfold get, bind, deref, ret. rewrite He. reflexivity. Qed.

(** On a document whose primary serial device has a target but no source,
    the edit with a path raises [AttributeError]. *)
Lemma edit_primary_serial_path_no_source (doc devices serial : Element)
      (i j k : nat) (type port p : string) :
  hd_error (tagged "devices" doc) = Some i ->
  nth_error (children doc) i = Some devices ->
  hd_error (tagged "serial" devices) = Some j ->
  nth_error (children devices) j = Some serial ->
  hd_error (tagged "target" serial) = Some k ->
  tagged "source" serial = [] ->
  fst (edit_primary_serial type port (Some p) doc) = Raise AttributeError.
Proof.
  intros Hi Hdev Hj Hser Hk Hsrc.
  assert (Ndev : node_at [i] doc = Some devices) by (simpl; rewrite Hdev; reflexivity).
  assert (Nser : node_at [i; j] doc = Some serial)
    by (apply (node_at_snoc [i] j doc devices serial Ndev Hser)).
  destruct (nth_error (children serial) k) as [target|] eqn:Htar.
  2:{ pose proof (tagged_filter "target" serial) as H.
      destruct H as [|k' c ks cs Hk' _]; [discriminate|].
      simpl in Hk. injection Hk as ->. congruence. }
  assert (Ntar : node_at [i; j; k] doc = Some target)
    by (apply (node_at_snoc [i; j] k doc serial target Nser Htar)).
  unfold edit_primary_serial.
  erewrite bind_ok.
  2:{ apply try_ok. erewrite bind_ok; [reflexivity|]. unfold get_primary_serial.
      erewrite bind_ok; [|unfold tree_find; apply (find_child [] "devices" doc doc eq_refl eq_refl)].
      rewrite Hi. simpl option_map.
      erewrite bind_ok; [|apply (find_child [i] "serial" doc devices eq_refl Ndev)].
      rewrite Hj. simpl option_map.
      erewrite bind_ok; [|apply (get_run [i; j] "type" doc serial Nser)].
      erewrite bind_ok; [|apply (find_child [i; j] "target" doc serial eq_refl Nser)].
      rewrite Hk. simpl option_map.
      erewrite bind_ok; [|apply (get_run [i; j; k] "port" doc target Ntar)].
      reflexivity. }
  simpl feat_serial.
  erewrite bind_ok; [|apply (set_run [i; j] "type" type doc serial Nser)].
  set (f := fun e => set_attrib (dict_set "type" type (attrib e)) e).
  set (doc1 := modify_at [i; j] f doc).
  assert (Nser1 : node_at [i; j] doc1 = Some (f serial))
    by (apply node_at_modify_at; exact Nser).
  assert (Ntar1 : node_at [i; j; k] doc1 = Some target).
  { apply (node_at_snoc [i; j] k doc1 (f serial) target Nser1). exact Htar. }
  erewrite bind_ok; [|apply (find_child [i; j] "target" doc1 (f serial) eq_refl Nser1)].
  change (tagged "target" (f serial)) with (tagged "target" serial). rewrite Hk.
  simpl option_map.
  erewrite bind_ok; [|apply (set_run [i; j; k] "port" port doc1 target Ntar1)].
  set (g := fun e => set_attrib (dict_set "port" port (attrib e)) e).
  set (doc2 := modify_at [i; j; k] g doc1).
  assert (Nser2 : node_at [i; j] doc2
                  = Some (set_children (update_nth k g (children serial)) (f serial))).
  { unfold doc2. change [i; j; k] with ([i; j] ++ [k]).
    rewrite (node_at_modify_below g [i; j] [k] doc1 (f serial) Nser1). reflexivity. }
  erewrite bind_ok; [|apply (find_child [i; j] "source" doc2 _ eq_refl Nser2)].
  unfold tagged at 1. simpl children.
  rewrite (tagged_from_update_nth "source" g (fun c => eq_refl)).
  fold (tagged "source" serial). rewrite Hsrc. reflexivity.
Qed.

(** So [set_primary_serial] with a path, on a domain whose primary serial
    device has no source, raises [AttributeError] after the dump and before
    any undefine or define. *)
Lemma set_primary_serial_path_no_source {W} (virsh : virsh_binding W)
      (vm_name type port p : string) (h : host W) (w1 : W)
      (doc devices serial : Element) (i j k : nat) :
  virsh_dumpxml virsh vm_name (world h) = (CmdOk doc, w1) ->
  hd_error (tagged "devices" doc) = Some i ->
  nth_error (children doc) i = Some devices ->
  hd_error (tagged "serial" devices) = Some j ->
  nth_error (children devices) j = Some serial ->
  hd_error (tagged "target" serial) = Some k ->
  tagged "source" serial = [] ->
  set_primary_serial virsh vm_name type port (Some p) h =
    (Raise AttributeError, mkHost w1 (calls h ++ [CallDumpxml vm_name]) (vm h)).
Proof.
  intros Hdump Hi Hdev Hj Hser Hk Hsrc.
  unfold set_primary_serial.
  rewrite (bind_ok _ _ _ _ _ (new_from_dumpxml_run virsh _ h _ _ Hdump)).
  erewrite bind_raise; [reflexivity|].
  rewrite invoke_on_fst.
  pose proof (edit_primary_serial_path_no_source
                doc devices serial i j k type port p Hi Hdev Hj Hser Hk Hsrc) as E.
  destruct (edit_primary_serial type port (Some p) doc) as [[[]|e] doc'];
    simpl in E; [discriminate|].
  injection E as ->. reflexivity.
Qed.

(** ** Runs on the scripted libvirt *)

Lemma vm_rename_undefine_failure_witness :
  let w2 := Libvirt.mk [("vm1", domain_no_serial)] [] in
  let v := mkVM "vm1" (Some "0e5b-01") false in
  let failure :=
    LibvirtXMLError ("Error reported while undefining VM:" ++ nl ++ "undefine failed") in
  let h0 := host0 domain_no_serial [None; Some "undefine failed"] in
  vm_rename Libvirt.virsh "vm2" None h0 =
    (Raise failure, mkHost w2 [CallDumpxml "vm1"; CallRemoveDomain (Some "vm1")] v)
  /\ filter is_define (calls (snd (vm_rename Libvirt.virsh "vm2" None h0))) = []
  /\ vm_rename_frame Libvirt.virsh "vm2" None (None, h0) =
       (Raise failure,
        (Some domain_no_serial,
         mkHost w2 [CallDumpxml "vm1"; CallRemoveDomain (Some "vm1")] v)).
Proof.
  cbv zeta.
  apply (vm_rename_undefine_failure
           Libvirt.virsh "vm2" None
           (host0 domain_no_serial [None; Some "undefine failed"])
           domain_no_serial
           (Libvirt.mk [("vm1", domain_no_serial)] [Some "undefine failed"])
           (Some "vm1") "undefine failed"
           (Libvirt.mk [("vm1", domain_no_serial)] [])); reflexivity.
Defined.

Lemma vm_rename_define_failure_witness :
  vm_rename Libvirt.virsh "vm2" (Some "77aa-02")
            (host0 domain_no_serial
                   [None; None; Some "define failed"; Some "recommit failed"]) =
    (Raise (CmdError "recommit failed"),
     mkHost (Libvirt.mk [] [])
            [CallDumpxml "vm1"; CallRemoveDomain (Some "vm1");
             CallDefine (elem "domain" [("type", "kvm")]
                              [leaf "name" "vm2"; leaf "uuid" "77aa-02";
                               elem "devices" [] []]);
             CallDefine domain_no_serial]
            (mkVM "vm1" (Some "77aa-02") false)).
Proof.
  apply (vm_rename_define_failure
           Libvirt.virsh "vm2" (Some "77aa-02")
           (host0 domain_no_serial
                  [None; None; Some "define failed"; Some "recommit failed"])
           domain_no_serial
           (Libvirt.mk [("vm1", domain_no_serial)]
                       [None; Some "define failed"; Some "recommit failed"])
           (Some "vm1")
           (Libvirt.mk [] [Some "define failed"; Some "recommit failed"])
           (elem "domain" [("type", "kvm")]
                 [leaf "name" "vm2"; leaf "uuid" "0e5b-01"; elem "devices" [] []])
           (elem "domain" [("type", "kvm")]
                 [leaf "name" "vm2"; leaf "uuid" "77aa-02"; elem "devices" [] []])
           "define failed"
           (Libvirt.mk [] [Some "recommit failed"])
           (CmdFail "recommit failed")
           (Libvirt.mk [] [])); reflexivity.
Defined.

(** C1, as stated, fails: with a define that fails with "define failed"
    and a recommit that fails with "recommit failed", what reaches the
    caller is the second diagnostic alone. *)
Lemma vm_rename_double_failure_drops_first :
  let r := fst (vm_rename Libvirt.virsh "vm2" None
                          (host0 domain_no_serial
                                 [None; None; Some "define failed";
                                  Some "recommit failed"])) in
  r = Raise (CmdError "recommit failed")
  /\ surfaces r "recommit failed" = true
  /\ surfaces r "define failed" = false.
Proof. repeat split. Qed.

Lemma set_cpu_mode_validates_after_dump_witness :
  let loaded :=
    mkHost (Libvirt.mk [("vm1", domain_cpu)] []) [CallDumpxml "vm1"]
           (mkVM "vm1" (Some "0e5b-01") false) in
  let failure := LibvirtXMLError "The cpu mode 'Custom' is invalid!" in
  set_cpu_mode Libvirt.virsh "vm1" "Custom" (host0 domain_cpu []) = (Raise failure, loaded)
  /\ set_cpu_mode_frame Libvirt.virsh "vm1" "Custom" (None, host0 domain_cpu []) =
       (Raise failure, (Some domain_cpu, loaded)).
Proof.
  cbv zeta.
  apply (set_cpu_mode_validates_after_dump
           Libvirt.virsh "vm1" "Custom" (host0 domain_cpu [])
           domain_cpu (Libvirt.mk [("vm1", domain_cpu)] [])).
  - reflexivity.
  - simpl. intros [H|[H|[H|[]]]]; discriminate H.
Defined.

(** C9, as stated, fails: with the invalid mode "Custom", [set_cpu_mode]
    has already called the tool ([dumpxml]) when the validation error is
    raised; and when that call fails, the error is the tool's, not a
    validation error. *)
Lemma set_cpu_mode_invalid_mode_calls_dumpxml :
  check_cpu_mode "Custom" = Raise (LibvirtXMLError "The cpu mode 'Custom' is invalid!")
  /\ calls (host0 domain_no_serial []) = []
  /\ calls (snd (set_cpu_mode Libvirt.virsh "vm1" "Custom" (host0 domain_no_serial [])))
     = [CallDumpxml "vm1"]
  /\ fst (set_cpu_mode Libvirt.virsh "vm1" "Custom"
                       (host0 domain_no_serial [Some "tool unreachable"]))
     = Raise (CmdError "tool unreachable").
Proof. repeat split. Qed.

(** C2, on the code: the first call, on a domain with no serial device,
    leaves exactly one serial device of type "pty" with target port "0" and
    no source path; the next call, with a path, raises [AttributeError] at
    [serial.find('source').set(...)], having only dumped the domain, so the
    defined document gets no source path.  (A call with [path=None] on a
    serial device that has a source removes the source and keeps the type
    and port it is given.) *)
Theorem set_primary_serial_path_needs_source :
  let first := set_primary_serial Libvirt.virsh "vm1" "pty" "0" None
                                  (host0 domain_no_serial []) in
  let d1 := elem "domain" [("type", "kvm")]
                 [leaf "name" "vm1"; leaf "uuid" "0e5b-01";
                  elem "devices" []
                       [elem "serial" [("type", "pty")]
                             [elem "target" [("port", "0")] []]]] in
  let second := set_primary_serial Libvirt.virsh "vm1" "pty" "0" (Some "/dev/pts/1")
                                   (snd first) in
  let third := set_primary_serial Libvirt.virsh "vm1" "pty" "0" None
                                  (host0 domain_serial_source []) in
  (fst first = Ok tt
   /\ Libvirt.domains (world (snd first)) = [("vm1", d1)]
   /\ map (fun s => (dict_get "type" (attrib s), target_port s, source_path s))
          (serial_devices d1) = [(Some "pty", Some "0", None)])
  /\ (fst second = Raise AttributeError
      /\ Libvirt.domains (world (snd second)) = [("vm1", d1)]
      /\ calls (snd second) = calls (snd first) ++ [CallDumpxml "vm1"])
  /\ (fst third = Ok tt
      /\ exists d3, Libvirt.domains (world (snd third)) = [("vm1", d3)]
         /\ map (fun s => (dict_get "type" (attrib s), target_port s, source_path s))
                (serial_devices d3) = [(Some "pty", Some "0", None)]).
Proof.
  cbv zeta. repeat split.
  eexists. split; reflexivity.
Qed.

(** ** The document store: parse after serialize *)

Module DocumentStoreFacts.
Import DocumentStore.






(** Conversely, whatever parses is the serialized form of what it parses
    to: serializing the output of [parse] gives the input back. *)
Lemma parse_inverts fuel :
  (forall ts d rest, parse_element fuel ts = Some (d, rest) -> ts = serialize d ++ rest)
  /\ (forall ts cs rest, parse_children fuel ts = Some (cs, rest) ->
                         ts = flat_map serialize cs ++ rest).
Proof.
  induction fuel as [|fuel [IHe IHc]]; [split; intros; discriminate|].
  split.
  - intros ts d rest H. simpl in H.
    destruct ts as [|[t a|s|t] ts1]; try discriminate.
    destruct ts1 as [|[t1 a1|s1|t1] ts2]; cbv beta iota zeta in H.
    + destruct (parse_children fuel []) as [[c [|[| |t'] r]]|] eqn:E; try discriminate.
      apply IHc in E. exfalso. exact (app_cons_not_nil _ _ _ E).
    + destruct (parse_children fuel (TOpen t1 a1 :: ts2)) as [[c [|[| |t'] r]]|] eqn:E;
        try discriminate.
      destruct (String.eqb_spec t' t); [|discriminate]. subst t'.
      injection H as <- <-. apply IHc in E. simpl. rewrite E.
      rewrite <- app_assoc. reflexivity.
    + destruct (parse_children fuel ts2) as [[c [|[| |t'] r]]|] eqn:E; try discriminate.
      destruct (String.eqb_spec t' t); [|discriminate]. subst t'.
      injection H as <- <-. apply IHc in E. simpl. rewrite E.
      rewrite <- app_assoc. reflexivity.
    + destruct (parse_children fuel (TClose t1 :: ts2)) as [[c [|[| |t'] r]]|] eqn:E;
        try discriminate.
      destruct (String.eqb_spec t' t); [|discriminate]. subst t'.
      injection H as <- <-. apply IHc in E. simpl. rewrite E.
      rewrite <- app_assoc. reflexivity.
  - intros ts cs rest H. simpl in H.
    assert (G : forall ts,
               match parse_element fuel ts with
               | Some (c, r) => match parse_children fuel r with
                                | Some (cs0, r') => Some (c :: cs0, r')
                                | None => None
                                end
               | None => None
               end = Some (cs, rest) -> ts = flat_map serialize cs ++ rest).
    { clear H. intros ts' H.
      destruct (parse_element fuel ts') as [[c r]|] eqn:E1; [|discriminate].
      destruct (parse_children fuel r) as [[cs0 r']|] eqn:E2; [|discriminate].
      injection H as <- <-. apply IHe in E1. apply IHc in E2. subst.
      simpl. rewrite <- app_assoc. reflexivity. }
    destruct ts as [|[t a|s|t] ts1]; try (apply G; exact H).
    injection H as <- <-. reflexivity.
Qed.

Lemma serialize_parse ts d : parse ts = inl d -> serialize d = ts.
Proof.
  unfold parse. intros H.
  destruct (parse_element (length ts) ts) as [[d' [|tk r]]|] eqn:E; try discriminate.
  injection H as ->. apply (proj1 (parse_inverts _)) in E.
  rewrite app_nil_r in E. symmetry. exact E.
Qed.
End DocumentStoreFacts.


(** * Further properties of the code *)

(** ** Indices below the feature list *)

Lemma py_index_below {A} (l : list A) (i : Z) :
  (i < - Z.of_nat (length l))%Z -> py_index l i = Raise IndexError.
Proof.
  intros H. unfold py_index. cbv zeta.
  destruct (Z.ltb_spec i 0); [|lia].
  destruct (Z.leb_spec 0 (Z.of_nat (length l) + i)); [lia|]. reflexivity.
Qed.

(** X1: an index below [-count] passes the guard [num >= count] and then
    fails in the list indexing itself: each of the three methods raises
    Python's [IndexError], not [LibvirtXMLError], and the document is as it
    was. *)
Theorem feature_index_below_range (doc : Element) (i : Z) (v : string)
        (Hi : (i < - feature_count doc)%Z) :
  get_feature_name i doc = (Raise IndexError, doc)
  /\ set_feature i v doc = (Raise IndexError, doc)
  /\ remove_feature i doc = (Raise IndexError, doc).
Proof.
  pose proof (feature_refs_count doc) as Hc.
  assert (Hc0 : (0 <= feature_count doc)%Z) by (unfold feature_count; lia).
  assert (G : (i >=? Z.of_nat (length (feature_refs doc)))%Z = false)
    by (destruct (Z.geb_spec i (Z.of_nat (length (feature_refs doc)))); [lia | reflexivity]).
  assert (E : py_index (feature_refs doc) i = Raise IndexError)
    by (apply py_index_below; lia).
  unfold get_feature_name, set_feature, remove_feature.
  rewrite !(bind_ok _ _ _ _ _ (get_feature_list_eq doc)).
  rewrite G.
  rewrite !(bind_ok _ _ _ _ _ (get_feature_list_eq doc)).
  unfold lift_result. rewrite E. repeat split.
Qed.

Lemma feature_index_below_range_witness :
  (-4 < - feature_count domain_cpu)%Z
  /\ get_feature_name (-4) domain_cpu = (Raise IndexError, domain_cpu)
  /\ set_feature (-4) "sse" domain_cpu = (Raise IndexError, domain_cpu)
  /\ remove_feature (-4) domain_cpu = (Raise IndexError, domain_cpu).
Proof.
  split; [vm_compute; reflexivity|].
  apply (feature_index_below_range domain_cpu (-4) "sse"). vm_compute. reflexivity.
Defined.

(** ** check_feature_name *)

Lemma str_find_flags_char ch : str_find (String ch EmptyString) "flags" = (-1)%Z.
Proof.
  unfold str_find. simpl. rewrite andb_false_r. reflexivity.
Qed.

Lemma check_feature_name_loop_keeps chars : forall sys_feature,
  check_feature_name_loop chars sys_feature = Ok sys_feature.
Proof.
  induction chars as [|ch rest IH]; intros sys_feature; [reflexivity|].
  cbn [check_feature_name_loop]. cbv zeta.
  rewrite str_find_flags_char. simpl negb. cbv iota. apply IH.
Qed.

(** X2: [check_feature_name] answers [False] for every feature name and
    every content of [/proc/cpuinfo]: its loop runs over the characters of
    the first line, none of which contains "flags", so the list of system
    features stays empty. *)
Theorem check_feature_name_always_false (cpuinfo value : string) :
  check_feature_name cpuinfo value = Ok false.
Proof.
  unfold check_feature_name. rewrite check_feature_name_loop_keeps. reflexivity.
Qed.

(** ** Lists of children *)

Lemma tagged_from_none t l : forall i0,
  tagged_from i0 t l = [] -> filter (has_tag t) l = [].
Proof.
  induction l as [|c l IH]; intros i0 H; simpl in *; [reflexivity|].
  unfold has_tag at 1. destruct (String.eqb (tag c) t); [discriminate|].
  apply (IH (S i0)). exact H.
Qed.

Lemma tagged_from_first t l : forall i0 i,
  hd_error (tagged_from i0 t l) = Some i ->
  exists pre c post,
    l = pre ++ c :: post /\ i = i0 + length pre
    /\ has_tag t c = true /\ filter (has_tag t) pre = [].
Proof.
  induction l as [|c l IH]; intros i0 i H; simpl in H; [discriminate|].
  destruct (String.eqb (tag c) t) eqn:E.
  - simpl in H. injection H as <-. exists [], c, l. simpl.
    repeat split; [lia | exact E].
  - destruct (IH (S i0) i H) as [pre [c' [post [-> [-> [Hc Hpre]]]]]].
    exists (c :: pre), c', post. simpl. unfold has_tag at 2. rewrite E.
    repeat split; [lia | exact Hc | exact Hpre].
Qed.

Lemma tagged_first t e i :
  hd_error (tagged t e) = Some i ->
  exists pre c post,
    children e = pre ++ c :: post /\ i = length pre
    /\ has_tag t c = true /\ filter (has_tag t) pre = [].
Proof. intros H. apply (tagged_from_first t (children e) 0 i H). Qed.

Lemma tagged_none t e :
  hd_error (tagged t e) = None -> filter (has_tag t) (children e) = [].
Proof.
  unfold tagged. intros H. apply (tagged_from_none t (children e) 0).
  destruct (tagged_from 0 t (children e)); [reflexivity | discriminate].
Qed.

Lemma update_nth_middle {A} (f : A -> A) pre c post :
  update_nth (length pre) f (pre ++ c :: post) = pre ++ f c :: post.
Proof. induction pre as [|x pre IH]; simpl; [reflexivity | rewrite IH; reflexivity]. Qed.

Lemma nth_error_middle {A} (pre : list A) c post :
  nth_error (pre ++ c :: post) (length pre) = Some c.
Proof. induction pre as [|x pre IH]; simpl; [reflexivity | exact IH]. Qed.

Lemma dict_get_set k v d : dict_get k (dict_set k v d) = Some v.
Proof.
  induction d as [|[k' v'] d IH]; simpl.
  - rewrite String.eqb_refl. reflexivity.
  - destruct (String.eqb k k') eqn:E; simpl.
    + rewrite String.eqb_refl. reflexivity.
    + rewrite E. exact IH.
Qed.

Lemma tree_find_run path doc :
  tree_find path doc = (Ok (hd_error (findall_from (path_steps path) [] doc)), doc).
Proof. reflexivity. Qed.

(** ** set_cpu_mode *)

Lemma edit_cpu_mode_run (mode : string) (doc : Element) :
  edit_cpu_mode mode doc =
    (Ok tt,
     match hd_error (tagged "cpu" doc) with
     | Some i => modify_at [i] (set_mode_attr mode) doc
     | None => set_children (children doc ++ [mkElement "cpu" [("mode", mode)] None []]) doc
     end).
Proof.
  unfold edit_cpu_mode.
  destruct (hd_error (tagged "cpu" doc)) as [i|] eqn:Hi.
  - destruct (tagged_first "cpu" doc i Hi) as [pre [c [post [Hch [-> [Hc Hpre]]]]]].
    assert (N : node_at [length pre] doc = Some c).
    { simpl. rewrite Hch, nth_error_middle. reflexivity. }
    apply try_ok.
    erewrite bind_ok; [|rewrite tree_find_run; reflexivity].
    change (path_steps "/cpu") with ["cpu"]. rewrite hd_findall_child, Hi.
    simpl option_map.
    erewrite bind_ok; [|apply (get_run [length pre] "mode" doc c N)].
    apply (set_run [length pre] "mode" mode doc c N).
  - erewrite try_raise.
    2:{ erewrite bind_ok; [|rewrite tree_find_run; reflexivity].
        change (path_steps "/cpu") with ["cpu"]. rewrite hd_findall_child, Hi.
        reflexivity. }
    reflexivity.
Qed.

(** X4: [edit_cpu_mode], the tree edit of [set_cpu_mode], always succeeds,
    and afterwards the first [cpu] child of the root carries the mode
    exactly as it was given (whitespace included).  The root keeps its tag,
    attributes and text; when there was a [cpu] child the root has as many
    children as before, and otherwise a [cpu] element with that mode alone
    is appended. *)
Theorem edit_cpu_mode_sets_mode (mode : string) (doc : Element) :
  exists doc',
    edit_cpu_mode mode doc = (Ok tt, doc')
    /\ cpu_mode_attr doc' = Some mode
    /\ tag doc' = tag doc /\ attrib doc' = attrib doc /\ text doc' = text doc
    /\ match first_child "cpu" doc with
       | Some _ => length (children doc') = length (children doc)
       | None => children doc' = children doc ++ [mkElement "cpu" [("mode", mode)] None []]
       end.
Proof.
  eexists. split; [apply edit_cpu_mode_run|].
  unfold cpu_mode_attr, first_child.
  destruct (hd_error (tagged "cpu" doc)) as [i|] eqn:Hi.
  - destruct (tagged_first "cpu" doc i Hi) as [pre [c [post [Hch [-> [Hc Hpre]]]]]].
    simpl modify_at. simpl children. rewrite Hch, update_nth_middle.
    rewrite !filter_app, Hpre. simpl. rewrite Hc.
    unfold has_tag at 1. simpl tag. unfold has_tag in Hc. rewrite Hc. simpl.
    rewrite !length_app. simpl. repeat split. apply dict_get_set.
  - pose proof (tagged_none "cpu" doc Hi) as Hnone.
    simpl. rewrite filter_app, Hnone. repeat split.
Qed.

Lemma nth_error_update_nth {A} (f : A -> A) : forall l i j,
  nth_error (update_nth i f l) j =
    if Nat.eqb j i then option_map f (nth_error l j) else nth_error l j.
Proof.
  induction l as [|x l IH]; intros [|i] [|j]; simpl; try reflexivity.
  - destruct (Nat.eqb j i); reflexivity.
  - apply IH.
Qed.

Lemma tagged_from_app t l1 l2 : forall i0,
  tagged_from i0 t (l1 ++ l2) = tagged_from i0 t l1 ++ tagged_from (i0 + length l1) t l2.
Proof.
  induction l1 as [|c l1 IH]; intros i0; simpl.
  - rewrite Nat.add_0_r. reflexivity.
  - rewrite IH. replace (S i0 + length l1) with (i0 + S (length l1)) by lia.
    destruct (String.eqb (tag c) t); reflexivity.
Qed.

Lemma nth_error_tagged_from t l : forall i0 i,
  In i (tagged_from i0 t l) -> exists c, nth_error l (i - i0) = Some c /\ i0 <= i.
Proof.
  intros i0 i Hin.
  pose proof (tagged_from_filter t l i0) as F.
  revert Hin. induction F as [|j c js cs [Hle Hn] _ IH]; simpl; [intros []|].
  intros [<-|Hin]; [exists c; split; assumption | apply IH, Hin].
Qed.

(** What the [vm_name] property reads. *)
Lemma getter_vm_name_run doc :
  fst (accessors.getter vm_name_property doc) =
    match hd_error (tagged "name" doc) with
    | Some k => match nth_error (children doc) k with
                | Some c => Ok (text c)
                | None => Raise ReferenceError
                end
    | None => Raise NotFoundError
    end.
Proof.
  unfold accessors.getter, accessors.locate, bind.
  change (accessors.forbids vm_name_property accessors.OpGet) with false. cbv iota.
  change (accessors.location vm_name_property) with ["name"].
  change (accessors.select vm_name_property) with accessors.ElementText.
  cbv beta iota. rewrite hd_findall_child.
  destruct (hd_error (tagged "name" doc)) as [k|]; [|reflexivity].
  cbn [option_map app]. unfold get_text, bind, deref, ret. cbn [node_at].
  destruct (nth_error (children doc) k); reflexivity.
Qed.

(** The edit of [set_cpu_mode] does not touch the name of the domain. *)
Lemma getter_vm_name_edit_cpu_mode mode doc :
  fst (accessors.getter vm_name_property (snd (edit_cpu_mode mode doc)))
  = fst (accessors.getter vm_name_property doc).
Proof.
  rewrite edit_cpu_mode_run. cbn [snd]. rewrite !getter_vm_name_run.
  destruct (hd_error (tagged "cpu" doc)) as [i|] eqn:Hi.
  - unfold tagged. simpl modify_at. simpl children.
    rewrite (tagged_from_update_nth "name" (set_mode_attr mode) (fun c => eq_refl)).
    destruct (hd_error (tagged_from 0 "name" (children doc))) as [k|]; [|reflexivity].
    rewrite nth_error_update_nth.
    destruct (Nat.eqb k i); [|reflexivity].
    destruct (nth_error (children doc) k); reflexivity.
  - unfold tagged. simpl children. rewrite tagged_from_app. simpl tagged_from.
    rewrite app_nil_r.
    destruct (tagged_from 0 "name" (children doc)) as [|k ks] eqn:Hk; [reflexivity|].
    simpl hd_error.
    destruct (nth_error_tagged_from "name" (children doc) 0 k) as [c [Hc _]].
    { rewrite Hk. left. reflexivity. }
    rewrite Nat.sub_0_r in Hc. rewrite nth_error_app1, Hc; [reflexivity|].
    apply nth_error_Some. congruence.
Qed.

Section Redefine.

Context {W : Type} (virsh : virsh_binding W).

(** The last two steps of every convenience setter: undefine, then
    define, with nothing in between and nothing afterwards. *)
Lemma undefine_define_run (d : Element) (h : host W) nm ru w2 :
  fst (accessors.getter vm_name_property d) = Ok nm ->
  virsh_remove_domain virsh nm (world h) = (ru, w2) ->
  (r <- invoke d (undefine virsh) ;; _ <- invoke (snd r) (define virsh) ;; ret tt) h =
    match ru with
    | CmdFail detail =>
        (Raise (CmdError detail), mkHost w2 (calls h ++ [CallRemoveDomain nm]) (vm h))
    | CmdOk _ =>
        (match fst (virsh_define virsh d w2) with
         | CmdOk _ => Ok tt
         | CmdFail detail => Raise (CmdError detail)
         end,
         mkHost (snd (virsh_define virsh d w2))
                (calls h ++ [CallRemoveDomain nm; CallDefine d]) (vm h))
    end.
Proof.
  intros Hn Hr. destruct ru as [[]|detail].
  - erewrite bind_ok; [|eapply invoke_undefine_ok; [exact Hn | exact Hr]].
    cbn [snd].
    destruct (virsh_define virsh d w2) as [rd w3] eqn:Hd.
    destruct rd as [[]|detail].
    + erewrite bind_ok; [|eapply invoke_define_ok; exact Hd].
      unfold ret. cbn [fst snd calls vm world]. rewrite <- app_assoc. reflexivity.
    + erewrite bind_raise; [|eapply invoke_define_fail; exact Hd].
      cbn [fst snd calls vm world]. rewrite <- app_assoc. reflexivity.
  - erewrite bind_raise; [|eapply invoke_undefine_fail; [exact Hn | exact Hr]].
    reflexivity.
Qed.

(** X5: with an accepted mode and a successful dump, [set_cpu_mode] edits
    the tree and then undefines and defines the domain, once each and with
    no way back: a failed undefine ends the call before any define, and a
    failed define ends it with the domain undefined (the dumped document
    is not committed again).  The document passed to define is the edited
    one. *)
Theorem set_cpu_mode_redefines (vm_name mode : string) (h0 : host W) d w1 nm ru w2
        (Hdump : virsh_dumpxml virsh vm_name (world h0) = (CmdOk d, w1))
        (Hmode : In (strip mode) cpu_mode)
        (Hname : fst (accessors.getter vm_name_property d) = Ok nm)
        (Hundef : virsh_remove_domain virsh nm w1 = (ru, w2)) :
  let d' := snd (edit_cpu_mode mode d) in
  set_cpu_mode virsh vm_name mode h0 =
    match ru with
    | CmdFail detail =>
        (Raise (CmdError detail),
         mkHost w2 (calls h0 ++ [CallDumpxml vm_name; CallRemoveDomain nm]) (vm h0))
    | CmdOk _ =>
        (match fst (virsh_define virsh d' w2) with
         | CmdOk _ => Ok tt
         | CmdFail detail => Raise (CmdError detail)
         end,
         mkHost (snd (virsh_define virsh d' w2))
                (calls h0 ++ [CallDumpxml vm_name; CallRemoveDomain nm; CallDefine d'])
                (vm h0))
    end.
Proof.
  cbv zeta. rewrite set_cpu_mode_steps.
  rewrite (bind_ok _ _ _ _ _ (new_from_dumpxml_run virsh _ h0 _ _ Hdump)).
  erewrite bind_ok.
  2:{ unfold invoke, lift_result. rewrite (proj2 (check_cpu_mode_ok mode) Hmode).
      reflexivity. }
  cbn [snd].
  assert (E : edit_cpu_mode mode d = (Ok tt, snd (edit_cpu_mode mode d)))
    by (rewrite edit_cpu_mode_run; reflexivity).
  erewrite bind_ok; [|apply invoke_on_fst_ok; exact E].
  cbn [snd].
  assert (Hn' : fst (accessors.getter vm_name_property (snd (edit_cpu_mode mode d))) = Ok nm)
    by (rewrite getter_vm_name_edit_cpu_mode; exact Hname).
  erewrite undefine_define_run; [|exact Hn'|exact Hundef].
  destruct ru as [[]|detail]; cbn [calls vm world]; rewrite <- app_assoc; reflexivity.
Qed.

End Redefine.

Lemma set_cpu_mode_redefines_witness :
  set_cpu_mode Libvirt.virsh "vm1" " host-model"
               (host0 domain_no_serial [None; None; Some "define failed"]) =
    (Raise (CmdError "define failed"),
     mkHost (Libvirt.mk [] [])
            [CallDumpxml "vm1"; CallRemoveDomain (Some "vm1");
             CallDefine (elem "domain" [("type", "kvm")]
                              [leaf "name" "vm1"; leaf "uuid" "0e5b-01";
                               elem "devices" [] [];
                               elem "cpu" [("mode", " host-model")] []])]
            (mkVM "vm1" (Some "0e5b-01") false)).
Proof.
  apply (set_cpu_mode_redefines
           Libvirt.virsh "vm1" " host-model"
           (host0 domain_no_serial [None; None; Some "define failed"])
           domain_no_serial
           (Libvirt.mk [("vm1", domain_no_serial)] [None; Some "define failed"])
           (Some "vm1") (CmdOk tt)
           (Libvirt.mk [] [Some "define failed"])).
  - reflexivity.
  - simpl. right. left. reflexivity.
  - reflexivity.
  - reflexivity.
Defined.

(** ** vm_rename, when every step succeeds *)

Section RenameSuccess.

Context {W : Type} (virsh : virsh_binding W).

(** X3: when the dump, the undefine, the two property assignments and the
    define all succeed, [vm_rename] has made exactly these three calls of
    the tool, in this order, the define with the renamed document (the
    saved copy is not used), and it returns the [vm] object with its name
    set to the new name and its uuid set to the [uuid] argument ([None]
    when none was given). *)
Theorem vm_rename_success (new_name : string) (new_uuid : option string)
        (h0 : host W) d w1 nm w2 d1 d2 w3
        (Hdump : virsh_dumpxml virsh (name (vm h0)) (world h0) = (CmdOk d, w1))
        (Hname : fst (accessors.getter vm_name_property d) = Ok nm)
        (Hundef : virsh_remove_domain virsh nm w1 = (CmdOk tt, w2))
        (Hset : accessors.setter vm_name_property new_name d = (Ok tt, d1))
        (Huuid : match new_uuid with
                 | None => accessors.delter uuid_property
                 | Some u => accessors.setter uuid_property u
                 end d1 = (Ok tt, d2))
        (Hdef : virsh_define virsh d2 w2 = (CmdOk tt, w3)) :
  vm_rename virsh new_name new_uuid h0 =
    (Ok (mkVM new_name new_uuid false),
     mkHost w3
            (calls h0 ++ [CallDumpxml (name (vm h0)); CallRemoveDomain nm; CallDefine d2])
            (mkVM new_name new_uuid false)).
Proof.
  rewrite vm_rename_steps.
  rewrite (bind_ok get_vm _ h0 (vm h0) h0 eq_refl).
  rewrite (bind_ok _ _ _ _ _ (quiesce_run h0)).
  rewrite (bind_ok get_vm _ (quiesced h0) _ _ eq_refl).
  rewrite (bind_ok _ _ _ _ _ (new_from_dumpxml_run virsh _ (quiesced h0) _ _ Hdump)).
  erewrite bind_ok.
  2:{ erewrite try_ok; [reflexivity|].
      eapply invoke_undefine_ok; [exact Hname | exact Hundef]. }
  erewrite bind_ok; [|apply invoke_on_fst_ok; exact Hset].
  cbn [snd].
  destruct new_uuid as [u|];
    (erewrite bind_ok;
     [|erewrite bind_ok; [|apply invoke_on_fst_ok; exact Huuid];
       erewrite bind_ok; [|reflexivity]; reflexivity]);
    (erewrite bind_ok;
     [|erewrite try_ok; [reflexivity|]; eapply invoke_define_ok; exact Hdef]);
    (erewrite bind_ok; [|reflexivity]);
    unfold get_vm; cbn [quiesced calls vm world name uuid alive];
    repeat rewrite <- app_assoc; reflexivity.
Qed.

End RenameSuccess.

Lemma vm_rename_success_witness :
  vm_rename Libvirt.virsh "vm2" None (host0 domain_no_serial []) =
    (Ok (mkVM "vm2" None false),
     mkHost (Libvirt.mk [("vm2", elem "domain" [("type", "kvm")]
                                      [leaf "name" "vm2"; elem "devices" [] []])] [])
            [CallDumpxml "vm1"; CallRemoveDomain (Some "vm1");
             CallDefine (elem "domain" [("type", "kvm")]
                              [leaf "name" "vm2"; elem "devices" [] []])]
            (mkVM "vm2" None false)).
Proof.
  apply (vm_rename_success
           Libvirt.virsh "vm2" None (host0 domain_no_serial [])
           domain_no_serial
           (Libvirt.mk [("vm1", domain_no_serial)] [])
           (Some "vm1")
           (Libvirt.mk [] [])
           (elem "domain" [("type", "kvm")]
                 [leaf "name" "vm2"; leaf "uuid" "0e5b-01"; elem "devices" [] []])
           (elem "domain" [("type", "kvm")]
                 [leaf "name" "vm2"; elem "devices" [] []])
           (Libvirt.mk [("vm2", elem "domain" [("type", "kvm")]
                                     [leaf "name" "vm2"; elem "devices" [] []])] []));
    reflexivity.
Defined.

(** ** References and the shape of the tree *)

Lemma tag_skeleton e : tag (skeleton e) = tag e.
Proof. destruct e; reflexivity. Qed.

Lemma children_skeleton e : children (skeleton e) = map skeleton (children e).
Proof. destruct e; reflexivity. Qed.

Lemma tagged_from_map t (g : Element -> Element) :
  (forall c, tag (g c) = tag c) ->
  forall l i, tagged_from i t (map g l) = tagged_from i t l.
Proof.
  intros Hg. induction l as [|c l IH]; intros i; simpl; [reflexivity|].
  rewrite Hg, IH. reflexivity.
Qed.

Lemma findall_from_skeleton : forall steps r e,
  findall_from steps r (skeleton e) = findall_from steps r e.
Proof.
  induction steps as [|t steps IH]; intros r e; simpl; [reflexivity|].
  unfold tagged. rewrite children_skeleton, (tagged_from_map t skeleton tag_skeleton).
  apply flat_map_ext. intros i. rewrite nth_error_map.
  destruct (nth_error (children e) i); simpl; [apply IH | reflexivity].
Qed.

Lemma map_update_nth_same {A B} (h : A -> B) (g : A -> A) :
  (forall x, h (g x) = h x) ->
  forall l i, map h (update_nth i g l) = map h l.
Proof.
  intros Hg. induction l as [|x l IH]; intros [|i]; simpl; try reflexivity.
  - rewrite Hg. reflexivity.
  - rewrite IH. reflexivity.
Qed.

Lemma skeleton_modify_at (f : Element -> Element) :
  (forall x, skeleton (f x) = skeleton x) ->
  forall p e, skeleton (modify_at p f e) = skeleton e.
Proof.
  intros Hf. induction p as [|i p IH]; intros e; simpl; [apply Hf|].
  destruct e as [t a x c]. simpl. f_equal. apply map_update_nth_same. exact IH.
Qed.

Lemma findall_from_modify_at (f : Element -> Element) steps r p e :
  (forall x, skeleton (f x) = skeleton x) ->
  findall_from steps r (modify_at p f e) = findall_from steps r e.
Proof.
  intros Hf. rewrite <- findall_from_skeleton, (skeleton_modify_at f Hf).
  apply findall_from_skeleton.
Qed.

Lemma skeleton_set_attrib a e : skeleton (set_attrib a e) = skeleton e.
Proof. destruct e; reflexivity. Qed.

Lemma findall_from_prefix : forall steps r e x,
  In x (findall_from steps r e) -> exists p, x = r ++ p /\ length p = length steps.
Proof.
  induction steps as [|t steps IH]; intros r e x H; simpl in H.
  - destruct H as [<-|[]]. exists []. rewrite app_nil_r. split; reflexivity.
  - apply in_flat_map in H as [i [_ Hx]].
    destruct (nth_error (children e) i) as [c|]; [|destruct Hx].
    destruct (IH _ _ _ Hx) as [p [-> Hp]].
    exists (i :: p). rewrite <- app_assoc. simpl. split; [reflexivity | lia].
Qed.

Lemma tagged_from_NoDup t l : forall i0, NoDup (tagged_from i0 t l).
Proof.
  induction l as [|c l IH]; intros i0; simpl; [constructor|].
  destruct (String.eqb (tag c) t); [|apply IH].
  constructor; [|apply IH].
  intros Hin. destruct (nth_error_tagged_from t l (S i0) i0 Hin) as [_ [_ Hle]]. lia.
Qed.

Lemma NoDup_flat_map {A B} (f : A -> list B) l :
  NoDup l -> (forall a, In a l -> NoDup (f a)) ->
  (forall a b x, In a l -> In b l -> In x (f a) -> In x (f b) -> a = b) ->
  NoDup (flat_map f l).
Proof.
  induction 1 as [|a l Ha Hl IH]; intros Hf Hdis; simpl; [constructor|].
  apply NoDup_app.
  - apply Hf. left. reflexivity.
  - apply IH.
    + intros b Hb. apply Hf. right. exact Hb.
    + intros b c x Hb Hc. apply Hdis; right; assumption.
  - intros x Hx Hin. apply in_flat_map in Hin as [b [Hb Hxb]].
    assert (a = b) by (apply (Hdis a b x); [left; reflexivity | right; exact Hb | exact Hx | exact Hxb]).
    subst b. exact (Ha Hb).
Qed.

Lemma findall_from_NoDup : forall steps r e, NoDup (findall_from steps r e).
Proof.
  induction steps as [|t steps IH]; intros r e; simpl.
  - constructor; [intros [] | constructor].
  - apply NoDup_flat_map.
    + apply tagged_from_NoDup.
    + intros i _. destruct (nth_error (children e) i); [apply IH | constructor].
    + intros i j x _ _ Hi Hj.
      destruct (nth_error (children e) i) as [ci|]; [|destruct Hi].
      destruct (nth_error (children e) j) as [cj|]; [|destruct Hj].
      destruct (findall_from_prefix _ _ _ _ Hi) as [p [-> _]].
      destruct (findall_from_prefix _ _ _ _ Hj) as [q [E _]].
      rewrite <- !app_assoc in E. apply app_inv_head in E. simpl in E.
      injection E as E _. exact E.
Qed.

Lemma node_at_modify_other (f : Element -> Element) : forall p q e,
  length p = length q -> p <> q ->
  node_at q (modify_at p f e) = node_at q e.
Proof.
  induction p as [|i p IH]; intros [|j q] e Hlen Hne; simpl in *; try discriminate.
  - contradiction.
  - rewrite nth_error_update_nth.
    destruct (Nat.eqb_spec j i) as [->|Hji]; [|reflexivity].
    destruct (nth_error (children e) i) as [c|]; simpl; [|reflexivity].
    apply IH; [lia | congruence].
Qed.

Lemma Forall2_impl_In {A B} (R R' : A -> B -> Prop) l1 l2 :
  (forall a b, In a l1 -> R a b -> R' a b) ->
  Forall2 R l1 l2 -> Forall2 R' l1 l2.
Proof.
  intros H F. induction F as [|a b l1 l2 Hab F IH]; constructor.
  - apply H; [left; reflexivity | exact Hab].
  - apply IH. intros a' b' Hin. apply H. right. exact Hin.
Qed.

Lemma Forall2_functional {A B} (R : A -> B -> Prop) :
  (forall a b b', R a b -> R a b' -> b = b') ->
  forall l l1 l2, Forall2 R l l1 -> Forall2 R l l2 -> l1 = l2.
Proof.
  intros HR l l1 l2 F1. revert l2.
  induction F1 as [|a b l l1 Hab F1 IH]; intros l2 F2; inversion F2; subst;
    [reflexivity|].
  f_equal; [eapply HR; eassumption | apply IH; assumption].
Qed.

(** Editing one of the elements that a path selects, in place, edits that
    element in the list of selected elements and no other. *)
Lemma Forall2_modify_at (f : Element -> Element) doc n :
  forall refs nodes,
    Forall2 (fun r x => node_at r doc = Some x) refs nodes ->
    NoDup refs -> (forall q, In q refs -> length q = n) ->
    forall k r, nth_error refs k = Some r ->
    Forall2 (fun q x => node_at q (modify_at r f doc) = Some x)
            refs (update_nth k f nodes).
Proof.
  induction 1 as [|q x refs nodes Hqx F IH]; intros Hnd Hlen [|k] r Hk;
    simpl in Hk; try discriminate.
  - injection Hk as ->. simpl. inversion Hnd as [|? ? Hnotin Hnd']; subst.
    constructor; [apply node_at_modify_at; exact Hqx|].
    eapply Forall2_impl_In; [|exact F].
    intros q' x' Hin Hq'. rewrite node_at_modify_other; [exact Hq'| |].
    + rewrite (Hlen r), (Hlen q'); [reflexivity | right; exact Hin | left; reflexivity].
    + intros ->. exact (Hnotin Hin).
  - simpl. inversion Hnd as [|? ? Hnotin Hnd']; subst.
    constructor.
    + rewrite node_at_modify_other; [exact Hqx| |].
      * rewrite (Hlen r), (Hlen q); [reflexivity | left; reflexivity |].
        right. eapply nth_error_In. exact Hk.
      * intros ->. apply Hnotin. eapply nth_error_In. exact Hk.
    + apply IH; [exact Hnd' | | exact Hk]. intros q' Hq'. apply Hlen. right. exact Hq'.
Qed.

(** ** Reading and writing feature names *)

Lemma get_feature_name_nth doc (i : Z) x :
  (0 <= i)%Z ->
  nth_error (feature_nodes doc) (Z.to_nat i) = Some x ->
  get_feature_name i doc = (Ok (dict_get "name" (attrib x)), doc).
Proof.
  intros Hi Hx.
  pose proof (feature_refs_count doc) as Hc.
  assert (Hlt : (i < feature_count doc)%Z).
  { unfold feature_count. apply (f_equal (fun o => match o with Some _ => true | None => false end)) in Hx.
    destruct (nth_error (feature_nodes doc) (Z.to_nat i)) eqn:E; [|discriminate].
    assert (Z.to_nat i < length (feature_nodes doc)) by (apply nth_error_Some; congruence).
    lia. }
  destruct (py_index_in_range (feature_refs doc) i) as [r [Hr Hidx]]; [lia|].
  destruct (Forall2_nth_error _ _ _ _ _ (feature_refs_nodes doc) Hr) as [e [He Hre]].
  assert (e = x) by congruence. subst e.
  assert (G : (i >=? Z.of_nat (length (feature_refs doc)))%Z = false)
    by (destruct (Z.geb_spec i (Z.of_nat (length (feature_refs doc)))); [lia | reflexivity]).
  unfold get_feature_name.
  rewrite (bind_ok _ _ _ _ _ (get_feature_list_eq doc)), G.
  rewrite (bind_ok _ _ _ _ _ (get_feature_list_eq doc)).
  unfold lift_result. rewrite Hidx. unfold bind at 1. cbv beta iota.
  apply get_run. exact Hre.
Qed.

(** X7: for an index within the list, [set_feature] succeeds and changes
    the [name] attribute of the feature node at that position and nothing
    else in the list of feature nodes; so [get_feature_name] at that index
    then returns the value set, and at every other index what it returned
    before. *)
Theorem set_feature_then_get (doc : Element) (i : Z) (v : string)
        (Hi : (0 <= i < feature_count doc)%Z) :
  exists doc',
    set_feature i v doc = (Ok tt, doc')
    /\ feature_nodes doc' = update_nth (Z.to_nat i) (set_name_attr v) (feature_nodes doc)
    /\ get_feature_name i doc' = (Ok (Some v), doc')
    /\ forall j, (0 <= j < feature_count doc)%Z -> j <> i ->
                 fst (get_feature_name j doc') = fst (get_feature_name j doc).
Proof.
  pose proof (feature_refs_count doc) as Hc.
  destruct (py_index_in_range (feature_refs doc) i) as [r [Hr Hidx]]; [lia|].
  destruct (Forall2_nth_error _ _ _ _ _ (feature_refs_nodes doc) Hr) as [e [He Hre]].
  assert (G : (i >=? Z.of_nat (length (feature_refs doc)))%Z = false)
    by (destruct (Z.geb_spec i (Z.of_nat (length (feature_refs doc)))); [lia | reflexivity]).
  set (doc' := modify_at r (set_name_attr v) doc).
  assert (Hrefs : feature_refs doc' = feature_refs doc).
  { unfold feature_refs, doc'. apply findall_from_modify_at.
    intros x. apply skeleton_set_attrib. }
  assert (Hnodes : feature_nodes doc'
                   = update_nth (Z.to_nat i) (set_name_attr v) (feature_nodes doc)).
  { apply (Forall2_functional (fun q x => node_at q doc' = Some x)) with (l := feature_refs doc).
    - intros q a b Ha Hb. congruence.
    - rewrite <- Hrefs. apply feature_refs_nodes.
    - apply (Forall2_modify_at (set_name_attr v) doc 2).
      + apply feature_refs_nodes.
      + apply findall_from_NoDup.
      + intros q Hq. destruct (findall_from_prefix _ _ _ _ Hq) as [p [-> Hp]]. exact Hp.
      + exact Hr. }
  assert (Hnth : forall j, nth_error (feature_nodes doc') j =
                           if Nat.eqb j (Z.to_nat i)
                           then option_map (set_name_attr v) (nth_error (feature_nodes doc) j)
                           else nth_error (feature_nodes doc) j).
  { intros j. rewrite Hnodes. apply nth_error_update_nth. }
  exists doc'. split; [|split; [exact Hnodes|split]].
  - unfold set_feature.
    rewrite (bind_ok _ _ _ _ _ (get_feature_list_eq doc)), G.
    rewrite (bind_ok _ _ _ _ _ (get_feature_list_eq doc)).
    unfold lift_result. rewrite Hidx. unfold bind at 1. cbv beta iota.
    apply (set_run r "name" v doc e Hre).
  - rewrite (get_feature_name_nth doc' i (set_name_attr v e)); [|lia|].
    + unfold set_name_attr. simpl attrib.
      destruct e as [t a x c]. simpl. rewrite dict_get_set. reflexivity.
    + rewrite Hnth, Nat.eqb_refl, He. reflexivity.
  - intros j Hj Hne.
    destruct (nth_error (feature_nodes doc) (Z.to_nat j)) as [x|] eqn:Hx.
    2:{ apply nth_error_None in Hx. unfold feature_count in Hj. lia. }
    rewrite (get_feature_name_nth doc j x); [|lia|exact Hx].
    rewrite (get_feature_name_nth doc' j x); [reflexivity|lia|].
    rewrite Hnth, Hx.
    destruct (Nat.eqb_spec (Z.to_nat j) (Z.to_nat i)); [lia | reflexivity].
Qed.

Lemma set_feature_then_get_witness :
  (0 <= 1 < feature_count domain_cpu)%Z
  /\ get_feature_name 1 (snd (set_feature 1 "sse" domain_cpu)) =
       (Ok (Some "sse"), snd (set_feature 1 "sse" domain_cpu))
  /\ fst (get_feature_name 2 (snd (set_feature 1 "sse" domain_cpu))) = Ok (Some "avx").
Proof.
  split; [vm_compute; split; [discriminate | reflexivity]|].
  destruct (set_feature_then_get domain_cpu 1 "sse") as [doc' [Hs [_ [Hg Hf]]]].
  - vm_compute. split; [discriminate | reflexivity].
  - rewrite Hs. cbn [snd]. split; [exact Hg|].
    rewrite (Hf 2%Z); [reflexivity | vm_compute; split; [discriminate | reflexivity] | discriminate].
Defined.

(** ** Adding and removing features *)

Lemma filter_none_tagged_from t l : forall i0,
  filter (has_tag t) l = [] -> tagged_from i0 t l = [].
Proof.
  induction l as [|c l IH]; intros i0 H; simpl in *; [reflexivity|].
  unfold has_tag in H at 1. destruct (String.eqb (tag c) t); [discriminate|].
  apply IH. exact H.
Qed.

Lemma flat_map_map_In {A B} (f : A -> list B) (g : A -> B) l :
  (forall x, In x l -> f x = [g x]) -> flat_map f l = map g l.
Proof.
  induction l as [|x l IH]; intros H; simpl; [reflexivity|].
  rewrite (H x (or_introl eq_refl)), IH; [reflexivity|].
  intros y Hy. apply H. right. exact Hy.
Qed.

Lemma findall_from_one t r e :
  findall_from [t] r e = map (fun k => r ++ [k]) (tagged t e).
Proof.
  simpl. apply flat_map_map_In. intros k Hk.
  destruct (nth_error_tagged_from t (children e) 0 k Hk) as [c [Hc _]].
  rewrite Nat.sub_0_r in Hc. rewrite Hc. reflexivity.
Qed.

Lemma has_tag_set_children t l e : has_tag t (set_children l e) = has_tag t e.
Proof. reflexivity. Qed.

Lemma findall_from_cons t steps r e :
  findall_from (t :: steps) r e =
    flat_map (fun i => match nth_error (children e) i with
                       | Some c => findall_from steps (r ++ [i]) c
                       | None => []
                       end)
             (tagged t e).
Proof. reflexivity. Qed.

(** The first [cpu] child splits the children of the root, the feature
    references and the feature nodes. *)
Lemma first_cpu_split doc i :
  hd_error (tagged "cpu" doc) = Some i ->
  exists pre c post,
    children doc = pre ++ c :: post /\ i = length pre
    /\ has_tag "cpu" c = true /\ filter (has_tag "cpu") pre = []
    /\ first_child "cpu" doc = Some c
    /\ feature_nodes doc =
         filter (has_tag "feature") (children c)
         ++ flat_map (fun cpu => filter (has_tag "feature") (children cpu))
                     (filter (has_tag "cpu") post)
    /\ exists others,
         feature_refs doc = map (fun b => [i; b]) (tagged "feature" c) ++ others
         /\ forall r, In r others -> exists a b, r = [a; b] /\ a <> i.
Proof.
  intros Hi.
  destruct (tagged_first "cpu" doc i Hi) as [pre [c [post [Hch [-> [Hc Hpre]]]]]].
  exists pre, c, post. repeat split; try assumption.
  - unfold first_child. rewrite Hch, filter_app, Hpre. simpl. rewrite Hc. reflexivity.
  - unfold feature_nodes. rewrite Hch, filter_app, Hpre. simpl. rewrite Hc. reflexivity.
  - assert (Ht : tagged "cpu" doc
                 = length pre :: tagged_from (S (length pre)) "cpu" post).
    { unfold tagged.
      rewrite Hch, tagged_from_app, (filter_none_tagged_from "cpu" pre 0 Hpre).
      cbn [app tagged_from Nat.add]. unfold has_tag in Hc. rewrite Hc. reflexivity. }
    unfold feature_refs. rewrite findall_from_cons, Ht.
    cbn [flat_map]. rewrite Hch, nth_error_middle. rewrite <- Hch.
    eexists. split.
    + f_equal. apply (findall_from_one "feature" [length pre] c).
    + intros r Hr. apply in_flat_map in Hr as [a [Ha Hr]].
      destruct (nth_error (children doc) a) as [ca|]; [|destruct Hr].
      destruct (findall_from_prefix _ _ _ _ Hr) as [p [-> Hp]].
      destruct p as [|b [|? ?]]; try discriminate.
      exists a, b. split; [reflexivity|].
      destruct (nth_error_tagged_from "cpu" post (S (length pre)) a Ha) as [_ [_ Hle]]. lia.
Qed.

Lemma add_feature_run value doc :
  add_feature value doc =
    match hd_error (tagged "cpu" doc) with
    | Some i =>
        (Ok tt,
         modify_at [i] (fun e => set_children (children e ++ [new_feature value]) e) doc)
    | None => (Raise AttributeError, doc)
    end.
Proof.
  unfold add_feature.
  erewrite bind_ok; [|rewrite tree_find_run; reflexivity].
  change (path_steps "/cpu") with ["cpu"]. rewrite hd_findall_child.
  destruct (hd_error (tagged "cpu" doc)) as [i|] eqn:Hi; [|reflexivity].
  destruct (tagged_first "cpu" doc i Hi) as [pre [c [post [Hch [-> _]]]]].
  simpl option_map. unfold SubElement, bind, deref. simpl node_at.
  rewrite Hch, nth_error_middle. reflexivity.
Qed.

(** X8: on a document with no [cpu] element, [add_feature] raises
    [AttributeError] and leaves the document as it was.  Otherwise it
    succeeds and the new feature node comes right after the features of
    the first [cpu] element, every other feature node keeping its place in
    order: the count grows by one and [get_feature_name] at the position of
    the new node returns the name given. *)
Theorem add_feature_inserts (value : string) (doc : Element) :
  match first_child "cpu" doc with
  | None => add_feature value doc = (Raise AttributeError, doc)
  | Some cpu =>
      let k := length (filter (has_tag "feature") (children cpu)) in
      exists doc',
        add_feature value doc = (Ok tt, doc')
        /\ feature_nodes doc' =
             firstn k (feature_nodes doc) ++ new_feature value :: skipn k (feature_nodes doc)
        /\ feature_count doc' = (feature_count doc + 1)%Z
        /\ get_feature_name (Z.of_nat k) doc' = (Ok (Some value), doc')
  end.
Proof.
  rewrite add_feature_run.
  destruct (hd_error (tagged "cpu" doc)) as [i|] eqn:Hi.
  - destruct (first_cpu_split doc i Hi)
      as [pre [c [post [Hch [-> [Hc [Hpre [Hfirst [Hnodes _]]]]]]]]].
    rewrite Hfirst. cbv zeta.
    set (F := fun cpu => filter (has_tag "feature") (children cpu)) in *.
    set (doc' := modify_at [length pre]
                   (fun e => set_children (children e ++ [new_feature value]) e) doc).
    assert (Hnodes' : feature_nodes doc'
                      = F c ++ new_feature value :: flat_map F (filter (has_tag "cpu") post)).
    { unfold feature_nodes, doc'. simpl modify_at. simpl children.
      rewrite Hch, update_nth_middle, filter_app, Hpre. simpl.
      rewrite has_tag_set_children, Hc. simpl.
      rewrite filter_app. simpl. rewrite <- app_assoc. reflexivity. }
    assert (Hins : feature_nodes doc' =
                   firstn (length (F c)) (feature_nodes doc)
                   ++ new_feature value :: skipn (length (F c)) (feature_nodes doc)).
    { rewrite Hnodes', Hnodes. fold F.
      rewrite firstn_app, Nat.sub_diag, firstn_all, firstn_O, app_nil_r.
      rewrite skipn_app, Nat.sub_diag, skipn_all, skipn_O. reflexivity. }
    exists doc'. split; [reflexivity|]. split; [exact Hins|]. split.
    + unfold feature_count. rewrite Hnodes', Hnodes. fold F.
      rewrite !length_app. cbn [length]. unfold F. lia.
    + rewrite (get_feature_name_nth doc' _ (new_feature value)); [reflexivity | lia |].
      rewrite Nat2Z.id, Hnodes'. apply (nth_error_middle (F c)).
  - pose proof (tagged_none "cpu" doc Hi) as Hnone.
    unfold first_child. rewrite Hnone. reflexivity.
Qed.

Lemma filter_remove_nth t l : forall i0 i b,
  nth_error (tagged_from i0 t l) i = Some b ->
  filter (has_tag t) (remove_nth (b - i0) l) = remove_nth i (filter (has_tag t) l).
Proof.
  induction l as [|c l IH]; intros i0 i b H; simpl in H.
  - destruct i; discriminate.
  - unfold has_tag at 2. simpl filter.
    destruct (String.eqb (tag c) t) eqn:E.
    + destruct i as [|i]; simpl in H.
      * injection H as <-. rewrite Nat.sub_diag. reflexivity.
      * assert (Hb : S i0 <= b).
        { destruct (nth_error_tagged_from t l (S i0) b (nth_error_In _ _ H)) as [_ [_ Hle]].
          exact Hle. }
        replace (b - i0) with (S (b - S i0)) by lia. simpl.
        unfold has_tag at 1. rewrite E. f_equal. apply IH. exact H.
    + assert (Hb : S i0 <= b).
      { destruct (nth_error_tagged_from t l (S i0) b (nth_error_In _ _ H)) as [_ [_ Hle]].
        exact Hle. }
      replace (b - i0) with (S (b - S i0)) by lia. simpl.
      unfold has_tag at 1. rewrite E. apply IH. exact H.
Qed.

Lemma remove_nth_app_l {A} (l1 l2 : list A) : forall i,
  i < length l1 -> remove_nth i (l1 ++ l2) = remove_nth i l1 ++ l2.
Proof.
  induction l1 as [|x l1 IH]; intros [|i] H; simpl in *; try lia; [reflexivity|].
  rewrite IH; [reflexivity | lia].
Qed.

(** X9: [remove_feature] looks for the node among the children of the
    first [cpu] element only.  For an index within the list: when the
    feature belongs to the first [cpu] element, it is removed and the other
    feature nodes stay, in order; when it belongs to a later [cpu] element,
    [ValueError] is raised and the document is as it was. *)
Theorem remove_feature_first_cpu (doc cpu : Element) (i : Z)
        (Hcpu : first_child "cpu" doc = Some cpu)
        (Hi : (0 <= i < feature_count doc)%Z) :
  if (i <? Z.of_nat (length (filter (has_tag "feature") (children cpu))))%Z
  then exists doc',
         remove_feature i doc = (Ok tt, doc')
         /\ feature_nodes doc' = remove_nth (Z.to_nat i) (feature_nodes doc)
  else remove_feature i doc = (Raise ValueError, doc).
Proof.
  destruct (hd_error (tagged "cpu" doc)) as [a0|] eqn:Ha0.
  2:{ pose proof (tagged_none "cpu" doc Ha0) as Hnone.
      unfold first_child in Hcpu. rewrite Hnone in Hcpu. discriminate. }
  destruct (first_cpu_split doc a0 Ha0)
    as [pre [c [post [Hch [-> [Hc [Hpre [Hfirst [Hnodes [others [Hrefs Hothers]]]]]]]]]]].
  assert (c = cpu) by congruence. subst c.
  pose proof (feature_refs_count doc) as Hcount.
  destruct (py_index_in_range (feature_refs doc) i) as [r [Hr Hidx]]; [lia|].
  destruct (Forall2_nth_error _ _ _ _ _ (feature_refs_nodes doc) Hr) as [e [He Hre]].
  assert (G : (i >=? Z.of_nat (length (feature_refs doc)))%Z = false)
    by (destruct (Z.geb_spec i (Z.of_nat (length (feature_refs doc)))); [lia | reflexivity]).
  assert (Ncpu : node_at [length pre] doc = Some cpu).
  { simpl. rewrite Hch, nth_error_middle. reflexivity. }
  assert (Hlen : length (tagged "feature" cpu) = length (filter (has_tag "feature") (children cpu))).
  { eapply Forall2_length, tagged_filter. }
  assert (Hrun : remove_feature i doc = remove (Some [length pre]) (Some r) doc).
  { unfold remove_feature.
    rewrite (bind_ok _ _ _ _ _ (get_feature_list_eq doc)), G.
    rewrite (bind_ok _ _ _ _ _ (get_feature_list_eq doc)).
    unfold lift_result. rewrite Hidx. unfold bind at 1. cbv beta iota.
    erewrite bind_ok; [|rewrite tree_find_run; reflexivity].
    change (path_steps "/cpu") with ["cpu"]. rewrite hd_findall_child, Ha0.
    reflexivity. }
  rewrite Hrun. unfold remove, bind, deref. rewrite Ncpu, Hre. cbv beta iota.
  destruct (Z.ltb_spec i (Z.of_nat (length (filter (has_tag "feature") (children cpu))))) as [Hlt|Hge].
  - rewrite Hrefs, nth_error_app1 in Hr by (rewrite length_map; lia).
    rewrite nth_error_map in Hr.
    destruct (nth_error (tagged "feature" cpu) (Z.to_nat i)) as [b|] eqn:Hb; [|discriminate].
    simpl in Hr. injection Hr as <-.
    cbn [split_last ref_eqb]. rewrite Nat.eqb_refl. cbn [andb].
    eexists. split; [reflexivity|].
    unfold feature_nodes at 1. simpl modify_at. simpl children.
    rewrite Hch, update_nth_middle, filter_app, Hpre. simpl.
    rewrite has_tag_set_children, Hc. simpl.
    rewrite Hnodes.
    rewrite remove_nth_app_l by lia. f_equal.
    pose proof (filter_remove_nth "feature" (children cpu) 0 (Z.to_nat i) b Hb) as Hf.
    rewrite Nat.sub_0_r in Hf. exact Hf.
  - rewrite Hrefs, nth_error_app2 in Hr by (rewrite length_map; lia).
    destruct (Hothers r (nth_error_In _ _ Hr)) as [a [b [-> Hne]]].
    cbn [split_last ref_eqb].
    destruct (Nat.eqb_spec a (length pre)); [contradiction|]. reflexivity.
Qed.

(** A document with a second [cpu] element. *)
Lemma remove_feature_first_cpu_witness :
  let doc := elem "domain" []
                  [elem "cpu" [] [elem "feature" [("name", "vmx")] []];
                   elem "cpu" [] [elem "feature" [("name", "aes")] []]] in
  first_child "cpu" doc = Some (elem "cpu" [] [elem "feature" [("name", "vmx")] []])
  /\ (0 <= 1 < feature_count doc)%Z
  /\ remove_feature 1 doc = (Raise ValueError, doc).
Proof.
  cbv zeta. split; [reflexivity|]. split; [vm_compute; split; [discriminate | reflexivity]|].
  apply (remove_feature_first_cpu
           (elem "domain" []
                 [elem "cpu" [] [elem "feature" [("name", "vmx")] []];
                  elem "cpu" [] [elem "feature" [("name", "aes")] []]])
           (elem "cpu" [] [elem "feature" [("name", "vmx")] []]) 1).
  - reflexivity.
  - vm_compute. split; [discriminate | reflexivity].
Defined.

(** ** get_numa_params *)

Lemma first_child_tagged t e :
  first_child t e = match hd_error (tagged t e) with
                    | Some i => nth_error (children e) i
                    | None => None
                    end.
Proof.
  unfold first_child.
  destruct (hd_error (tagged t e)) as [i|] eqn:Hi.
  - destruct (tagged_first t e i Hi) as [pre [c [post [Hch [-> [Hc Hpre]]]]]].
    rewrite Hch, filter_app, Hpre, nth_error_middle. simpl. rewrite Hc. reflexivity.
  - rewrite (tagged_none t e Hi). reflexivity.
Qed.

Lemma hd_tagged_valid t e i :
  hd_error (tagged t e) = Some i -> exists c, nth_error (children e) i = Some c.
Proof.
  intros Hi. destruct (tagged_first t e i Hi) as [pre [c [post [Hch [-> _]]]]].
  exists c. rewrite Hch. apply nth_error_middle.
Qed.

Lemma on_fst_run {S T A} (m : M S A) (s : S) (t : T) r s' :
  m s = (r, s') -> on_fst m (s, t) = (r, (s', t)).
Proof. intros E. unfold on_fst. cbn [fst snd]. rewrite E. reflexivity. Qed.

Lemma numa_params_body_run doc :
  numa_params_body (doc, []) = (Ok tt, (doc, numa_params_of doc)).
Proof.
  unfold numa_params_of, numa_memory. rewrite (first_child_tagged "numatune" doc).
  unfold numa_params_body.
  apply try_ok.
  erewrite bind_ok.
  2:{ apply on_fst_run. apply tree_find_run. }
  change (path_steps "numatune") with ["numatune"]. rewrite hd_findall_child.
  destruct (hd_error (tagged "numatune" doc)) as [i|] eqn:Hi.
  2:{ simpl option_map. erewrite try_raise; reflexivity. }
  destruct (hd_tagged_valid _ _ _ Hi) as [numa Hnuma]. rewrite Hnuma.
  assert (N : node_at [i] doc = Some numa) by (simpl; rewrite Hnuma; reflexivity).
  simpl option_map. cbn [app].
  rewrite (first_child_tagged "memory" numa).
  destruct (hd_error (tagged "memory" numa)) as [j|] eqn:Hj.
  2:{ erewrite try_raise.
      2:{ erewrite bind_ok.
          2:{ apply on_fst_run. apply (find_child [i] "memory" doc numa eq_refl N). }
          rewrite Hj. reflexivity. }
      reflexivity. }
  destruct (hd_tagged_valid _ _ _ Hj) as [memory Hmem]. rewrite Hmem.
  assert (Nm : node_at [i; j] doc = Some memory)
    by (apply (node_at_snoc [i] j doc numa memory N Hmem)).
  apply try_ok.
  erewrite bind_ok.
  2:{ apply on_fst_run. apply (find_child [i] "memory" doc numa eq_refl N). }
  rewrite Hj. simpl option_map. cbn [app].
  erewrite bind_ok.
  2:{ apply on_fst_run. apply (get_run [i; j] "mode" doc memory Nm). }
  erewrite bind_ok; [|reflexivity].
  erewrite bind_ok; [|reflexivity].
  cbn [fst snd pydict_set].
  erewrite bind_ok.
  2:{ apply on_fst_run. apply (find_child [i] "memory" doc numa eq_refl N). }
  rewrite Hj. simpl option_map. cbn [app].
  erewrite bind_ok.
  2:{ apply on_fst_run. apply (get_run [i; j] "nodeset" doc memory Nm). }
  erewrite bind_ok; [|reflexivity].
  reflexivity.
Qed.

Section Numa.

Context {W : Type} (virsh : virsh_binding W).

(** X10: [get_numa_params] raises nothing but the failure of the dump
    itself.  After a successful dump it returns a dictionary that is empty
    when the document has no [numatune] element or its first one has no
    [memory] child, and otherwise holds both keys, "mode" and "nodeset",
    with the attributes of that [memory] element ([None] for one that is
    absent).  The dump is the only call made to the tool. *)
Theorem get_numa_params_never_raises (vm_name : string) (h0 : host W) r w1
        (Hdump : virsh_dumpxml virsh vm_name (world h0) = (r, w1)) :
  get_numa_params virsh vm_name h0 =
    (match r with
     | CmdOk doc => Ok (numa_params_of doc)
     | CmdFail detail => Raise (CmdError detail)
     end,
     mkHost w1 (calls h0 ++ [CallDumpxml vm_name]) (vm h0)).
Proof.
  unfold get_numa_params. destruct r as [doc|detail].
  - rewrite (bind_ok _ _ _ _ _ (new_from_dumpxml_run virsh _ h0 _ _ Hdump)).
    rewrite numa_params_body_run. reflexivity.
  - rewrite (bind_raise _ _ _ _ _ (new_from_dumpxml_run virsh _ h0 _ _ Hdump)).
    reflexivity.
Qed.

End Numa.

Lemma get_numa_params_never_raises_witness :
  get_numa_params Libvirt.virsh "vm1" (host0 domain_numa []) =
    (Ok [("mode", Some "strict"); ("nodeset", None)],
     mkHost (Libvirt.mk [("vm1", domain_numa)] [])
            [CallDumpxml "vm1"] (mkVM "vm1" (Some "0e5b-01") false))
  /\ fst (get_numa_params Libvirt.virsh "vm1" (host0 domain_no_serial [])) = Ok [].
Proof.
  split.
  - apply (get_numa_params_never_raises
             Libvirt.virsh "vm1" (host0 domain_numa []) (CmdOk domain_numa)
             (Libvirt.mk [("vm1", domain_numa)] [])).
    reflexivity.
  - rewrite (get_numa_params_never_raises
               Libvirt.virsh "vm1" (host0 domain_no_serial []) (CmdOk domain_no_serial)
               (Libvirt.mk [("vm1", domain_no_serial)] []) eq_refl).
    reflexivity.
Defined.

(** ** The disks of a domain *)

Lemma dev_eqb_eq a b : dev_eqb a b = true <-> a = b.
Proof.
  destruct a as [x|], b as [y|]; simpl; split; intros H; try discriminate; try reflexivity.
  - apply String.eqb_eq in H. congruence.
  - injection H as ->. apply String.eqb_refl.
Qed.

Lemma pydict_set_keys_In {V} k k' (v : V) d :
  In k (map fst (pydict_set dev_eqb k' v d)) <-> k = k' \/ In k (map fst d).
Proof.
  induction d as [|[k0 v0] d IH]; simpl.
  - intuition congruence.
  - destruct (dev_eqb k' k0) eqn:E; simpl.
    + apply dev_eqb_eq in E. subst k0. intuition congruence.
    + rewrite IH. intuition congruence.
Qed.

Lemma pydict_set_keys_NoDup {V} k' (v : V) d :
  NoDup (map fst d) -> NoDup (map fst (pydict_set dev_eqb k' v d)).
Proof.
  induction d as [|[k0 v0] d IH]; simpl; intros H.
  - constructor; [intros [] | constructor].
  - inversion H as [|? ? Hnotin Hnd]; subst.
    destruct (dev_eqb k' k0) eqn:E; simpl.
    + apply dev_eqb_eq in E. subst k0. constructor; assumption.
    + constructor; [|apply IH; exact Hnd].
      rewrite pydict_set_keys_In. intros [->|Hin]; [|exact (Hnotin Hin)].
      assert (dev_eqb k' k' = true) by (apply dev_eqb_eq; reflexivity). congruence.
Qed.

Lemma NoDup_map_Some {A} (l : list A) : NoDup l -> NoDup (map Some l).
Proof.
  induction 1 as [|x l Hx Hl IH]; simpl; constructor; [|exact IH].
  intros Hin. apply in_map_iff in Hin as [y [E Hy]]. injection E as ->. exact (Hx Hy).
Qed.

Lemma disk_dev_target disk :
  first_child "target" disk <> None ->
  exists j target,
    hd_error (tagged "target" disk) = Some j
    /\ nth_error (children disk) j = Some target
    /\ disk_dev disk = Some (dict_get "dev" (attrib target)).
Proof.
  unfold disk_dev. rewrite first_child_tagged. intros H.
  destruct (hd_error (tagged "target" disk)) as [j|]; [|contradiction].
  destruct (nth_error (children disk) j) as [target|] eqn:E; [|contradiction].
  exists j, target. repeat split. exact E.
Qed.

Lemma get_disk_all_loop_run doc : forall nodes elems,
  Forall2 (fun r x => node_at r doc = Some x) nodes elems ->
  (forall disk, In disk elems -> first_child "target" disk <> None) ->
  forall disks0,
  exists disks,
    get_disk_all_loop nodes disks0 doc = (Ok disks, doc)
    /\ (NoDup (map fst disks0) -> NoDup (map fst disks))
    /\ forall k, In k (map fst disks) <->
                 In k (map fst disks0) \/ In (Some k) (map disk_dev elems).
Proof.
  induction 1 as [|r e nodes elems Hre F IH]; intros Htar disks0.
  - exists disks0. split; [reflexivity|]. split; [tauto|]. simpl. tauto.
  - destruct (disk_dev_target e (Htar e (or_introl eq_refl)))
      as [j [target [Hj [Hnth Hdev]]]].
    destruct (IH (fun d Hd => Htar d (or_intror Hd))
                 (pydict_set dev_eqb (dict_get "dev" (attrib target)) r disks0))
      as [disks [Hrun [Hnd Hkeys]]].
    exists disks. split; [|split].
    + cbn [get_disk_all_loop].
      erewrite bind_ok; [|apply (find_child r "target" doc e eq_refl Hre)].
      rewrite Hj. simpl option_map.
      erewrite bind_ok;
        [|apply (get_run (r ++ [j]) "dev" doc target (node_at_snoc r j doc e target Hre Hnth))].
      exact Hrun.
    + intros H0. apply Hnd. apply pydict_set_keys_NoDup. exact H0.
    + intros k. rewrite Hkeys, pydict_set_keys_In. simpl. rewrite Hdev.
      split.
      * intros [[->|H0]|H1]; [right; left; reflexivity | left; exact H0 | right; right; exact H1].
      * intros [H0|[E|H1]]; [left; right; exact H0 | left; left; congruence | right; exact H1].
Qed.

Lemma get_disk_all_loop_missing_target doc : forall nodes elems,
  Forall2 (fun r x => node_at r doc = Some x) nodes elems ->
  (exists disk, In disk elems /\ first_child "target" disk = None) ->
  forall disks0, get_disk_all_loop nodes disks0 doc = (Raise AttributeError, doc).
Proof.
  induction 1 as [|r e nodes elems Hre F IH]; intros [bad [Hin Hbad]] disks0.
  - destruct Hin.
  - cbn [get_disk_all_loop].
    erewrite bind_ok; [|apply (find_child r "target" doc e eq_refl Hre)].
    destruct (first_child "target" e) as [t|] eqn:Ht.
    + destruct (disk_dev_target e) as [j [target [Hj [Hnth _]]]]; [congruence|].
      rewrite Hj. simpl option_map.
      erewrite bind_ok;
        [|apply (get_run (r ++ [j]) "dev" doc target (node_at_snoc r j doc e target Hre Hnth))].
      apply IH. exists bad. split; [|exact Hbad].
      destruct Hin as [<-|Hin]; [congruence | exact Hin].
    + rewrite first_child_tagged in Ht.
      destruct (hd_error (tagged "target" e)) as [j|] eqn:Hj; [|reflexivity].
      destruct (hd_tagged_valid _ _ _ Hj) as [c Hc]. congruence.
Qed.

Lemma disk_nodes_run doc i devices :
  hd_error (tagged "devices" doc) = Some i ->
  nth_error (children doc) i = Some devices ->
  findall (Some [i]) "disk" doc = (Ok (findall_from ["disk"] [i] devices), doc)
  /\ Forall2 (fun r x => node_at r doc = Some x)
             (findall_from ["disk"] [i] devices)
             (filter (has_tag "disk") (children devices)).
Proof.
  intros Hi Hd.
  assert (N : node_at [i] doc = Some devices) by (simpl; rewrite Hd; reflexivity).
  split.
  - unfold findall, bind, deref, ret. rewrite N. reflexivity.
  - pose proof (findall_from_select doc ["disk"] [i] devices N) as F.
    simpl select_from in F. rewrite flat_map_singleton in F. exact F.
Qed.

Lemma get_disk_all_run doc :
  match first_child "devices" doc with
  | None => get_disk_all doc = (Raise AttributeError, doc)
  | Some _ =>
      (forall disk, In disk (domain_disks doc) -> first_child "target" disk <> None) ->
      exists disks,
        get_disk_all doc = (Ok disks, doc)
        /\ NoDup (map fst disks)
        /\ forall k, In k (map fst disks) <-> In (Some k) (map disk_dev (domain_disks doc))
  end.
Proof.
  unfold domain_disks. rewrite first_child_tagged. unfold get_disk_all.
  erewrite bind_ok; [|apply tree_find_run].
  change (path_steps "devices") with ["devices"]. rewrite hd_findall_child.
  destruct (hd_error (tagged "devices" doc)) as [i|] eqn:Hi; [|reflexivity].
  destruct (hd_tagged_valid _ _ _ Hi) as [devices Hd]. rewrite Hd.
  destruct (disk_nodes_run doc i devices Hi Hd) as [Hfind F].
  intros Htar. simpl option_map. cbn [app].
  destruct (get_disk_all_loop_run doc _ _ F Htar []) as [disks [Hrun [Hnd Hkeys]]].
  exists disks. split; [|split].
  - erewrite bind_ok; [|exact Hfind]. exact Hrun.
  - apply Hnd. constructor.
  - intros k. rewrite Hkeys. simpl. tauto.
Qed.

Section Disks.

Context {W : Type} (virsh : virsh_binding W).

(** X11: when the dumped document has a [devices] element and each of its
    disks has a [target], [get_disk_blk] returns the distinct [dev] values
    of the disks, each once, and [get_disk_count] returns how many there
    are: disks that share a [dev] are counted once, so the count is at most
    the number of disk elements.  Both make the dump their only call. *)
Theorem get_disk_count_distinct (vm_name : string) (h0 : host W) doc w1 devices
        (Hdump : virsh_dumpxml virsh vm_name (world h0) = (CmdOk doc, w1))
        (Hdev : first_child "devices" doc = Some devices)
        (Htar : forall disk, In disk (domain_disks doc) ->
                             first_child "target" disk <> None) :
  let h1 := mkHost w1 (calls h0 ++ [CallDumpxml vm_name]) (vm h0) in
  exists keys,
    get_disk_blk virsh vm_name h0 = (Ok keys, h1)
    /\ get_disk_count virsh vm_name h0 = (Ok (Z.of_nat (length keys)), h1)
    /\ NoDup keys
    /\ (forall k, In k keys <-> In (Some k) (map disk_dev (domain_disks doc)))
    /\ length keys <= length (domain_disks doc).
Proof.
  cbv zeta. pose proof (get_disk_all_run doc) as R. rewrite Hdev in R.
  destruct (R Htar) as [disks [Hrun [Hnd Hkeys]]].
  exists (map fst disks). split; [|split; [|split; [exact Hnd|split; [exact Hkeys|]]]].
  - unfold get_disk_blk.
    rewrite (bind_ok _ _ _ _ _ (new_from_dumpxml_run virsh _ h0 _ _ Hdump)).
    erewrite bind_ok; [|apply invoke_on_fst_ok; exact Hrun]. reflexivity.
  - unfold get_disk_count.
    rewrite (bind_ok _ _ _ _ _ (new_from_dumpxml_run virsh _ h0 _ _ Hdump)).
    erewrite bind_ok; [|apply invoke_on_fst_ok; exact Hrun].
    cbn [fst]. rewrite length_map. reflexivity.
  - rewrite <- (length_map Some (map fst disks)),
            <- (length_map disk_dev (domain_disks doc)).
    apply NoDup_incl_length.
    + apply NoDup_map_Some. exact Hnd.
    + intros x Hx. apply in_map_iff in Hx as [k [<- Hk]]. apply Hkeys. exact Hk.
Qed.

(** X12: when the dumped document has no [devices] element, or one of the
    disks of its first [devices] element has no [target] child,
    [get_disk_count] raises [AttributeError] with the dump as its only
    call; it never answers 0 for a domain without devices. *)
Theorem get_disk_count_missing_element (vm_name : string) (h0 : host W) doc w1
        (Hdump : virsh_dumpxml virsh vm_name (world h0) = (CmdOk doc, w1))
        (Hmiss : first_child "devices" doc = None
                 \/ exists disk, In disk (domain_disks doc)
                                 /\ first_child "target" disk = None) :
  get_disk_count virsh vm_name h0 =
    (Raise AttributeError, mkHost w1 (calls h0 ++ [CallDumpxml vm_name]) (vm h0)).
Proof.
  assert (E : get_disk_all doc = (Raise AttributeError, doc)).
  { pose proof (get_disk_all_run doc) as R.
    destruct (first_child "devices" doc) as [devices|] eqn:Hdev; [|exact R].
    destruct Hmiss as [Hnone|Hbad]; [discriminate|].
    unfold domain_disks in Hbad. rewrite Hdev in Hbad.
    rewrite first_child_tagged in Hdev.
    destruct (hd_error (tagged "devices" doc)) as [i|] eqn:Hi; [|discriminate].
    destruct (disk_nodes_run doc i devices Hi Hdev) as [Hfind F].
    unfold get_disk_all.
    erewrite bind_ok; [|apply tree_find_run].
    change (path_steps "devices") with ["devices"]. rewrite hd_findall_child, Hi.
    simpl option_map. cbn [app].
    erewrite bind_ok; [|exact Hfind].
    apply (get_disk_all_loop_missing_target doc _ _ F Hbad). }
  unfold get_disk_count.
  rewrite (bind_ok _ _ _ _ _ (new_from_dumpxml_run virsh _ h0 _ _ Hdump)).
  erewrite bind_raise; [reflexivity|].
  rewrite invoke_on_fst, E. reflexivity.
Qed.

End Disks.

Lemma get_disk_count_distinct_witness :
  fst (get_disk_count Libvirt.virsh "vm1" (host0 domain_disks_shared [])) = Ok 2%Z
  /\ length (domain_disks domain_disks_shared) = 3.
Proof.
  split; [|reflexivity].
  destruct (get_disk_count_distinct
              Libvirt.virsh "vm1" (host0 domain_disks_shared []) domain_disks_shared
              (Libvirt.mk [("vm1", domain_disks_shared)] [])
              (elem "devices" []
                 [elem "disk" [("device", "disk")] [elem "target" [("dev", "vda")] []];
                  elem "disk" [("device", "cdrom")] [elem "target" [("dev", "hdc")] []];
                  elem "disk" [("device", "disk")] [elem "target" [("dev", "vda")] []]])
              eq_refl eq_refl)
    as [keys [_ [Hc _]]].
  - intros disk Hd. simpl in Hd.
    destruct Hd as [<-|[<-|[<-|[]]]]; discriminate.
  - reflexivity.
Defined.

Lemma get_disk_count_missing_element_witness :
  get_disk_count Libvirt.virsh "vm1" (host0 domain_numa []) =
    (Raise AttributeError,
     mkHost (Libvirt.mk [("vm1", domain_numa)] []) [CallDumpxml "vm1"]
            (mkVM "vm1" (Some "0e5b-01") false)).
Proof.
  apply (get_disk_count_missing_element
           Libvirt.virsh "vm1" (host0 domain_numa []) domain_numa
           (Libvirt.mk [("vm1", domain_numa)] [])).
  - reflexivity.
  - left. reflexivity.
Defined.

(** ** set_primary_serial: the device list and the serial device *)

Lemma node_at_child e pre c post p :
  children e = pre ++ c :: post ->
  node_at (length pre :: p) e = node_at p c.
Proof. intros H. simpl. rewrite H, nth_error_middle. reflexivity. Qed.

Lemma modify_at_child f e pre c post p :
  children e = pre ++ c :: post ->
  modify_at (length pre :: p) f e = set_children (pre ++ modify_at p f c :: post) e.
Proof. intros H. simpl. rewrite H, update_nth_middle. reflexivity. Qed.

Lemma SubElement_run r t a doc p :
  node_at r doc = Some p ->
  SubElement (Some r) t a doc =
    (Ok (r ++ [length (children p)]),
     modify_at r (fun e => set_children (children e ++ [mkElement t a None []]) e) doc).
Proof. intros H. unfold SubElement, bind, deref. rewrite H. reflexivity. Qed.

Lemma first_child_split t e c :
  first_child t e = Some c ->
  exists pre post,
    children e = pre ++ c :: post /\ filter (has_tag t) pre = []
    /\ hd_error (tagged t e) = Some (length pre).
Proof.
  rewrite first_child_tagged.
  destruct (hd_error (tagged t e)) as [i|] eqn:Hi; [|discriminate].
  intros Hc.
  destruct (tagged_first t e i Hi) as [pre [c' [post [Hch [-> [_ Hpre]]]]]].
  rewrite Hch, nth_error_middle in Hc. injection Hc as ->.
  exists pre, post. repeat split; assumption.
Qed.

Lemma first_child_none t e :
  first_child t e = None -> hd_error (tagged t e) = None.
Proof.
  rewrite first_child_tagged.
  destruct (hd_error (tagged t e)) as [i|] eqn:Hi; [|reflexivity].
  destruct (hd_tagged_valid _ _ _ Hi) as [c Hc]. congruence.
Qed.

(** [get_primary_serial] fails with [AttributeError], leaving the document
    as it was, when the first [devices] element has no [serial] child or
    its first [serial] child has no [target]. *)
Lemma get_primary_serial_unusable doc devices :
  first_child "devices" doc = Some devices ->
  (first_child "serial" devices = None
   \/ exists serial, first_child "serial" devices = Some serial
                     /\ first_child "target" serial = None) ->
  get_primary_serial doc = (Raise AttributeError, doc).
Proof.
  intros Hdev Hser.
  destruct (first_child_split _ _ _ Hdev) as [pre [post [Hch [Hpre Hi]]]].
  assert (N : node_at [length pre] doc = Some devices)
    by (rewrite (node_at_child doc pre devices post [] Hch); reflexivity).
  unfold get_primary_serial.
  erewrite bind_ok; [|apply tree_find_run].
  change (path_steps "devices") with ["devices"]. rewrite hd_findall_child, Hi.
  simpl option_map.
  erewrite bind_ok; [|apply (find_child [length pre] "serial" doc devices eq_refl N)].
  destruct Hser as [Hnone|[serial [Hs Htar]]].
  - rewrite (first_child_none _ _ Hnone). reflexivity.
  - destruct (first_child_split _ _ _ Hs) as [spre [spost [Hsch [_ Hj]]]].
    rewrite Hj. simpl option_map.
    assert (Ns : node_at ([length pre] ++ [length spre]) doc = Some serial).
    { apply (node_at_snoc [length pre] (length spre) doc devices serial N).
      rewrite Hsch. apply nth_error_middle. }
    erewrite bind_ok; [|apply (get_run _ "type" doc serial Ns)].
    erewrite bind_ok; [|apply (find_child _ "target" doc serial eq_refl Ns)].
    rewrite (first_child_none _ _ Htar). reflexivity.
Qed.

(** In that case, with no path, the edit appends a new serial device to
    the first [devices] element and touches nothing else. *)
Lemma edit_primary_serial_appends (type port : string) doc devices pre post :
  children doc = pre ++ devices :: post ->
  hd_error (tagged "devices" doc) = Some (length pre) ->
  get_primary_serial doc = (Raise AttributeError, doc) ->
  edit_primary_serial type port None doc =
    (Ok tt,
     set_children
       (pre ++ set_children (children devices ++ [new_serial type port]) devices :: post)
       doc).
Proof.
  intros Hch Hi Hget.
  set (C := children devices).
  set (s0 := mkElement "serial" [("type", "pty")] None []).
  set (s1 := mkElement "serial" [("type", "pty")] None
                       [mkElement "target" [("port", "0")] None []]).
  set (s2 := mkElement "serial" [("type", type)] None
                       [mkElement "target" [("port", "0")] None []]).
  set (mk := fun s => set_children (pre ++ set_children (C ++ [s]) devices :: post) doc).
  assert (Hmk : forall s, children (mk s) = pre ++ set_children (C ++ [s]) devices :: post)
    by reflexivity.
  assert (Nmk : forall s, node_at [length pre; length C] (mk s) = Some s).
  { intros s. rewrite (node_at_child (mk s) pre _ post [length C] (Hmk s)).
    rewrite (node_at_child _ C s [] []); reflexivity. }
  assert (Mmk : forall f s p, modify_at (length pre :: length C :: p) f (mk s)
                              = mk (modify_at p f s)).
  { intros f s p. rewrite (modify_at_child f (mk s) pre _ post _ (Hmk s)).
    rewrite (modify_at_child f _ C s [] p); reflexivity. }
  assert (N : node_at [length pre] doc = Some devices)
    by (rewrite (node_at_child doc pre devices post [] Hch); reflexivity).
  unfold edit_primary_serial.
  erewrite bind_ok.
  2:{ erewrite try_raise; [|erewrite bind_raise; [reflexivity | exact Hget]].
      cbv beta iota.
      erewrite bind_ok; [|apply tree_find_run].
      change (path_steps "devices") with ["devices"]. rewrite hd_findall_child, Hi.
      simpl option_map.
      erewrite bind_ok; [|apply (SubElement_run [length pre] _ _ doc devices N)].
      rewrite (modify_at_child _ doc pre devices post [] Hch).
      cbn [modify_at app]. fold C. fold s0. fold (mk s0).
      erewrite bind_ok; [|apply (SubElement_run _ _ _ (mk s0) s0 (Nmk s0))].
      rewrite Mmk. reflexivity. }
  cbn [modify_at children s0 app length].
  fold s1.
  erewrite bind_ok; [|apply (set_run _ "type" type (mk s1) s1 (Nmk s1))].
  rewrite Mmk. cbn [modify_at].
  change (set_attrib (dict_set "type" type (attrib s1)) s1) with s2.
  erewrite bind_ok; [|apply (find_child _ "target" (mk s2) s2 eq_refl (Nmk s2))].
  change (hd_error (tagged "target" s2)) with (Some 0). simpl option_map.
  erewrite bind_ok.
  2:{ apply (set_run _ "port" port (mk s2) (mkElement "target" [("port", "0")] None [])).
      apply (node_at_snoc [length pre; length C] 0 (mk s2) s2 _ (Nmk s2)). reflexivity. }
  erewrite try_raise.
  2:{ erewrite bind_ok.
      2:{ apply (find_child [length pre; length C] "source" _ (new_serial type port) eq_refl).
          change ([length pre; length C] ++ [0]) with (length pre :: length C :: [0]).
          rewrite Mmk. apply Nmk. }
      reflexivity. }
  change ([length pre; length C] ++ [0]) with (length pre :: length C :: [0]).
  rewrite Mmk. reflexivity.
Qed.

(** The name of the domain is read the same after an edit inside one child
    of the root that keeps that child's tag and text. *)
Lemma getter_vm_name_update_child (g : Element -> Element) doc pre c post :
  children doc = pre ++ c :: post ->
  tag (g c) = tag c -> text (g c) = text c ->
  fst (accessors.getter vm_name_property (set_children (pre ++ g c :: post) doc))
  = fst (accessors.getter vm_name_property doc).
Proof.
  intros Hch Htag Htext. rewrite !getter_vm_name_run.
  unfold tagged. simpl children. rewrite Hch, !tagged_from_app. simpl tagged_from.
  rewrite Htag.
  match goal with
  | |- context [hd_error ?l] => destruct (hd_error l) as [k|]; [|reflexivity]
  end.
  destruct (Nat.lt_trichotomy k (length pre)) as [Hlt|[->|Hgt]].
  - rewrite !nth_error_app1 by exact Hlt. reflexivity.
  - rewrite !nth_error_middle. rewrite Htext. reflexivity.
  - rewrite !nth_error_app2 by lia.
    destruct (k - length pre) as [|m] eqn:E; [lia|]. reflexivity.
Qed.

Section Serial.

Context {W : Type} (virsh : virsh_binding W).

(** X13: on a domain whose document has no [devices] element,
    [set_primary_serial] raises [AttributeError], whatever the type, port
    and path, with the dump as its only call: it creates a missing serial
    device, not a missing device list. *)
Theorem set_primary_serial_needs_devices (vm_name type port : string)
        (path : option string) (h0 : host W) doc w1
        (Hdump : virsh_dumpxml virsh vm_name (world h0) = (CmdOk doc, w1))
        (Hdev : first_child "devices" doc = None) :
  set_primary_serial virsh vm_name type port path h0 =
    (Raise AttributeError, mkHost w1 (calls h0 ++ [CallDumpxml vm_name]) (vm h0)).
Proof.
  pose proof (first_child_none _ _ Hdev) as Hi.
  assert (Hfind : tree_find "devices" doc = (Ok None, doc)).
  { rewrite tree_find_run. change (path_steps "devices") with ["devices"].
    rewrite hd_findall_child, Hi. reflexivity. }
  assert (E : edit_primary_serial type port path doc = (Raise AttributeError, doc)).
  { unfold edit_primary_serial.
    erewrite bind_raise; [reflexivity|].
    erewrite try_raise.
    2:{ erewrite bind_raise; [reflexivity|].
        unfold get_primary_serial.
        erewrite bind_ok; [|exact Hfind]. reflexivity. }
    cbv beta iota.
    erewrite bind_ok; [|exact Hfind]. reflexivity. }
  unfold set_primary_serial.
  rewrite (bind_ok _ _ _ _ _ (new_from_dumpxml_run virsh _ h0 _ _ Hdump)).
  erewrite bind_raise; [reflexivity|].
  rewrite invoke_on_fst, E. reflexivity.
Qed.

(** X14: when the first [devices] element of the dumped document has no
    [serial] child, or its first [serial] child has no [target], a call
    with no path appends a new serial device, with the type and port
    given, to that [devices] element and changes nothing else (an existing
    serial device without target stays as it is); that document is then
    the one defined, after the undefine, with no second define if either
    call fails. *)
Theorem set_primary_serial_appends_serial (vm_name type port : string) (h0 : host W)
        doc w1 devices nm ru w2
        (Hdump : virsh_dumpxml virsh vm_name (world h0) = (CmdOk doc, w1))
        (Hdev : first_child "devices" doc = Some devices)
        (Hser : first_child "serial" devices = None
                \/ exists serial, first_child "serial" devices = Some serial
                                  /\ first_child "target" serial = None)
        (Hname : fst (accessors.getter vm_name_property doc) = Ok nm)
        (Hundef : virsh_remove_domain virsh nm w1 = (ru, w2)) :
  exists pre post,
    children doc = pre ++ devices :: post
    /\ filter (has_tag "devices") pre = []
    /\ let d' := set_children
                   (pre ++ set_children (children devices ++ [new_serial type port])
                                        devices :: post) doc in
       set_primary_serial virsh vm_name type port None h0 =
         match ru with
         | CmdFail detail =>
             (Raise (CmdError detail),
              mkHost w2 (calls h0 ++ [CallDumpxml vm_name; CallRemoveDomain nm]) (vm h0))
         | CmdOk _ =>
             (match fst (virsh_define virsh d' w2) with
              | CmdOk _ => Ok tt
              | CmdFail detail => Raise (CmdError detail)
              end,
              mkHost (snd (virsh_define virsh d' w2))
                     (calls h0 ++ [CallDumpxml vm_name; CallRemoveDomain nm; CallDefine d'])
                     (vm h0))
         end.
Proof.
  destruct (first_child_split _ _ _ Hdev) as [pre [post [Hch [Hpre Hi]]]].
  exists pre, post. split; [exact Hch|]. split; [exact Hpre|]. cbv zeta.
  pose proof (edit_primary_serial_appends type port doc devices pre post Hch Hi
                (get_primary_serial_unusable doc devices Hdev Hser)) as E.
  unfold set_primary_serial.
  rewrite (bind_ok _ _ _ _ _ (new_from_dumpxml_run virsh _ h0 _ _ Hdump)).
  erewrite bind_ok; [|apply invoke_on_fst_ok; exact E].
  cbn [snd].
  erewrite undefine_define_run; [| |exact Hundef].
  - destruct ru as [[]|detail]; cbn [calls vm world]; rewrite <- app_assoc; reflexivity.
  - rewrite (getter_vm_name_update_child
               (fun e => set_children (children devices ++ [new_serial type port]) e)
               doc pre devices post Hch eq_refl eq_refl).
    exact Hname.
Qed.

End Serial.

Lemma set_primary_serial_needs_devices_witness :
  first_child "devices" domain_numa = None
  /\ set_primary_serial Libvirt.virsh "vm1" "pty" "0" (Some "/dev/pts/1")
                        (host0 domain_numa []) =
       (Raise AttributeError,
        mkHost (Libvirt.mk [("vm1", domain_numa)] []) [CallDumpxml "vm1"]
               (mkVM "vm1" (Some "0e5b-01") false)).
Proof.
  split; [reflexivity|].
  apply (set_primary_serial_needs_devices
           Libvirt.virsh "vm1" "pty" "0" (Some "/dev/pts/1") (host0 domain_numa [])
           domain_numa (Libvirt.mk [("vm1", domain_numa)] [])); reflexivity.
Defined.

Lemma set_primary_serial_appends_serial_witness :
  let devices := elem "devices" [] [elem "serial" [("type", "file")] []] in
  let w2 := Libvirt.mk [] [] in
  exists pre post,
    children domain_serial_no_target = pre ++ devices :: post
    /\ filter (has_tag "devices") pre = []
    /\ let d' := set_children
                   (pre ++ set_children (children devices ++ [new_serial "pty" "1"])
                                        devices :: post)
                   domain_serial_no_target in
       set_primary_serial Libvirt.virsh "vm1" "pty" "1" None
                          (host0 domain_serial_no_target []) =
         (match fst (virsh_define Libvirt.virsh d' w2) with
          | CmdOk _ => Ok tt
          | CmdFail detail => Raise (CmdError detail)
          end,
          mkHost (snd (virsh_define Libvirt.virsh d' w2))
                 ([] ++ [CallDumpxml "vm1"; CallRemoveDomain (Some "vm1"); CallDefine d'])
                 (mkVM "vm1" (Some "0e5b-01") false)).
Proof.
  cbv zeta.
  apply (set_primary_serial_appends_serial
           Libvirt.virsh "vm1" "pty" "1" (host0 domain_serial_no_target [])
           domain_serial_no_target
           (Libvirt.mk [("vm1", domain_serial_no_target)] [])
           (elem "devices" [] [elem "serial" [("type", "file")] []])
           (Some "vm1") (CmdOk tt) (Libvirt.mk [] [])).
  - reflexivity.
  - reflexivity.
  - right. exists (elem "serial" [("type", "file")] []). split; reflexivity.
  - reflexivity.
  - reflexivity.
Defined.

(** ** tests/mac_change.py *)

Section MacStrings.

Local Open Scope string_scope.

Lemma split_on_nonempty sep s : exists w ws, split_on sep s = w :: ws.
Proof.
  destruct s as [|c s]; simpl; [eauto|].
  destruct (Ascii.eqb c sep); [eauto|].
  destruct (split_on sep s); eauto.
Qed.

Lemma join_cons c sep w ws :
  mac_change.join sep (String c w :: ws) = String c (mac_change.join sep (w :: ws)).
Proof. destruct ws; reflexivity. Qed.

Lemma join_split_colon sep s :
  mac_change.join sep (split_on ":"%char s) =
    match s with
    | EmptyString => EmptyString
    | String c s' =>
        if Ascii.eqb c ":"%char
        then sep ++ mac_change.join sep (split_on ":"%char s')
        else String c (mac_change.join sep (split_on ":"%char s'))
    end.
Proof.
  destruct s as [|c s]; [reflexivity|]. simpl split_on.
  destruct (split_on_nonempty ":"%char s) as [w [ws E]]. rewrite E.
  destruct (Ascii.eqb c ":"%char); [reflexivity | apply join_cons].
Qed.

Lemma mac_without_colons_eq s : mac_change.mac_without_colons s = drop_colons s.
Proof.
  unfold mac_change.mac_without_colons.
  induction s as [|c s IH]; [reflexivity|].
  rewrite join_split_colon. simpl drop_colons.
  destruct (Ascii.eqb c ":"%char); rewrite IH; reflexivity.
Qed.

Lemma mac_with_dashes_eq s : mac_change.mac_with_dashes s = colons_to_dashes s.
Proof.
  unfold mac_change.mac_with_dashes.
  induction s as [|c s IH]; [reflexivity|].
  rewrite join_split_colon. simpl colons_to_dashes.
  destruct (Ascii.eqb c ":"%char); rewrite IH; reflexivity.
Qed.

(** X15: the two strings that [run_mac_change] builds from the new
    address by splitting at the colons and joining again: the argument of
    the Windows change command is the address with every colon taken out,
    and the string looked for in the output of [ipconfig /all] is the
    address with every colon turned into a dash, so it has the length of
    the address. *)
Theorem mac_split_join (new_mac : string) :
  mac_change.mac_without_colons new_mac = drop_colons new_mac
  /\ mac_change.mac_with_dashes new_mac = colons_to_dashes new_mac
  /\ String.length (mac_change.mac_with_dashes new_mac) = String.length new_mac.
Proof.
  split; [apply mac_without_colons_eq|]. split; [apply mac_with_dashes_eq|].
  rewrite mac_with_dashes_eq.
  induction new_mac as [|c s IH]; simpl; [reflexivity | rewrite IH; reflexivity].
Qed.

Lemma is_prefix_substring p s : is_prefix p s = true -> is_substring p s = true.
Proof. intros H. destruct s; simpl; rewrite H; reflexivity. Qed.

Lemma is_substring_tail p c s : is_substring p s = true -> is_substring p (String c s) = true.
Proof. intros H. simpl. rewrite H. apply orb_true_r. Qed.

Lemma search_drive_some s : forall d,
  mac_change.search_drive s = Some d ->
  exists c, d = String c ":" /\ mac_change.is_word c = true /\ is_substring d s = true.
Proof.
  induction s as [|c s IH]; intros d H; simpl in H; [discriminate|].
  destruct s as [|e s']; [discriminate|].
  destruct (mac_change.is_word c && Ascii.eqb e ":"%char) eqn:E.
  - injection H as <-. apply andb_prop in E as [Hw He].
    exists c. split; [reflexivity|]. split; [exact Hw|].
    apply Ascii.eqb_eq in He. subst e.
    apply is_prefix_substring. simpl. rewrite !Ascii.eqb_refl. reflexivity.
  - destruct (IH d H) as [c' [-> [Hw Hs]]].
    exists c'. split; [reflexivity|]. split; [exact Hw|].
    apply is_substring_tail. exact Hs.
Qed.

Lemma search_drive_none s :
  mac_change.search_drive s = None ->
  forall c, mac_change.is_word c = true -> is_substring (String c ":") s = false.
Proof.
  induction s as [|a s IH]; intros H c Hw; [reflexivity|].
  simpl in H. destruct s as [|e s'].
  - simpl. rewrite !andb_false_r. reflexivity.
  - destruct (mac_change.is_word a && Ascii.eqb e ":"%char) eqn:E; [discriminate|].
    change (is_substring (String c ":") (String a (String e s')))
      with (is_prefix (String c ":") (String a (String e s'))
            || is_substring (String c ":") (String e s')).
    rewrite (IH H c Hw), orb_false_r.
    change (is_prefix (String c ":") (String a (String e s')))
      with (Ascii.eqb c a && (Ascii.eqb ":"%char e && true)).
    destruct (Ascii.eqb_spec c a) as [->|]; [|reflexivity].
    destruct (Ascii.eqb_spec ":"%char e) as [<-|]; [|reflexivity].
    rewrite Hw, Ascii.eqb_refl in E. discriminate.
Qed.

(** X16: [get_drive_num] returns a word character followed by a colon
    that occurs in the stripped output of the guest, and raises
    [TestError] only when no word character of that output is followed by
    a colon. *)
Theorem get_drive_num_finds_drive (output path : string) :
  match mac_change.get_drive_num output path with
  | inl drive_num =>
      exists c, drive_num = String c ":" /\ mac_change.is_word c = true
                /\ is_substring drive_num (strip output) = true
  | inr msg =>
      msg = "No path " ++ path ++ " in your guest"
      /\ forall c, mac_change.is_word c = true ->
                   is_substring (String c ":") (strip output) = false
  end.
Proof.
  unfold mac_change.get_drive_num. cbv zeta.
  destruct (mac_change.search_drive (strip output)) as [d|] eqn:E.
  - apply search_drive_some. exact E.
  - split; [reflexivity|]. apply search_drive_none. exact E.
Qed.

End MacStrings.

(** ** set_primary_serial on a serial device that has a target *)

Lemma set_children_children e : set_children (children e) e = e.
Proof. destruct e; reflexivity. Qed.

Lemma has_tag_other t t' x : has_tag t x = true -> String.eqb t t' = false -> has_tag t' x = false.
Proof.
  unfold has_tag. intros H Hne. apply String.eqb_eq in H. rewrite H. exact Hne.
Qed.

Lemma filter_remove_nth_other t l : forall m x,
  nth_error l m = Some x -> has_tag t x = false ->
  filter (has_tag t) (remove_nth m l) = filter (has_tag t) l.
Proof.
  induction l as [|c l IH]; intros [|m] x H Hx; simpl in *; try discriminate.
  - injection H as ->. rewrite Hx. reflexivity.
  - rewrite (IH m x H Hx). reflexivity.
Qed.

Lemma filter_update_nth_other t (g : Element -> Element) l : forall m x,
  nth_error l m = Some x -> has_tag t x = false -> has_tag t (g x) = false ->
  filter (has_tag t) (update_nth m g l) = filter (has_tag t) l.
Proof.
  induction l as [|c l IH]; intros [|m] x H Hx Hgx; simpl in *; try discriminate.
  - injection H as ->. rewrite Hx, Hgx. reflexivity.
  - rewrite (IH m x H Hx Hgx). reflexivity.
Qed.

Lemma filter_length_replace t (g : Element -> Element) pre c post :
  tag (g c) = tag c ->
  length (filter (has_tag t) (pre ++ g c :: post))
  = length (filter (has_tag t) (pre ++ c :: post)).
Proof.
  intros Hg. rewrite !filter_app, !length_app. cbn [filter].
  assert (E : has_tag t (g c) = has_tag t c) by (unfold has_tag; rewrite Hg; reflexivity).
  rewrite E. destruct (has_tag t c); reflexivity.
Qed.

Lemma tagged_replace t (g : Element -> Element) pre c post :
  tag (g c) = tag c ->
  tagged_from 0 t (pre ++ g c :: post) = tagged_from 0 t (pre ++ c :: post).
Proof.
  intros Hg. rewrite !tagged_from_app. simpl. rewrite Hg. reflexivity.
Qed.

(** The edit on a document whose primary serial device has a target: the
    serial device is replaced, in place, by one that carries the type and
    port given; with no path, its first [source] child (if any) is gone;
    with a path, given that it has a [source] child, the first one carries
    that path. *)
Lemma edit_primary_serial_configures (type port : string) (path : option string)
      doc devices serial target :
  first_child "devices" doc = Some devices ->
  first_child "serial" devices = Some serial ->
  first_child "target" serial = Some target ->
  (path <> None -> first_child "source" serial <> None) ->
  exists pre post spre spost serial',
    children doc = pre ++ devices :: post
    /\ children devices = spre ++ serial :: spost
    /\ filter (has_tag "devices") pre = []
    /\ filter (has_tag "serial") spre = []
    /\ edit_primary_serial type port path doc =
         (Ok tt,
          set_children
            (pre ++ set_children (spre ++ serial' :: spost) devices :: post) doc)
    /\ tag serial' = tag serial /\ text serial' = text serial
    /\ dict_get "type" (attrib serial') = Some type
    /\ target_port serial' = Some port
    /\ match path with
       | Some p => source_path serial' = Some p
       | None =>
           length (filter (has_tag "source") (children serial'))
           = pred (length (filter (has_tag "source") (children serial)))
       end.
Proof.
  intros Hdev Hser Htar Hsrc.
  destruct (first_child_split _ _ _ Hdev) as [pre [post [Hch [Hpre Hi]]]].
  destruct (first_child_split _ _ _ Hser) as [spre [spost [Hsch [Hspre Hj]]]].
  destruct (first_child_split _ _ _ Htar) as [tpre [tpost [Htch [Htpre Hk]]]].
  set (mk := fun s => set_children
                        (pre ++ set_children (spre ++ s :: spost) devices :: post) doc).
  assert (Hmk : forall s, children (mk s)
                          = pre ++ set_children (spre ++ s :: spost) devices :: post)
    by reflexivity.
  assert (Nmk : forall s, node_at [length pre; length spre] (mk s) = Some s).
  { intros s. rewrite (node_at_child (mk s) pre _ post [length spre] (Hmk s)).
    rewrite (node_at_child _ spre s spost []); reflexivity. }
  assert (Mmk : forall f s p, modify_at (length pre :: length spre :: p) f (mk s)
                              = mk (modify_at p f s)).
  { intros f s p. rewrite (modify_at_child f (mk s) pre _ post _ (Hmk s)).
    rewrite (modify_at_child f _ spre s spost p); reflexivity. }
  assert (Hdoc : mk serial = doc).
  { unfold mk. rewrite <- Hsch, set_children_children, <- Hch. apply set_children_children. }
  set (s1 := set_attrib (dict_set "type" type (attrib serial)) serial).
  set (target' := set_attrib (dict_set "port" port (attrib target)) target).
  set (L2 := tpre ++ target' :: tpost).
  set (s2 := set_children L2 s1).
  assert (Htag2 : has_tag "target" target' = true).
  { destruct (tagged_first "target" serial _ Hk) as [p0 [c0 [q0 [E0 [El [Hc0 _]]]]]].
    rewrite Htch in E0.
    assert (Hp : p0 = tpre /\ c0 = target).
    { clear - E0 El. revert p0 E0 El. induction tpre as [|x tpre IH]; intros [|y p0] E0 El;
        simpl in *; try discriminate.
      - injection E0 as -> _. split; reflexivity.
      - injection E0 as -> E0. injection El as El.
        destruct (IH p0 E0 El) as [-> ->]. split; reflexivity. }
    destruct Hp as [_ ->]. exact Hc0. }
  assert (Hport2 : target_port s2 = Some port).
  { unfold target_port. simpl children. unfold L2. rewrite filter_app, Htpre. simpl.
    rewrite Htag2. unfold target'. simpl attrib. apply dict_get_set. }
  assert (Hsrc_len : length (filter (has_tag "source") L2)
                     = length (filter (has_tag "source") (children serial))).
  { unfold L2. rewrite Htch.
    apply (filter_length_replace "source"
             (fun t => set_attrib (dict_set "port" port (attrib t)) t)). reflexivity. }
  (* the steps up to the setting of the port *)
  assert (Hrun : forall k : option ref -> M Element unit,
             (serial <- try_except (f <- get_primary_serial ;; ret (feat_serial f))
                          (fun e => match e with
                                    | AttributeError =>
                                        devices <- tree_find "devices" ;;
                                        serial <- SubElement devices "serial" [("type", "pty")] ;;
                                        _ <- SubElement (Some serial) "target" [("port", "0")] ;;
                                        ret (Some serial)
                                    | _ => raise e
                                    end) ;;
              set serial "type" type ;;
              target <- find serial "target" ;;
              set target "port" port ;;
              k serial) doc
             = k (Some [length pre; length spre]) (mk s2)).
  { intros k.
    assert (N : node_at [length pre] doc = Some devices)
      by (rewrite (node_at_child doc pre devices post [] Hch); reflexivity).
    assert (Ns : node_at [length pre; length spre] doc = Some serial)
      by (rewrite <- Hdoc at 1; apply Nmk).
    assert (Nt : node_at [length pre; length spre; length tpre] doc = Some target).
    { apply (node_at_snoc [length pre; length spre] (length tpre) doc serial target Ns).
      rewrite Htch. apply nth_error_middle. }
    erewrite bind_ok.
    2:{ apply try_ok. erewrite bind_ok; [reflexivity|]. unfold get_primary_serial.
        erewrite bind_ok; [|apply tree_find_run].
        change (path_steps "devices") with ["devices"]. rewrite hd_findall_child, Hi.
        simpl option_map.
        erewrite bind_ok; [|apply (find_child [length pre] "serial" doc devices eq_refl N)].
        rewrite Hj. simpl option_map.
        erewrite bind_ok; [|apply (get_run _ "type" doc serial Ns)].
        erewrite bind_ok; [|apply (find_child _ "target" doc serial eq_refl Ns)].
        rewrite Hk. simpl option_map.
        erewrite bind_ok; [|apply (get_run _ "port" doc target Nt)].
        reflexivity. }
    cbn [feat_serial].
    erewrite bind_ok; [|apply (set_run _ "type" type doc serial Ns)].
    rewrite <- Hdoc at 1. rewrite Mmk. cbn [modify_at]. fold s1.
    erewrite bind_ok; [|apply (find_child _ "target" (mk s1) s1 eq_refl (Nmk s1))].
    change (tagged "target" s1) with (tagged "target" serial). rewrite Hk.
    simpl option_map.
    erewrite bind_ok.
    2:{ apply (set_run _ "port" port (mk s1) target).
        apply (node_at_snoc [length pre; length spre] (length tpre) (mk s1) s1 target (Nmk s1)).
        change (children s1) with (children serial). rewrite Htch. apply nth_error_middle. }
    change ([length pre; length spre] ++ [length tpre])
      with (length pre :: length spre :: [length tpre]).
    rewrite Mmk.
    rewrite (modify_at_child _ s1 tpre target tpost [] Htch). reflexivity. }
  assert (Htagged2 : tagged "source" s2 = tagged "source" serial).
  { unfold tagged. simpl children. unfold L2. rewrite Htch.
    apply (tagged_replace "source"
             (fun t => set_attrib (dict_set "port" port (attrib t)) t)). reflexivity. }
  exists pre, post, spre, spost.
  unfold edit_primary_serial.
  destruct path as [p|].
  - (* a path: the first source child gets it *)
    destruct (first_child "source" serial) as [source|] eqn:Hsource;
      [|exfalso; apply (Hsrc ltac:(discriminate)); reflexivity].
    assert (Hm : exists m, hd_error (tagged "source" s2) = Some m).
    { rewrite Htagged2. rewrite first_child_tagged in Hsource.
      destruct (hd_error (tagged "source" serial)) as [m|]; [eauto | discriminate]. }
    destruct Hm as [m Hm].
    destruct (tagged_first "source" s2 m Hm) as [lpre [x [lpost [HL [-> [Hx Hlpre]]]]]].
    simpl children in HL.
    set (x' := set_attrib (dict_set "path" p (attrib x)) x).
    exists (set_children (lpre ++ x' :: lpost) s2).
    split; [exact Hch|]. split; [exact Hsch|]. split; [exact Hpre|]. split; [exact Hspre|].
    split; [|split; [reflexivity|split; [reflexivity|split; [|split]]]].
    + rewrite (Hrun (fun serial => source <- find serial "source" ;; set source "path" p)).
      erewrite bind_ok; [|apply (find_child _ "source" (mk s2) s2 eq_refl (Nmk s2))].
      rewrite Hm. simpl option_map.
      erewrite set_run.
      2:{ apply (node_at_snoc [length pre; length spre] (length lpre) (mk s2) s2 x (Nmk s2)).
          simpl children. rewrite HL. apply nth_error_middle. }
      change ([length pre; length spre] ++ [length lpre])
        with (length pre :: length spre :: [length lpre]).
      rewrite Mmk.
      rewrite (modify_at_child _ s2 lpre x lpost [] HL). reflexivity.
    + simpl attrib. apply dict_get_set.
    + unfold target_port in *. simpl children in *. rewrite HL in Hport2. unfold x'.
      rewrite <- (update_nth_middle (fun e => set_attrib (dict_set "path" p (attrib e)) e)
                                    lpre x lpost).
      rewrite (filter_update_nth_other "target" _ (lpre ++ x :: lpost) (length lpre) x);
        [exact Hport2 | apply nth_error_middle | |].
      * apply (has_tag_other "source" "target" x Hx). reflexivity.
      * apply (has_tag_other "source" "target" x Hx). reflexivity.
    + unfold source_path. simpl children. rewrite filter_app, Hlpre. simpl.
      unfold has_tag at 1. simpl tag. unfold has_tag in Hx. rewrite Hx.
      simpl. apply dict_get_set.
  - (* no path: the first source child, if any, is removed *)
    destruct (hd_error (tagged "source" s2)) as [m|] eqn:Hm.
    + destruct (tagged_first "source" s2 m Hm) as [lpre [x [lpost [HL [-> [Hx Hlpre]]]]]].
      simpl children in HL.
      exists (set_children (remove_nth (length lpre) L2) s2).
      split; [exact Hch|]. split; [exact Hsch|]. split; [exact Hpre|]. split; [exact Hspre|].
      split; [|split; [reflexivity|split; [reflexivity|split; [|split]]]].
      * rewrite (Hrun (fun serial =>
                         try_except (source <- find serial "source" ;; remove serial source)
                           (fun e => match e with
                                     | AssertionError => ret tt
                                     | _ => raise e
                                     end))).
        apply try_ok.
        erewrite bind_ok; [|apply (find_child _ "source" (mk s2) s2 eq_refl (Nmk s2))].
        rewrite Hm. simpl option_map.
        assert (Nx : node_at [length pre; length spre; length lpre] (mk s2) = Some x).
        { apply (node_at_snoc [length pre; length spre] (length lpre) (mk s2) s2 x (Nmk s2)).
          simpl children. rewrite HL. apply nth_error_middle. }
        cbn [app]. unfold remove, bind, deref. rewrite (Nmk s2), Nx.
        cbn [split_last ref_eqb]. rewrite !Nat.eqb_refl. cbn [andb].
        rewrite Mmk. reflexivity.
      * simpl attrib. apply dict_get_set.
      * unfold target_port in *. simpl children in *.
        rewrite (filter_remove_nth_other "target" L2 (length lpre) x);
          [exact Hport2 | rewrite HL; apply nth_error_middle |].
        apply (has_tag_other "source" "target" x Hx). reflexivity.
      * simpl children. rewrite <- Hsrc_len.
        pose proof (filter_remove_nth "source" L2 0 0 (length lpre)) as Hf.
        rewrite Nat.sub_0_r in Hf. rewrite Hf.
        -- destruct (filter (has_tag "source") L2); reflexivity.
        -- unfold tagged in Hm. simpl children in Hm.
           destruct (tagged_from 0 "source" L2); [discriminate|].
           simpl in Hm. injection Hm as ->. reflexivity.
    + exists s2.
      split; [exact Hch|]. split; [exact Hsch|]. split; [exact Hpre|]. split; [exact Hspre|].
      split; [|split; [reflexivity|split; [reflexivity|split; [|split]]]].
      * rewrite (Hrun (fun serial =>
                         try_except (source <- find serial "source" ;; remove serial source)
                           (fun e => match e with
                                     | AssertionError => ret tt
                                     | _ => raise e
                                     end))).
        erewrite try_raise.
        2:{ erewrite bind_ok; [|apply (find_child _ "source" (mk s2) s2 eq_refl (Nmk s2))].
            rewrite Hm. reflexivity. }
        reflexivity.
      * simpl attrib. apply dict_get_set.
      * exact Hport2.
      * simpl children. rewrite <- Hsrc_len.
        pose proof (tagged_none "source" s2 Hm) as Hnone. simpl children in Hnone.
        rewrite Hnone. reflexivity.
Qed.

Section SerialConfigure.

Context {W : Type} (virsh : virsh_binding W).

(** X17: when the first [devices] element of the dumped document has a
    [serial] child whose first one has a [target], and, for a call with a
    path, that serial device has a [source] child, [set_primary_serial]
    replaces that serial device in place by one with the same tag and text
    that carries the type and the target port given; with a path its first
    [source] carries the path, with no path it has one [source] child less
    (none less when it had none).  Nothing else of the document changes,
    and that document is the one defined, after the undefine, with no
    second define if either call fails. *)
Theorem set_primary_serial_configures (vm_name type port : string)
        (path : option string) (h0 : host W)
        doc w1 devices serial target nm ru w2
        (Hdump : virsh_dumpxml virsh vm_name (world h0) = (CmdOk doc, w1))
        (Hdev : first_child "devices" doc = Some devices)
        (Hser : first_child "serial" devices = Some serial)
        (Htar : first_child "target" serial = Some target)
        (Hsrc : path <> None -> first_child "source" serial <> None)
        (Hname : fst (accessors.getter vm_name_property doc) = Ok nm)
        (Hundef : virsh_remove_domain virsh nm w1 = (ru, w2)) :
  exists pre post spre spost serial',
    children doc = pre ++ devices :: post
    /\ children devices = spre ++ serial :: spost
    /\ filter (has_tag "devices") pre = []
    /\ filter (has_tag "serial") spre = []
    /\ tag serial' = tag serial /\ text serial' = text serial
    /\ dict_get "type" (attrib serial') = Some type
    /\ target_port serial' = Some port
    /\ match path with
       | Some p => source_path serial' = Some p
       | None =>
           length (filter (has_tag "source") (children serial'))
           = pred (length (filter (has_tag "source") (children serial)))
       end
    /\ let d' := set_children
                   (pre ++ set_children (spre ++ serial' :: spost) devices :: post)
                   doc in
       set_primary_serial virsh vm_name type port path h0 =
         match ru with
         | CmdFail detail =>
             (Raise (CmdError detail),
              mkHost w2 (calls h0 ++ [CallDumpxml vm_name; CallRemoveDomain nm]) (vm h0))
         | CmdOk _ =>
             (match fst (virsh_define virsh d' w2) with
              | CmdOk _ => Ok tt
              | CmdFail detail => Raise (CmdError detail)
              end,
              mkHost (snd (virsh_define virsh d' w2))
                     (calls h0 ++ [CallDumpxml vm_name; CallRemoveDomain nm; CallDefine d'])
                     (vm h0))
         end.
Proof.
  destruct (edit_primary_serial_configures type port path doc devices serial target
              Hdev Hser Htar Hsrc)
    as [pre [post [spre [spost [serial' [Hch [Hsch [Hpre [Hspre [E [Ht [Hx [Hty [Hpo Hpa]]]]]]]]]]]]]].
  exists pre, post, spre, spost, serial'.
  repeat (split; [assumption|]). cbv zeta.
  unfold set_primary_serial.
  rewrite (bind_ok _ _ _ _ _ (new_from_dumpxml_run virsh _ h0 _ _ Hdump)).
  erewrite bind_ok; [|apply invoke_on_fst_ok; exact E].
  cbn [snd].
  erewrite undefine_define_run; [| |exact Hundef].
  - destruct ru as [[]|detail]; cbn [calls vm world]; rewrite <- app_assoc; reflexivity.
  - rewrite (getter_vm_name_update_child
               (fun e => set_children (spre ++ serial' :: spost) e)
               doc pre devices post Hch eq_refl eq_refl).
    exact Hname.
Qed.

End SerialConfigure.

Lemma set_primary_serial_configures_witness :
  let serial := elem "serial" [("type", "file")]
                     [elem "source" [("path", "/tmp/serial.log")] [];
                      elem "target" [("port", "0")] []] in
  let devices := elem "devices" [] [serial] in
  let w2 := Libvirt.mk [] [] in
  exists pre post spre spost serial',
    children domain_serial_source = pre ++ devices :: post
    /\ children devices = spre ++ serial :: spost
    /\ filter (has_tag "devices") pre = []
    /\ filter (has_tag "serial") spre = []
    /\ tag serial' = tag serial /\ text serial' = text serial
    /\ dict_get "type" (attrib serial') = Some "pty"
    /\ target_port serial' = Some "1"
    /\ source_path serial' = Some "/dev/pts/1"
    /\ let d' := set_children
                   (pre ++ set_children (spre ++ serial' :: spost) devices :: post)
                   domain_serial_source in
       set_primary_serial Libvirt.virsh "vm1" "pty" "1" (Some "/dev/pts/1")
                          (host0 domain_serial_source []) =
         (match fst (virsh_define Libvirt.virsh d' w2) with
          | CmdOk _ => Ok tt
          | CmdFail detail => Raise (CmdError detail)
          end,
          mkHost (snd (virsh_define Libvirt.virsh d' w2))
                 ([] ++ [CallDumpxml "vm1"; CallRemoveDomain (Some "vm1"); CallDefine d'])
                 (mkVM "vm1" (Some "0e5b-01") false)).
Proof.
  cbv zeta.
  apply (set_primary_serial_configures
           Libvirt.virsh "vm1" "pty" "1" (Some "/dev/pts/1")
           (host0 domain_serial_source [])
           domain_serial_source
           (Libvirt.mk [("vm1", domain_serial_source)] [])
           (elem "devices" []
                 [elem "serial" [("type", "file")]
                       [elem "source" [("path", "/tmp/serial.log")] [];
                        elem "target" [("port", "0")] []]])
           (elem "serial" [("type", "file")]
                 [elem "source" [("path", "/tmp/serial.log")] [];
                  elem "target" [("port", "0")] []])
           (elem "target" [("port", "0")] [])
           (Some "vm1") (CmdOk tt) (Libvirt.mk [] [])).
  - reflexivity.
  - reflexivity.
  - reflexivity.
  - reflexivity.
  - intros _. discriminate.
  - reflexivity.
  - reflexivity.
Defined.
